(** * The chat gateway of the interview assistant (src/app/api/chat/route.ts)

    A shallow embedding of the route's provider registry ([detectProvider]),
    prompt synthesizer ([getSystemPrompt]), wire adapters and stream
    transforms, followed by the properties established about them.

    Conventions of the embedding.
    - A JavaScript string is a [string]: one character per code unit, for
      text in the Latin-1 range.
    - [process.env] is a finite map from variable names to values.
    - The built-ins the route calls but does not define ([JSON.parse], the
      rendering of numbers, the members every object literal inherits) are
      the fields of the class [Platform]; the module [Reference] gives one
      concrete instance of it, used to run the model on concrete inputs.
    - [decoder.decode] and [encoder.encode] are the identity: an upstream
      chunk is identified with the text it decodes to and an emitted chunk
      with the text it encodes. *)

From Stdlib Require Import Ascii String ZArith QArith DecimalString.
From stdpp Require Import base strings list gmap option.

Local Open Scope string_scope.
Set Warnings "-register-all".

(** ** Characters that cannot be written inside a literal *)

Definition nl : string := String "010"%char EmptyString.
Definition dq : string := String "034"%char EmptyString.

(** ** The String and Array built-ins the route uses *)

Module JsString.

(** White space as [String.prototype.trim] sees it, in the Latin-1 range:
    TAB, LF, VT, FF, CR, SP and NBSP. *)
Definition isWhiteSpace (c : ascii) : bool :=
  let n := nat_of_ascii c in
  (n =? 9)%nat || (n =? 10)%nat || (n =? 11)%nat || (n =? 12)%nat
  || (n =? 13)%nat || (n =? 32)%nat || (n =? 160)%nat.

Fixpoint trimStart (s : string) : string :=
  match s with
  | EmptyString => EmptyString
  | String c r => if isWhiteSpace c then trimStart r else s
  end.

Fixpoint trimEnd (s : string) : string :=
  match s with
  | EmptyString => EmptyString
  | String c r =>
      match trimEnd r with
      | EmptyString => if isWhiteSpace c then EmptyString else String c EmptyString
      | r' => String c r'
      end
  end.

(** [s.trim()] *)
Definition trim (s : string) : string := trimEnd (trimStart s).

(** [s.startsWith(p)] *)
Fixpoint startsWith (p s : string) : bool :=
  match p, s with
  | EmptyString, _ => true
  | String a p', String b s' => Ascii.eqb a b && startsWith p' s'
  | String _ _, EmptyString => false
  end.

(** [s.slice(n)] for a non-negative [n] *)
Fixpoint slice (n : nat) (s : string) : string :=
  match n, s with
  | O, _ => s
  | S n', String _ r => slice n' r
  | S _, EmptyString => EmptyString
  end.

(** [s.split(sep)] for a separator of one character; the route only ever
    splits on the line feed. *)
Fixpoint split (sep : ascii) (s : string) : list string :=
  match s with
  | EmptyString => [EmptyString]
  | String c r =>
      if Ascii.eqb c sep then EmptyString :: split sep r
      else match split sep r with
           | h :: t => String c h :: t
           | [] => [String c EmptyString]
           end
  end.

(** [a.join(sep)] on an array of strings *)
Definition join (sep : string) (a : list string) : string := String.concat sep a.

(** [a.includes(x)] on an array of strings *)
Definition includes (a : list string) (x : string) : bool :=
  existsb (String.eqb x) a.

(** [s] is not the empty string *)
Definition nonEmpty (s : string) : bool := negb (String.eqb s EmptyString).

(** The concatenation of a list of strings, as a reader of the response
    body sees the emitted chunks. *)
Definition concat (a : list string) : string := String.concat EmptyString a.

End JsString.

Import JsString.

(** ** Values, completions and JSON *)

(** What [JSON.parse] can return, over the platform's numbers. The
    properties of an object are kept in an association list read from the
    front. *)
Inductive json (number : Type) : Type :=
| JNull
| JBool (b : bool)
| JNumber (n : number)
| JString (s : string)
| JArray (items : list (json number))
| JObject (props : list (string * json number)).

Arguments JNull {number}.
Arguments JBool {number} b.
Arguments JNumber {number} n.
Arguments JString {number} s.
Arguments JArray {number} items.
Arguments JObject {number} props.

(** The errors the route can meet inside its [try] blocks. *)
Inductive JsError := SyntaxError | TypeError.

(** A statement either completes normally or throws. *)
Inductive completion (A : Type) : Type :=
| Normal (a : A)
| Throw (e : JsError).

Arguments Normal {A} a.
Arguments Throw {A} e.

Definition bind {A B : Type} (c : completion A) (k : A -> completion B) : completion B :=
  match c with
  | Normal a => k a
  | Throw e => Throw e
  end.

Notation "x <- c ;; k" := (bind c (fun x => k))
  (at level 100, c at next level, right associativity).

(** [try { body } catch { }] where the body yields the chunks it enqueued:
    a throw is swallowed. In every [try] block of the route the enqueue is
    the last statement, so a body that throws has enqueued nothing. *)
Definition try_catch (body : completion (list string)) : list string :=
  match body with
  | Normal out => out
  | Throw _ => []
  end.

(** First binding of a key in an association list. *)
Fixpoint assoc {V : Type} (k : string) (l : list (string * V)) : option V :=
  match l with
  | [] => None
  | (k', v) :: r => if String.eqb k k' then Some v else assoc k r
  end.

(** The built-ins of the JavaScript platform that the route relies on. *)
Class Platform := {
  (** the platform's numbers *)
  number : Type;
  (** [!!n] *)
  number_truthy : number -> bool;
  (** [String(n)], as a template literal renders a number *)
  number_toString : number -> string;
  (** [JSON.parse(text)]; it throws a [SyntaxError] on text that is not JSON *)
  JSON_parse : string -> completion (json number);
  (** the members an object literal inherits from [Object.prototype], each
      with the text it renders to; all of them are truthy *)
  Object_prototype : string -> option string
}.

(** ** A reference platform

    One concrete choice of the built-ins, for running the model: numbers are
    the integers that a double holds exactly, and the JSON reader covers the
    JSON grammar for Latin-1 text whose number literals are integers (it
    rejects a fraction or an exponent, and a [\u] escape above [00FF]). *)

Module Reference.

Definition num : Type := Z.

(** [!!n] *)
Definition truthy (n : num) : bool := negb (n =? 0)%Z.

(** [String(n)] *)
Definition toString (n : num) : string :=
  NilZero.string_of_int (Z.to_int n).

Definition isJsonSpace (c : ascii) : bool :=
  let n := nat_of_ascii c in
  (n =? 32)%nat || (n =? 9)%nat || (n =? 10)%nat || (n =? 13)%nat.

Fixpoint skip_ws (s : string) : string :=
  match s with
  | EmptyString => EmptyString
  | String c r => if isJsonSpace c then skip_ws r else s
  end.

Definition digit (c : ascii) : option Z :=
  let n := nat_of_ascii c in
  if (48 <=? n)%nat && (n <=? 57)%nat then Some (Z.of_nat (n - 48)) else None.

Definition hex (c : ascii) : option nat :=
  let n := nat_of_ascii c in
  if (48 <=? n)%nat && (n <=? 57)%nat then Some (n - 48)%nat
  else if (65 <=? n)%nat && (n <=? 70)%nat then Some (n - 55)%nat
  else if (97 <=? n)%nat && (n <=? 102)%nat then Some (n - 87)%nat
  else None.

(** The character an escape letter stands for. *)
Definition escape (c : ascii) : option ascii :=
  if Ascii.eqb c "034" then Some "034"%char
  else if Ascii.eqb c "\" then Some "\"%char
  else if Ascii.eqb c "/" then Some "/"%char
  else if Ascii.eqb c "b" then Some "008"%char
  else if Ascii.eqb c "f" then Some "012"%char
  else if Ascii.eqb c "n" then Some "010"%char
  else if Ascii.eqb c "r" then Some "013"%char
  else if Ascii.eqb c "t" then Some "009"%char
  else None.

(** The characters of a string literal, after its opening quote, up to
    and including the closing quote. *)
Fixpoint read_chars (s : string) : option (string * string) :=
  match s with
  | EmptyString => None
  | String c r =>
      if Ascii.eqb c "034" then Some (EmptyString, r)
      else if Ascii.eqb c "\" then
        match r with
        | String e r1 =>
            if Ascii.eqb e "u" then
              match r1 with
              | String h1 (String h2 (String h3 (String h4 r2))) =>
                  match hex h1, hex h2, hex h3, hex h4 with
                  | Some 0%nat, Some 0%nat, Some a, Some b =>
                      match read_chars r2 with
                      | Some (t, rest) => Some (String (ascii_of_nat (16 * a + b)) t, rest)
                      | None => None
                      end
                  | _, _, _, _ => None
                  end
              | _ => None
              end
            else
              match escape e, read_chars r1 with
              | Some x, Some (t, rest) => Some (String x t, rest)
              | _, _ => None
              end
        | EmptyString => None
        end
      else if (nat_of_ascii c <? 32)%nat then None
      else
        match read_chars r with
        | Some (t, rest) => Some (String c t, rest)
        | None => None
        end
  end.

Fixpoint read_digits (acc : Z) (s : string) : Z * string :=
  match s with
  | EmptyString => (acc, s)
  | String c r =>
      match digit c with
      | Some d => read_digits (10 * acc + d)%Z r
      | None => (acc, s)
      end
  end.

(** A character that would continue a number literal beyond its integer
    part. *)
Definition continuesNumber (s : string) : bool :=
  match s with
  | String c _ =>
      Ascii.eqb c "." || Ascii.eqb c "e" || Ascii.eqb c "E"
      || match digit c with Some _ => true | None => false end
  | EmptyString => false
  end.

Definition read_unsigned (s : string) : option (Z * string) :=
  match s with
  | String c r =>
      match digit c with
      | Some 0%Z => if continuesNumber r then None else Some (0%Z, r)
      | Some _ =>
          let '(n, rest) := read_digits 0 s in
          if continuesNumber rest then None else Some (n, rest)
      | None => None
      end
  | EmptyString => None
  end.

Definition read_number (s : string) : option (Z * string) :=
  match s with
  | String c r =>
      if Ascii.eqb c "-" then
        match read_unsigned r with
        | Some (n, rest) => Some ((- n)%Z, rest)
        | None => None
        end
      else read_unsigned s
  | EmptyString => None
  end.

(** A later binding of a key replaces the earlier one. *)
Fixpoint put (k : string) (v : json num) (l : list (string * json num))
  : list (string * json num) :=
  match l with
  | [] => [(k, v)]
  | (k', v') :: r => if String.eqb k k' then (k, v) :: r else (k', v') :: put k v r
  end.

Fixpoint read_value (fuel : nat) (s : string) {struct fuel}
  : option (json num * string) :=
  match fuel with
  | O => None
  | S fuel' =>
      match skip_ws s with
      | EmptyString => None
      | String c r as s' =>
          if Ascii.eqb c "{" then
            match skip_ws r with
            | String c' r' =>
                if Ascii.eqb c' "}" then Some (JObject [], r')
                else read_members fuel' [] (String c' r')
            | EmptyString => None
            end
          else if Ascii.eqb c "[" then
            match skip_ws r with
            | String c' r' =>
                if Ascii.eqb c' "]" then Some (JArray [], r')
                else read_elements fuel' [] (String c' r')
            | EmptyString => None
            end
          else if Ascii.eqb c "034" then
            match read_chars r with
            | Some (t, rest) => Some (JString t, rest)
            | None => None
            end
          else if startsWith "true" s' then Some (JBool true, slice 4 s')
          else if startsWith "false" s' then Some (JBool false, slice 5 s')
          else if startsWith "null" s' then Some (JNull, slice 4 s')
          else
            match read_number s' with
            | Some (n, rest) => Some (JNumber n, rest)
            | None => None
            end
      end
  end
with read_elements (fuel : nat) (acc : list (json num)) (s : string) {struct fuel}
  : option (json num * string) :=
  match fuel with
  | O => None
  | S fuel' =>
      match read_value fuel' s with
      | Some (v, r) =>
          match skip_ws r with
          | String c r' =>
              if Ascii.eqb c "," then read_elements fuel' (acc ++ [v]) r'
              else if Ascii.eqb c "]" then Some (JArray (acc ++ [v]), r')
              else None
          | EmptyString => None
          end
      | None => None
      end
  end
with read_members (fuel : nat) (acc : list (string * json num)) (s : string) {struct fuel}
  : option (json num * string) :=
  match fuel with
  | O => None
  | S fuel' =>
      match skip_ws s with
      | String q r =>
          if Ascii.eqb q "034" then
            match read_chars r with
            | Some (k, r1) =>
                match skip_ws r1 with
                | String colon r2 =>
                    if Ascii.eqb colon ":" then
                      match read_value fuel' r2 with
                      | Some (v, r3) =>
                          match skip_ws r3 with
                          | String c r4 =>
                              if Ascii.eqb c "," then read_members fuel' (put k v acc) r4
                              else if Ascii.eqb c "}" then Some (JObject (put k v acc), r4)
                              else None
                          | EmptyString => None
                          end
                      | None => None
                      end
                    else None
                | EmptyString => None
                end
            | None => None
            end
          else None
      | EmptyString => None
      end
  end.

(** [JSON.parse(text)]: one value, then nothing but white space. *)
Definition parse (text : string) : completion (json num) :=
  match read_value (2 * String.length text + 2) text with
  | Some (v, rest) =>
      match skip_ws rest with
      | EmptyString => Normal v
      | String _ _ => Throw SyntaxError
      end
  | None => Throw SyntaxError
  end.

(** The members an object literal inherits from [Object.prototype], each
    with the text it renders to inside a template literal. *)
Definition inherited (k : string) : option string :=
  if String.eqb k "__proto__" then Some "[object Object]"
  else if String.eqb k "constructor" then Some "function Object() { [native code] }"
  else if includes
            ["hasOwnProperty"; "isPrototypeOf"; "propertyIsEnumerable";
             "toLocaleString"; "toString"; "valueOf"; "__defineGetter__";
             "__defineSetter__"; "__lookupGetter__"; "__lookupSetter__"] k
  then Some ("function " +:+ k +:+ "() { [native code] }")
  else None.

(** Writing JSON text in examples: an apostrophe stands for a double
    quote. *)
Fixpoint q (s : string) : string :=
  match s with
  | EmptyString => EmptyString
  | String c r => String (if Ascii.eqb c "'" then "034"%char else c) (q r)
  end.

#[export] Instance platform : Platform := {|
  number := num;
  number_truthy := truthy;
  number_toString := toString;
  JSON_parse := parse;
  Object_prototype := inherited
|}.

End Reference.

(** ** Data model *)

Inductive Role := system | user | assistant.

Record Message := { role : Role; content : string }.

(** [type Provider = "openai" | "anthropic" | "huggingface" | "ollama" | null]:
    a [Provider] is an optional [ProviderName], [None] being [null]. *)
Inductive ProviderName := openai | anthropic | huggingface | ollama.

Definition Provider : Type := option ProviderName.

Definition providerName (p : ProviderName) : string :=
  match p with
  | openai => "openai"
  | anthropic => "anthropic"
  | huggingface => "huggingface"
  | ollama => "ollama"
  end.

(** The request bodies handed to [JSON.stringify], one record per backend. *)
Module OpenAI.
Record payload := {
    model : string;
    messages : list Message;
    stream : bool;
    temperature : Q;
    max_tokens : Z
  }.
End OpenAI.

Module Anthropic.
Record payload := {
    model : string;
    max_tokens : Z;
    system : string;
    messages : list Message;
    stream : bool
  }.
End Anthropic.

Module Ollama.
Record payload := {
    model : string;
    prompt : string;
    max_tokens : Z;
    temperature : Q;
    stream : bool
  }.
End Ollama.

Module HuggingFace.
Record payload := {
    inputs : string;
    max_new_tokens : Z;
    temperature : Q;
    return_full_text : bool
  }.
End HuggingFace.

Inductive Payload :=
| OpenAIPayload (b : OpenAI.payload)
| AnthropicPayload (b : Anthropic.payload)
| OllamaPayload (b : Ollama.payload)
| HuggingFacePayload (b : HuggingFace.payload).

(** The arguments of a [fetch] call. *)
Record HttpRequest := {
  url : string;
  method : string;
  headers : list (string * string);
  body : Payload
}.

(** What the [POST] handler does with a request: it answers with
    [NextResponse.json({ error }, { status })] without calling any backend,
    or it invokes the adapter of a provider, whose first action is the
    [fetch] of the given request. *)
Inductive Outcome :=
| JsonError (status : nat) (error : string)
| Dispatch (p : ProviderName) (request : HttpRequest).

(** The body of the [GET] response. *)
Record Health := {
  status : string;
  provider : string;
  availableProviders : list (string * bool)
}.

(** The three streaming wire formats. *)
Inductive Wire := OpenAIWire | AnthropicWire | OllamaWire.

(** ** [process.env] *)

Abbreviation Env := (gmap string string).

(** [!!process.env.NAME] : an unset variable and an empty one are falsy. *)
Definition isSet (env : Env) (name : string) : bool :=
  match env !! name with
  | Some v => nonEmpty v
  | None => false
  end.

(** [a || b] on strings that may be undefined *)
Definition orElse (a : option string) (b : string) : string :=
  match a with
  | Some v => if nonEmpty v then v else b
  | None => b
  end.

(** [`${a}`] on a string that may be undefined *)
Definition interpolate (a : option string) : string :=
  match a with
  | Some v => v
  | None => "undefined"
  end.

(** ** Provider registry *)

Definition detectProvider (env : Env) : Provider :=
  if isSet env "OPENAI_API_KEY" then Some openai
  else if isSet env "ANTHROPIC_API_KEY" then Some anthropic
  else if isSet env "OLLAMA_API_KEY" then Some ollama
  else if isSet env "HUGGINGFACE_API_KEY" then Some huggingface
  else None.

(** ** Health probe *)

Definition GET (env : Env) : Health :=
  let provider := detectProvider env in
  {| status := "ok";
     provider := match provider with Some p => providerName p | None => "none" end;
     availableProviders :=
       [("openai", isSet env "OPENAI_API_KEY");
        ("anthropic", isSet env "ANTHROPIC_API_KEY");
        ("huggingface", isSet env "HUGGINGFACE_API_KEY")] |}.

(** ** Wire adapters: the upstream request of each backend *)

Definition streamOpenAI_request (env : Env) (messages : list Message) (systemPrompt : string)
  : HttpRequest :=
  let apiKey := env !! "OPENAI_API_KEY" in
  {| url := "https://api.openai.com/v1/chat/completions";
     method := "POST";
     headers :=
       [("Content-Type", "application/json");
        ("Authorization", "Bearer " +:+ interpolate apiKey)];
     body :=
       OpenAIPayload
         {| OpenAI.model := orElse (env !! "OPENAI_MODEL") "gpt-4o-mini";
            OpenAI.messages := {| role := system; content := systemPrompt |} :: messages;
            OpenAI.stream := true;
            OpenAI.temperature := 7 # 10;
            OpenAI.max_tokens := 1024 |} |}.

Definition anthropicMessages (messages : list Message) : list Message :=
  List.map
    (fun msg =>
       {| role := match role msg with assistant => assistant | _ => user end;
          content := content msg |})
    messages.

Definition streamAnthropic_request (env : Env) (messages : list Message) (systemPrompt : string)
  : HttpRequest :=
  let apiKey := env !! "ANTHROPIC_API_KEY" in
  {| url := "https://api.anthropic.com/v1/messages";
     method := "POST";
     headers :=
       [("Content-Type", "application/json");
        ("x-api-key", interpolate apiKey);
        ("anthropic-version", "2023-06-01")];
     body :=
       AnthropicPayload
         {| Anthropic.model := orElse (env !! "ANTHROPIC_MODEL") "claude-3-haiku-20240307";
            Anthropic.max_tokens := 1024;
            Anthropic.system := systemPrompt;
            Anthropic.messages := anthropicMessages messages;
            Anthropic.stream := true |} |}.

Definition ollamaPrompt (messages : list Message) (systemPrompt : string) : string :=
  join nl
    (("System: " +:+ systemPrompt)
     :: List.map
          (fun m =>
             (match role m with user => "User" | _ => "Assistant" end)
             +:+ ": " +:+ content m)
          messages).

Definition streamOllama_request (env : Env) (messages : list Message) (systemPrompt : string)
  : HttpRequest :=
  let model := orElse (env !! "OLLAMA_MODEL") "llama3.2:latest" in
  let ollamaUrl := orElse (env !! "OLLAMA_API_URL") "http://localhost:11434/v1/completions" in
  let apiKey := env !! "OLLAMA_API_KEY" in
  {| url := ollamaUrl;
     method := "POST";
     headers :=
       ("Content-Type", "application/json")
       :: (if isSet env "OLLAMA_API_KEY"
           then [("Authorization", "Bearer " +:+ interpolate apiKey)]
           else []);
     body :=
       OllamaPayload
         {| Ollama.model := model;
            Ollama.prompt := ollamaPrompt messages systemPrompt;
            Ollama.max_tokens := 1024;
            Ollama.temperature := 7 # 10;
            Ollama.stream := true |} |}.

(** The [forEach] of [formatMessagesAsPrompt]; a message is the last one
    exactly when no message follows it. *)
Fixpoint formatTurns (messages : list Message) : string :=
  match messages with
  | [] => EmptyString
  | msg :: rest =>
      match role msg with
      | user => "[INST] " +:+ content msg +:+ " [/INST]"
      | assistant =>
          " " +:+ content msg +:+ "</s>"
          +:+ (match rest with [] => EmptyString | _ :: _ => "<s>" end)
      | system => EmptyString
      end +:+ formatTurns rest
  end.

Definition formatMessagesAsPrompt (messages : list Message) (systemPrompt : string) : string :=
  "<s>[INST] " +:+ systemPrompt +:+ nl +:+ nl +:+ formatTurns messages.

Definition callHuggingFace_request (env : Env) (messages : list Message) (systemPrompt : string)
  : HttpRequest :=
  let apiKey := env !! "HUGGINGFACE_API_KEY" in
  let model := orElse (env !! "HUGGINGFACE_MODEL") "mistralai/Mixtral-8x7B-Instruct-v0.1" in
  let prompt := formatMessagesAsPrompt messages systemPrompt in
  {| url := "https://router.huggingface.co/hf-inference/models/" +:+ model;
     method := "POST";
     headers :=
       [("Authorization", "Bearer " +:+ interpolate apiKey);
        ("Content-Type", "application/json")];
     body :=
       HuggingFacePayload
         {| HuggingFace.inputs := prompt;
            HuggingFace.max_new_tokens := 1024;
            HuggingFace.temperature := 7 # 10;
            HuggingFace.return_full_text := false |} |}.

(** ** Prompt synthesizer *)

Definition difficultyDescriptions : list (string * string) :=
  [("beginner", "entry-level, focusing on fundamentals and basic concepts");
   ("intermediate", "mid-level, covering practical experience and problem-solving");
   ("advanced", "senior-level, including system design, architecture, and complex scenarios")].

Definition typeDescriptions : list (string * string) :=
  [("coding", "live coding challenges and algorithm questions");
   ("multiple-choice", "quiz-style knowledge checks");
   ("behavioral", "situational and behavioral questions (STAR method)");
   ("technical", "deep technical concepts and system knowledge");
   ("hr", "culture fit, soft skills, and career goals");
   ("hiring-manager", "leadership, vision, and strategic thinking")].

Definition typeLabels : list (string * string) :=
  [("coding", "coding exercise");
   ("behavioral", "behavioral questions");
   ("technical", "technical discussion");
   ("multiple-choice", "knowledge quiz");
   ("hr", "HR/culture fit discussion");
   ("hiring-manager", "leadership assessment")].

(** [difficulty === name] for a [difficulty] that may be undefined *)
Definition difficultyIs (difficulty : option string) (name : string) : bool :=
  match difficulty with
  | Some d => String.eqb d name
  | None => false
  end.

(** The [switch (difficulty)] of the synthesizer. *)
Definition difficultyInstructions (difficulty : option string) : string :=
  if difficultyIs difficulty "beginner" then
    join nl
      [EmptyString;
       "Beginner-Level Guidelines:";
       "- Start with fundamental concepts and basic questions";
       "- Provide helpful hints if the candidate struggles (e.g., " +:+ dq
         +:+ "Think about..." +:+ dq +:+ " or " +:+ dq +:+ "Consider..." +:+ dq +:+ ")";
       "- Break down complex topics into simpler parts";
       "- Offer encouragement and guide them toward the answer";
       "- Focus on understanding rather than speed";
       "- If they're stuck, provide a small clue before moving on"]
  else if difficultyIs difficulty "advanced" then
    join nl
      [EmptyString;
       "Advanced-Level Guidelines:";
       "- Include system design questions and architectural discussions";
       "- Ask about edge cases, scalability, and trade-offs";
       "- Probe deeper with follow-up questions on their answers";
       "- Expect detailed explanations of time/space complexity";
       "- Discuss real-world constraints and production considerations";
       "- Challenge assumptions and explore alternative approaches";
       "- Ask about failure modes and error handling strategies"]
  else
    join nl
      [EmptyString;
       "Intermediate-Level Guidelines:";
       "- Balance theoretical knowledge with practical application";
       "- Ask about real-world experience and problem-solving approaches";
       "- Expect reasonable explanations but don't require exhaustive detail";
       "- Include some follow-up questions to test depth of knowledge"].

Definition codingInstructions (difficulty : option string) : string :=
  join nl
    [EmptyString;
     "Coding Interview Instructions:";
     "- Present clear coding problems with specific requirements";
     "- Ask the candidate to explain their approach before coding";
     "- Evaluate code for: correctness, efficiency, readability, and edge case handling";
     "- Ask about time and space complexity";
     "- If syntax errors are present, point them out and ask for corrections";
     "- For " +:+
       (if difficultyIs difficulty "beginner" then
          "beginner level: use simple problems like array manipulation, string operations, or basic data structures"
        else if difficultyIs difficulty "advanced" then
          "advanced level: include dynamic programming, graph algorithms, or system design coding"
        else
          "intermediate level: include medium complexity problems with multiple approaches");
     EmptyString].

Definition behavioralInstructions : string :=
  join nl
    [EmptyString;
     "Behavioral Interview Instructions:";
     "- Use the STAR method (Situation, Task, Action, Result)";
     "- Ask about past experiences, challenges, and how they handled them";
     "- Probe for specific examples, not hypotheticals";
     "- Listen for teamwork, leadership, and problem-solving skills";
     EmptyString].

Definition technicalInstructions (difficulty : option string) : string :=
  join nl
    [EmptyString;
     "Technical Interview Instructions:";
     "- Test deep understanding of technical concepts";
     "- Ask about architecture decisions and trade-offs";
     "- Discuss technologies, frameworks, and best practices";
     "- " +:+
       (if difficultyIs difficulty "advanced" then
          "Include system design scenarios and scalability discussions"
        else "Focus on core concepts and practical application");
     EmptyString].

Definition multipleChoiceInstructions : string :=
  join nl
    [EmptyString;
     "Multiple-Choice Instructions:";
     "- Present quiz-style questions with clear options (A, B, C, D)";
     "- After the candidate answers, explain why the answer is correct or incorrect";
     "- Cover a range of topics within the interview focus";
     EmptyString].

Definition hrInstructions : string :=
  join nl
    [EmptyString;
     "HR Interview Instructions:";
     "- Assess culture fit and soft skills";
     "- Ask about career goals, motivation, and values";
     "- Discuss work style, collaboration preferences, and expectations";
     EmptyString].

Definition hiringManagerInstructions : string :=
  join nl
    [EmptyString;
     "Hiring Manager Interview Instructions:";
     "- Assess leadership potential and strategic thinking";
     "- Ask about vision, decision-making, and team management";
     "- Discuss how they would approach challenges in the role";
     EmptyString].

(** The six [if (types.includes(...)) typeInstructions += ...] statements,
    in the order the source has them. *)
Definition typeInstructions (types : list string) (difficulty : option string) : string :=
  (if includes types "coding" then codingInstructions difficulty else EmptyString)
  +:+ (if includes types "behavioral" then behavioralInstructions else EmptyString)
  +:+ (if includes types "technical" then technicalInstructions difficulty else EmptyString)
  +:+ (if includes types "multiple-choice" then multipleChoiceInstructions else EmptyString)
  +:+ (if includes types "hr" then hrInstructions else EmptyString)
  +:+ (if includes types "hiring-manager" then hiringManagerInstructions else EmptyString).

(** The template literal that [getSystemPrompt] returns, over the values
    interpolated into it. *)
Definition promptTemplate
    (sessionLength difficultyLevel selectedTypes contextSection
     difficultyInstructions typeInstructions hybridInstructions : string) : string :=
  join nl
    ["You are an expert interviewer conducting a " +:+ sessionLength
       +:+ " mock interview session. The difficulty level is " +:+ difficultyLevel +:+ ".";
     EmptyString;
     "Interview focus areas: " +:+ selectedTypes;
     contextSection;
     "Core Guidelines:";
     "- Start with a warm greeting if this is the beginning of the interview";
     "- Ask one question at a time, appropriate for the difficulty level";
     "- After each answer, acknowledge briefly (1-2 sentences max) and move to the next question";
     "- Keep questions focused and clear";
     "- Adapt your questions based on the candidate's responses";
     "- Be encouraging but realistic in your assessment";
     difficultyInstructions;
     typeInstructions;
     hybridInstructions].

Section Gateway.

Context {platform : Platform}.

(** [table[key]] on an object literal: an own property, or else a member
    inherited from [Object.prototype]. *)
Definition lookup_record (table : list (string * string)) (key : string) : option string :=
  match assoc key table with
  | Some v => Some v
  | None => Object_prototype key
  end.

Definition selectedTypes (interviewTypes : option (list string)) : string :=
  match interviewTypes with
  | Some types =>
      orElse (Some (join ", " (List.map (fun t => orElse (lookup_record typeDescriptions t) t) types)))
             "general technical questions"
  | None => "general technical questions"
  end.

Definition difficultyLevel (difficulty : option string) : string :=
  orElse (lookup_record difficultyDescriptions (orElse difficulty "intermediate"))
         "mid-level difficulty".

Definition sessionLength (duration : option number) : string :=
  match duration with
  | Some n => if number_truthy n then number_toString n +:+ " minute" else "30 minute"
  | None => "30 minute"
  end.

Definition contextSection (jobDescription : option string) : string :=
  match jobDescription with
  | Some text =>
      if nonEmpty (trim text)
      then nl +:+ "Job Description:" +:+ nl +:+ text +:+ nl
      else EmptyString
  | None => EmptyString
  end.

Definition hybridInstructions (types : list string) : string :=
  if (1 <? List.length types)%nat then
    let orderedTypes := List.map (fun t => orElse (lookup_record typeLabels t) t) types in
    join nl
      [EmptyString;
       "Hybrid Interview Structure:";
       "This is a hybrid interview combining multiple formats. At the start, briefly explain the structure to the candidate:";
       dq +:+ "This interview will cover: " +:+ join ", then " orderedTypes +:+ "." +:+ dq;
       "Transition smoothly between sections with brief announcements like " +:+ dq
         +:+ "Now let's move on to the " +:+ orElse (nth_error orderedTypes 1) "next section"
         +:+ "." +:+ dq;
       EmptyString]
  else EmptyString.

Definition getSystemPrompt
    (jobDescription : option string) (interviewTypes : option (list string))
    (difficulty : option string) (duration : option number) : string :=
  let types := match interviewTypes with Some l => l | None => [] end in
  promptTemplate
    (sessionLength duration)
    (difficultyLevel difficulty)
    (selectedTypes interviewTypes)
    (contextSection jobDescription)
    (difficultyInstructions difficulty)
    (typeInstructions types difficulty)
    (hybridInstructions types).

(** *** Reading parsed JSON *)

(** A value that may be [undefined] ([None]). *)
Definition value : Type := option (json number).

(** [!!v] *)
Definition truthy (v : value) : bool :=
  match v with
  | None => false
  | Some JNull => false
  | Some (JBool b) => b
  | Some (JNumber n) => number_truthy n
  | Some (JString s) => nonEmpty s
  | Some (JArray _) => true
  | Some (JObject _) => true
  end.

(** [String(v)], the conversion [encoder.encode] applies to its argument. *)
Fixpoint ToString (v : json number) : string :=
  match v with
  | JNull => "null"
  | JBool b => if b then "true" else "false"
  | JNumber n => number_toString n
  | JString s => s
  | JArray items =>
      join "," (List.map (fun x => match x with JNull => EmptyString | _ => ToString x end) items)
  | JObject _ => "[object Object]"
  end.

(** [v.name] on a [v] that is not [null], for the names the route reads
    ([choices], [delta], [content], [text], [type]): none of them is
    defined on a prototype, so only an object's own property is found. *)
Definition prop (name : string) (v : json number) : value :=
  match v with
  | JObject props => assoc name props
  | _ => None
  end.

(** [v.name]: reading a property of [null] throws. *)
Definition read (v : json number) (name : string) : completion value :=
  match v with
  | JNull => Throw TypeError
  | _ => Normal (prop name v)
  end.

(** [v[0]] on a [v] that is not [null]. *)
Definition at0 (v : json number) : value :=
  match v with
  | JArray (x :: _) => Some x
  | JObject props => assoc "0" props
  | JString (String c _) => Some (JString (String c EmptyString))
  | _ => None
  end.

(** [v?.f]: [undefined] when [v] is [undefined] or [null]. *)
Definition chain (v : value) (f : json number -> value) : value :=
  match v with
  | None => None
  | Some JNull => None
  | Some x => f x
  end.

(** [if (content) controller.enqueue(encoder.encode(content))] *)
Definition enqueue (content : value) : list string :=
  match content with
  | Some v => if truthy content then [ToString v] else []
  | None => []
  end.

(** *** Stream transforms *)

(** The lines of a chunk that are not blank: the text split on the line
    feed, with the lines that trim to nothing filtered out. *)
Definition lines (text : string) : list string :=
  List.filter (fun line => nonEmpty (trim line)) (split "010" text).

(** The [try] block of the OpenAI transform, on the payload of one line. *)
Definition openaiEvent (data : string) : completion (list string) :=
  parsed <- JSON_parse data ;;
  choices <- read parsed "choices" ;;
  Normal (enqueue (chain (chain (chain choices at0) (prop "delta")) (prop "content"))).

(** The [for] loop of the OpenAI transform; the sentinel returns from the
    callback. *)
Fixpoint openaiLoop (ls : list string) : list string :=
  match ls with
  | [] => []
  | line :: rest =>
      if startsWith "data: " line then
        let data := slice 6 line in
        if String.eqb data "[DONE]" then []
        else try_catch (openaiEvent data) ++ openaiLoop rest
      else openaiLoop rest
  end.

Definition anthropicEvent (data : string) : completion (list string) :=
  parsed <- JSON_parse data ;;
  type <- read parsed "type" ;;
  match type with
  | Some (JString t) =>
      if String.eqb t "content_block_delta"
      then Normal (enqueue (chain (prop "delta" parsed) (prop "text")))
      else Normal []
  | _ => Normal []
  end.

Fixpoint anthropicLoop (ls : list string) : list string :=
  match ls with
  | [] => []
  | line :: rest =>
      if startsWith "data: " line
      then try_catch (anthropicEvent (slice 6 line)) ++ anthropicLoop rest
      else anthropicLoop rest
  end.

Definition ollamaEvent (line : string) : completion (list string) :=
  parsed <- JSON_parse line ;;
  choices <- read parsed "choices" ;;
  Normal (enqueue (chain (chain choices at0) (prop "text"))).

Fixpoint ollamaLoop (ls : list string) : list string :=
  match ls with
  | [] => []
  | line :: rest => try_catch (ollamaEvent line) ++ ollamaLoop rest
  end.

(** The [transform(chunk, controller)] callback of each adapter: the
    chunks it enqueues for one upstream chunk. *)
Definition transform (w : Wire) (chunk : string) : list string :=
  match w with
  | OpenAIWire => openaiLoop (lines chunk)
  | AnthropicWire => anthropicLoop (lines chunk)
  | OllamaWire => ollamaLoop (lines chunk)
  end.

(** [response.body.pipeThrough(transformStream)]: the callback runs once
    per upstream chunk, in arrival order, and keeps nothing between two
    runs. *)
Definition pipeThrough (w : Wire) (upstream : list string) : list string :=
  flat_map (transform w) upstream.

(** *** Request handler *)

(** The request body after [request.json()]. [messages] is [None] when
    the field is missing or is not an array. *)
Record ChatRequest := {
  messages : option (list Message);
  jobDescription : option string;
  interviewTypes : option (list string);
  difficulty : option string;
  duration : option number
}.

End Gateway.

Arguments messages {platform} _.
Arguments jobDescription {platform} _.
Arguments interviewTypes {platform} _.
Arguments difficulty {platform} _.
Arguments duration {platform} _.

Section Handler.

Context {platform : Platform}.

(** The [POST] handler, from the parsed request body to what it does. *)
Definition POST (env : Env) (body : ChatRequest) : Outcome :=
  match messages body with
  | None => JsonError 400 "messages array is required"
  | Some messages =>
      match detectProvider env with
      | None =>
          JsonError 500
            "No API keys configured. Set OPENAI_API_KEY, ANTHROPIC_API_KEY, or HUGGINGFACE_API_KEY"
      | Some provider =>
          let systemPrompt :=
            getSystemPrompt (jobDescription body) (interviewTypes body)
                            (difficulty body) (duration body) in
          match provider with
          | openai => Dispatch openai (streamOpenAI_request env messages systemPrompt)
          | anthropic => Dispatch anthropic (streamAnthropic_request env messages systemPrompt)
          | ollama => Dispatch ollama (streamOllama_request env messages systemPrompt)
          | huggingface => Dispatch huggingface (callHuggingFace_request env messages systemPrompt)
          end
      end
  end.

End Handler.

(** * Specification vocabulary

    What the statements below are phrased in: the lines of a well-formed
    upstream body with the text each carries, the layout of a body in
    chunks, and the blocks of the prompt. *)

(** A line holds no line feed. *)
Fixpoint singleLine (s : string) : bool :=
  match s with
  | EmptyString => true
  | String c r => negb (Ascii.eqb c "010") && singleLine r
  end.

(** [needle] occurs in [s]. *)
Fixpoint contains (needle s : string) : bool :=
  startsWith needle s
  || match s with
     | EmptyString => false
     | String _ r => contains needle r
     end.

Section Frames.

Context {platform : Platform}.

(** An OpenAI completion chunk and the text of its first choice's delta;
    a delta without content (the role announcement, the final chunk) and a
    chunk without choices carry nothing. *)
Inductive openaiCarries : json number -> string -> Prop :=
  | openai_content props first others delta text :
      assoc "choices" props = Some (JArray (JObject first :: others)) ->
      assoc "delta" first = Some (JObject delta) ->
      assoc "content" delta = Some (JString text) ->
      openaiCarries (JObject props) text
  | openai_null_content props first others delta :
      assoc "choices" props = Some (JArray (JObject first :: others)) ->
      assoc "delta" first = Some (JObject delta) ->
      assoc "content" delta = Some JNull ->
      openaiCarries (JObject props) EmptyString
  | openai_no_content props first others delta :
      assoc "choices" props = Some (JArray (JObject first :: others)) ->
      assoc "delta" first = Some (JObject delta) ->
      assoc "content" delta = None ->
      openaiCarries (JObject props) EmptyString
  | openai_no_choice props :
      assoc "choices" props = Some (JArray []) ->
      openaiCarries (JObject props) EmptyString.

(** An Anthropic stream event: only a [content_block_delta] with a text
    delta carries text. *)
Inductive anthropicCarries : json number -> string -> Prop :=
  | anthropic_text props delta text :
      assoc "type" props = Some (JString "content_block_delta") ->
      assoc "delta" props = Some (JObject delta) ->
      assoc "text" delta = Some (JString text) ->
      anthropicCarries (JObject props) text
  | anthropic_no_text props delta :
      assoc "type" props = Some (JString "content_block_delta") ->
      assoc "delta" props = Some (JObject delta) ->
      assoc "text" delta = None ->
      anthropicCarries (JObject props) EmptyString
  | anthropic_other props kind :
      assoc "type" props = Some (JString kind) ->
      kind <> "content_block_delta" ->
      anthropicCarries (JObject props) EmptyString.

(** A completion fragment of the newline-delimited format. *)
Inductive ollamaCarries : json number -> string -> Prop :=
  | ollama_text props first others text :
      assoc "choices" props = Some (JArray (JObject first :: others)) ->
      assoc "text" first = Some (JString text) ->
      ollamaCarries (JObject props) text
  | ollama_no_text props first others :
      assoc "choices" props = Some (JArray (JObject first :: others)) ->
      assoc "text" first = None ->
      ollamaCarries (JObject props) EmptyString
  | ollama_no_choice props :
      assoc "choices" props = Some (JArray []) ->
      ollamaCarries (JObject props) EmptyString.

(** [frame w line text]: [line] is a well-formed line of a body in the
    wire format [w], and [text] is the decoded text it carries. Blank
    lines separate events; the two server-sent-event formats also have
    [event: ] lines, which carry nothing. The sentinel of the OpenAI
    format is no frame. *)
Inductive frame : Wire -> string -> string -> Prop :=
  | frame_blank w line :
      trim line = EmptyString ->
      frame w line EmptyString
  | frame_event_field w line :
      w <> OllamaWire ->
      startsWith "event: " line = true ->
      frame w line EmptyString
  | frame_openai payload v text :
      payload <> "[DONE]" ->
      JSON_parse payload = Normal v ->
      openaiCarries v text ->
      frame OpenAIWire ("data: " +:+ payload) text
  | frame_anthropic payload v text :
      JSON_parse payload = Normal v ->
      anthropicCarries v text ->
      frame AnthropicWire ("data: " +:+ payload) text
  | frame_ollama line v text :
      trim line <> EmptyString ->
      JSON_parse line = Normal v ->
      ollamaCarries v text ->
      frame OllamaWire line text.

(** A line whose JSON payload cannot be parsed. *)
Inductive malformed : Wire -> string -> Prop :=
  | malformed_openai payload :
      payload <> "[DONE]" ->
      JSON_parse payload = Throw SyntaxError ->
      malformed OpenAIWire ("data: " +:+ payload)
  | malformed_anthropic payload :
      JSON_parse payload = Throw SyntaxError ->
      malformed AnthropicWire ("data: " +:+ payload)
  | malformed_ollama line :
      JSON_parse line = Throw SyntaxError ->
      malformed OllamaWire line.

(** The loop a transform runs over the lines of a chunk. *)
Definition loopOf (w : Wire) : list string -> list string :=
  match w with
  | OpenAIWire => openaiLoop
  | AnthropicWire => anthropicLoop
  | OllamaWire => ollamaLoop
  end.

(** A line of a body that may hold corrupt frames: a frame with its text
    ([Some]), or a malformed line ([None]). *)
Inductive received (w : Wire) : string -> option string -> Prop :=
  | received_frame line text : frame w line text -> received w line (Some text)
  | received_malformed line : malformed w line -> received w line None.

End Frames.

(** An upstream body laid out in chunks of whole lines: each chunk is a
    list of lines, each line paired with what it carries. *)
Definition chunkText {A : Type} (chunk : list (string * A)) : string :=
  join nl (List.map fst chunk).

Definition upstream {A : Type} (body : list (list (string * A))) : list string :=
  List.map chunkText body.

(** The text of the assistant's reply: what the frames carry, in arrival
    order. *)
Definition decoded (body : list (list (string * string))) : string :=
  concat (List.map snd (List.concat body)).

(** What a received line adds to the reply: its text, or nothing when it
    is malformed. *)
Definition textOf (o : option string) : string :=
  match o with
  | Some t => t
  | None => EmptyString
  end.

Definition decodedValid (body : list (list (string * option string))) : string :=
  concat (List.map (fun lt => textOf (snd lt)) (List.concat body)).

(** The test of the filter in [lines]. *)
Definition nonBlank (line : string) : bool := nonEmpty (trim line).

(** The order in which the synthesizer appends the type blocks, and the
    block of each type. *)
Definition blockOrder : list string :=
  ["coding"; "behavioral"; "technical"; "multiple-choice"; "hr"; "hiring-manager"].

Definition typeBlock (difficulty : option string) (type : string) : string :=
  if String.eqb type "coding" then codingInstructions difficulty
  else if String.eqb type "behavioral" then behavioralInstructions
  else if String.eqb type "technical" then technicalInstructions difficulty
  else if String.eqb type "multiple-choice" then multipleChoiceInstructions
  else if String.eqb type "hr" then hrInstructions
  else if String.eqb type "hiring-manager" then hiringManagerInstructions
  else EmptyString.

(** The credential variables. *)
Definition credentials : list string :=
  ["OPENAI_API_KEY"; "ANTHROPIC_API_KEY"; "OLLAMA_API_KEY"; "HUGGINGFACE_API_KEY"].

(** A credential is present when its variable is set to a value that is
    not empty. *)
Definition present (env : Env) (name : string) : Prop :=
  exists v, env !! name = Some v /\ v <> EmptyString.

Definition noCredential (env : Env) : Prop :=
  Forall (fun name => ~ present env name) credentials.

Definition someCredential (env : Env) : Prop :=
  Exists (present env) credentials.

(** The role under which the Anthropic adapter sends a message of the
    history, and the label the Ollama adapter writes before it. *)
Definition sentRole (r : Role) : Role :=
  match r with
  | assistant => assistant
  | user | system => user
  end.

Definition promptLabel (r : Role) : string :=
  match r with
  | user => "User"
  | assistant | system => "Assistant"
  end.

(** The error the handler answers with when no credential is configured. *)
Definition configurationError : string :=
  "No API keys configured. Set OPENAI_API_KEY, ANTHROPIC_API_KEY, or HUGGINGFACE_API_KEY".

(** * Example inputs, on the reference platform *)

Module Examples.

Import Reference.

(** An OpenAI completion chunk, as one server-sent-event line. *)
Definition openaiLine (text : string) : string :=
  "data: "
  +:+ q ("{'id':'chatcmpl-1','choices':[{'index':0,'delta':{'content':'" +:+ text +:+ "'}}]}").

Definition sentinel : string := "data: [DONE]".

(** A line cut off in the middle of its JSON payload. *)
Definition corruptLine : string := "data: " +:+ q "{'choices':[{'delta':{'cont".

Definition anthropicLine (text : string) : string :=
  "data: "
  +:+ q ("{'type':'content_block_delta','index':0,'delta':{'type':'text_delta','text':'"
         +:+ text +:+ "'}}").

Definition anthropicPing : string := "data: " +:+ q "{'type':'ping'}".

Definition ollamaLine (text : string) : string :=
  q ("{'choices':[{'text':'" +:+ text +:+ "'}]}").

(** A reply in two chunks of whole lines, events separated by blank
    lines. *)
Definition openaiBody : list (list (string * string)) :=
  [[(openaiLine "Hel", "Hel"); (EmptyString, EmptyString);
    (openaiLine "lo", "lo"); (EmptyString, EmptyString); (EmptyString, EmptyString)];
   [(openaiLine ", world", ", world"); (EmptyString, EmptyString); (EmptyString, EmptyString)]].

Definition anthropicBody : list (list (string * string)) :=
  [[("event: ping", EmptyString); (anthropicPing, EmptyString); (EmptyString, EmptyString);
    ("event: content_block_delta", EmptyString); (anthropicLine "Good ", "Good ");
    (EmptyString, EmptyString)];
   [("event: content_block_delta", EmptyString); (anthropicLine "morning", "morning");
    (EmptyString, EmptyString)]].

Definition ollamaBody : list (list (string * string)) :=
  [[(ollamaLine "Hi", "Hi"); (EmptyString, EmptyString)];
   [(ollamaLine " there", " there"); (EmptyString, EmptyString)]].

(** The first body with a corrupt line in the middle of its first chunk. *)
Definition corruptedBody : list (list (string * option string)) :=
  [[(openaiLine "Hel", Some "Hel"); (EmptyString, Some EmptyString);
    (corruptLine, None); (EmptyString, Some EmptyString);
    (openaiLine "lo", Some "lo"); (EmptyString, Some EmptyString)];
   [(openaiLine ", world", Some ", world"); (EmptyString, Some EmptyString)]].

(** A newline-delimited body whose second line is cut short. *)
Definition corruptedOllamaBody : list (list (string * option string)) :=
  [[(ollamaLine "Hi", Some "Hi"); (q "{'choices':[{'te", None);
    (ollamaLine " there", Some " there"); (EmptyString, Some EmptyString)]].

Definition allCredentials : Env :=
  {[ "OPENAI_API_KEY" := "sk-1"; "ANTHROPIC_API_KEY" := "sk-2";
     "OLLAMA_API_KEY" := "sk-3"; "HUGGINGFACE_API_KEY" := "hf-4" ]}.

Definition anthropicAndOllama : Env :=
  {[ "ANTHROPIC_API_KEY" := "sk-2"; "OLLAMA_API_KEY" := "sk-3" ]}.

Definition onlyOllama : Env := {[ "OLLAMA_API_KEY" := "sk-3" ]}.

Definition onlyHuggingFace : Env := {[ "HUGGINGFACE_API_KEY" := "hf-4" ]}.

Definition noCredentials : Env := ∅.

Definition hello : list Message := [ {| role := user; content := "Hello" |} ].

Definition helloRequest : @ChatRequest Reference.platform :=
  {| messages := Some hello; jobDescription := None; interviewTypes := None;
     difficulty := None; duration := None |}.

Definition withSystemNote : list Message :=
  [ {| role := system; content := "Be brief." |};
    {| role := user; content := "Hello" |};
    {| role := assistant; content := "Hi, shall we start?" |} ].

End Examples.

(** * Facts about the string built-ins *)

(** Let [simpl] compute an append whose left operand starts with a
    character. *)
#[global] Arguments String.append !s1 s2 : simpl nomatch.

Module JsStringFacts.

Lemma append_empty_r (s : string) : s +:+ EmptyString = s.
Proof. induction s as [|c r IH]; simpl; [reflexivity | now rewrite IH]. Qed.

Lemma append_assoc (a b c : string) : (a +:+ b) +:+ c = a +:+ (b +:+ c).
Proof. induction a as [|x r IH]; simpl; [reflexivity | now rewrite IH]. Qed.

Lemma concat_nil : concat [] = EmptyString.
Proof. reflexivity. Qed.

Lemma concat_cons (x : string) (xs : list string) : concat (x :: xs) = x +:+ concat xs.
Proof.
  unfold concat. destruct xs as [|y ys]; simpl.
  - now rewrite append_empty_r.
  - reflexivity.
Qed.

Lemma concat_app (xs ys : list string) : concat (xs ++ ys) = concat xs +:+ concat ys.
Proof.
  induction xs as [|x xs IH].
  - reflexivity.
  - rewrite <- app_comm_cons, !concat_cons, IH. now rewrite append_assoc.
Qed.

Lemma concat_enqueued_text (text : string) :
  concat (if nonEmpty text then [text] else []) = text.
Proof.
  unfold nonEmpty. destruct text as [|c r]; simpl; [reflexivity|].
  unfold concat. reflexivity.
Qed.

Lemma join_cons_cons (sep x y : string) (rest : list string) :
  join sep (x :: y :: rest) = x +:+ sep +:+ join sep (y :: rest).
Proof. reflexivity. Qed.

Lemma split_singleLine (s : string) : singleLine s = true -> split "010" s = [s].
Proof.
  induction s as [|c r IH]; simpl; [reflexivity|].
  intros [Hc Hr]%andb_prop. rewrite (IH Hr).
  destruct (Ascii.eqb c "010"); [discriminate | reflexivity].
Qed.

Lemma split_line_then (a rest : string) :
  singleLine a = true -> split "010" (a +:+ nl +:+ rest) = a :: split "010" rest.
Proof.
  change (nl +:+ rest) with (String "010" rest).
  induction a as [|c r IH]; simpl; [reflexivity|].
  intros [Hc Hr]%andb_prop. rewrite (IH Hr).
  destruct (Ascii.eqb c "010"); [discriminate | reflexivity].
Qed.

(** Splitting undoes joining, for lines without a line feed. *)
Lemma split_join (l : string) (ls : list string) :
  Forall (fun x => singleLine x = true) (l :: ls) ->
  split "010" (join nl (l :: ls)) = l :: ls.
Proof.
  revert l. induction ls as [|y ys IH]; intros l Hall.
  - apply split_singleLine. now inversion Hall.
  - rewrite join_cons_cons.
    inversion Hall as [|? ? Hl Hrest]; subst.
    rewrite (split_line_then _ _ Hl). f_equal. now apply IH.
Qed.

Lemma trimEnd_nonblank (c : ascii) (r : string) :
  isWhiteSpace c = false -> trimEnd (String c r) <> EmptyString.
Proof.
  intros Hc. simpl. destruct (trimEnd r); [rewrite Hc|]; discriminate.
Qed.

Lemma trim_nonblank (c : ascii) (r : string) :
  isWhiteSpace c = false -> nonEmpty (trim (String c r)) = true.
Proof.
  intros Hc. unfold trim. simpl trimStart. rewrite Hc.
  pose proof (trimEnd_nonblank c r Hc) as Hne.
  unfold nonEmpty. destruct (trimEnd (String c r)); [congruence | reflexivity].
Qed.

Lemma nonEmpty_false (s : string) : nonEmpty s = false <-> s = EmptyString.
Proof. unfold nonEmpty. destruct s; simpl; split; congruence. Qed.

Lemma nonEmpty_true (s : string) : nonEmpty s = true <-> s <> EmptyString.
Proof. unfold nonEmpty. destruct s; simpl; split; congruence. Qed.

Lemma data_line_nonblank (payload : string) :
  nonEmpty (trim ("data: " +:+ payload)) = true.
Proof. apply trim_nonblank. reflexivity. Qed.

Lemma data_line_startsWith (payload : string) :
  startsWith "data: " ("data: " +:+ payload) = true.
Proof. reflexivity. Qed.

Lemma data_line_slice (payload : string) : slice 6 ("data: " +:+ payload) = payload.
Proof. reflexivity. Qed.

Lemma event_field_is_no_data (line : string) :
  startsWith "event: " line = true -> startsWith "data: " line = false.
Proof.
  destruct line as [|c r]; cbn [startsWith]; [discriminate|].
  destruct (Ascii.eqb_spec "e" c) as [<-|]; [reflexivity | discriminate].
Qed.

Lemma startsWith_spec (p s : string) : startsWith p s = true <-> exists r, s = p +:+ r.
Proof.
  revert s. induction p as [|c p IH]; intros s; cbn [startsWith String.append].
  - split; [intros _; now exists s | reflexivity].
  - destruct s as [|d s].
    + split; [discriminate | intros [r Hr]; discriminate].
    + destruct (Ascii.eqb_spec c d) as [->|Hne]; cbn [andb].
      * rewrite IH. split; intros [r Hr]; exists r; congruence.
      * split; [discriminate | intros [r Hr]; congruence].
Qed.

(** [contains] decides occurrence. *)
Lemma contains_spec (needle s : string) :
  contains needle s = true <-> exists pre post, s = pre +:+ needle +:+ post.
Proof.
  induction s as [|c s IH]; simpl.
  - rewrite orb_false_r, startsWith_spec. split.
    + intros [r Hr]. now exists EmptyString, r.
    + intros [[|? ?] [post Hp]]; [now exists post | discriminate].
  - rewrite orb_true_iff, startsWith_spec, IH. split.
    + intros [[r Hr] | (pre & post & Hp)].
      * now exists EmptyString, r.
      * exists (String c pre), post. simpl. now rewrite Hp.
    + intros [[|d pre] [post Hp]].
      * left. now exists post.
      * right. simpl in Hp. injection Hp as _ Hp. now exists pre, post.
Qed.

End JsStringFacts.

(** * The stream transforms *)

Section StreamFacts.

Context {platform : Platform}.

Import JsStringFacts.

Lemma transform_loopOf (w : Wire) (chunk : string) :
  transform w chunk = loopOf w (lines chunk).
Proof. now destruct w. Qed.

Lemma lines_chunkText {A : Type} (chunk : list (string * A)) :
  Forall (fun lt => singleLine (fst lt) = true) chunk ->
  lines (chunkText chunk) = List.filter nonBlank (List.map fst chunk).
Proof.
  intros Hall. unfold lines, chunkText.
  destruct chunk as [|[l a] rest]; [reflexivity|].
  cbn [List.map fst]. rewrite split_join; [reflexivity|].
  change (l :: List.map fst rest) with (List.map fst ((l, a) :: rest)).
  apply List.Forall_map. exact Hall.
Qed.

Lemma enqueue_string (text : string) :
  concat (enqueue (Some (JString text))) = text.
Proof. unfold enqueue, truthy. apply concat_enqueued_text. Qed.

Lemma openai_event_text (payload : string) (v : json number) (text : string) :
  JSON_parse payload = Normal v ->
  openaiCarries v text ->
  concat (try_catch (openaiEvent payload)) = text.
Proof.
  intros Hparse Hcarries. unfold openaiEvent. rewrite Hparse. cbn [bind].
  destruct Hcarries as [? ? ? ? ? Hc Hd Ht | ? ? ? ? Hc Hd Ht | ? ? ? ? Hc Hd Ht | ? Hc];
    cbn [read prop bind]; rewrite Hc; cbn [chain at0 prop try_catch];
    rewrite ?Hd; cbn [chain prop]; rewrite ?Ht;
    first [apply enqueue_string | reflexivity].
Qed.

Lemma anthropic_event_text (payload : string) (v : json number) (text : string) :
  JSON_parse payload = Normal v ->
  anthropicCarries v text ->
  concat (try_catch (anthropicEvent payload)) = text.
Proof.
  intros Hparse Hcarries. unfold anthropicEvent. rewrite Hparse. cbn [bind].
  destruct Hcarries as [? ? ? Hty Hd Ht | ? ? Hty Hd Ht | ? ? Hty Hne];
    cbn [read prop bind]; rewrite Hty.
  - rewrite String.eqb_refl, Hd. cbn [chain prop try_catch]. rewrite Ht.
    apply enqueue_string.
  - rewrite String.eqb_refl, Hd. cbn [chain prop try_catch]. now rewrite Ht.
  - destruct (String.eqb_spec kind "content_block_delta"); [contradiction | reflexivity].
Qed.

Lemma ollama_event_text (line : string) (v : json number) (text : string) :
  JSON_parse line = Normal v ->
  ollamaCarries v text ->
  concat (try_catch (ollamaEvent line)) = text.
Proof.
  intros Hparse Hcarries. unfold ollamaEvent. rewrite Hparse. cbn [bind].
  destruct Hcarries as [? ? ? ? Hc Ht | ? ? ? Hc Ht | ? Hc];
    cbn [read prop bind]; rewrite Hc; cbn [chain at0 prop try_catch];
    rewrite ?Ht; first [apply enqueue_string | reflexivity].
Qed.

(** What one line that is not blank adds to the output of its chunk. *)
Lemma line_contribution (w : Wire) (line : string) (o : option string) (rest : list string) :
  received w line o ->
  nonBlank line = true ->
  concat (loopOf w (line :: rest)) = textOf o +:+ concat (loopOf w rest).
Proof.
  intros Hrec Hnb. destruct Hrec as [line text Hframe | line Hbad].
  - destruct Hframe as [w line Hblank | w line Hw Hev | payload v text Hne Hp Hc
                        | payload v text Hp Hc | line v text Hnb' Hp Hc];
      cbn [textOf loopOf].
    + unfold nonBlank in Hnb. rewrite Hblank in Hnb. discriminate.
    + apply event_field_is_no_data in Hev.
      destruct w; [| | contradiction]; cbn [loopOf openaiLoop anthropicLoop];
        now rewrite Hev.
    + cbn [openaiLoop]. rewrite data_line_startsWith, data_line_slice.
      destruct (String.eqb_spec payload "[DONE]"); [contradiction|].
      now rewrite concat_app, (openai_event_text _ _ _ Hp Hc).
    + cbn [anthropicLoop]. rewrite data_line_startsWith, data_line_slice.
      now rewrite concat_app, (anthropic_event_text _ _ _ Hp Hc).
    + cbn [ollamaLoop]. now rewrite concat_app, (ollama_event_text _ _ _ Hp Hc).
  - destruct Hbad as [payload Hne Hp | payload Hp | line Hp]; cbn [textOf loopOf].
    + cbn [openaiLoop]. rewrite data_line_startsWith, data_line_slice.
      destruct (String.eqb_spec payload "[DONE]"); [contradiction|].
      unfold openaiEvent. now rewrite Hp.
    + cbn [anthropicLoop]. rewrite data_line_startsWith, data_line_slice.
      unfold anthropicEvent. now rewrite Hp.
    + cbn [ollamaLoop]. unfold ollamaEvent. now rewrite Hp.
Qed.

(** A blank line carries nothing. *)
Lemma blank_carries_nothing (w : Wire) (line : string) (o : option string) :
  received w line o -> nonBlank line = false -> textOf o = EmptyString.
Proof.
  unfold nonBlank. intros Hrec Hb.
  destruct Hrec as [line text Hframe | line Hbad]; [|reflexivity].
  destruct Hframe as [w line Hblank | w line Hw Hev | payload v text Hne Hp Hc
                      | payload v text Hp Hc | line v text Hnb' Hp Hc];
    cbn [textOf]; try reflexivity.
  - rewrite data_line_nonblank in Hb. discriminate.
  - rewrite data_line_nonblank in Hb. discriminate.
  - apply nonEmpty_false in Hb. contradiction.
Qed.

(** One run of the callback decodes the lines of its chunk, in order. *)
Lemma transform_received (w : Wire) (chunk : list (string * option string)) :
  Forall (fun lt => singleLine (fst lt) = true /\ received w (fst lt) (snd lt)) chunk ->
  concat (transform w (chunkText chunk)) = concat (List.map (fun lt => textOf (snd lt)) chunk).
Proof.
  intros Hall. rewrite transform_loopOf, lines_chunkText.
  2:{ eapply Forall_impl; [|exact Hall]. now intros ? [? _]. }
  induction Hall as [|[l o] rest [_ Hrec] _ IH]; [now destruct w|].
  cbn [List.map fst snd List.filter] in *. rewrite concat_cons.
  destruct (nonBlank l) eqn:Hnb.
  - rewrite (line_contribution _ _ _ _ Hrec Hnb). now rewrite IH.
  - rewrite (blank_carries_nothing _ _ _ Hrec Hnb). exact IH.
Qed.

(** The whole stream: the callback runs on each chunk in turn. *)
Lemma pipeThrough_received (w : Wire) (body : list (list (string * option string))) :
  Forall (Forall (fun lt => singleLine (fst lt) = true /\ received w (fst lt) (snd lt))) body ->
  concat (pipeThrough w (upstream body)) = decodedValid body.
Proof.
  unfold pipeThrough, upstream, decodedValid.
  induction 1 as [|chunk rest Hchunk _ IH]; [reflexivity|].
  cbn [List.map flat_map List.concat].
  rewrite concat_app, List.map_app, concat_app, IH.
  now rewrite (transform_received _ _ Hchunk).
Qed.

End StreamFacts.

(** Solving the premises of [frame] and [malformed] on concrete lines of
    the reference platform. *)
Ltac differs := let E := fresh in intro E; cbv in E; discriminate E.

Ltac carried :=
  first
    [ eapply (@openai_content Reference.platform); reflexivity
    | eapply (@anthropic_text Reference.platform); reflexivity
    | eapply (@anthropic_other Reference.platform); [reflexivity | differs]
    | eapply (@ollama_text Reference.platform); reflexivity ].

Ltac framed :=
  first
    [ apply (@frame_blank Reference.platform); reflexivity
    | apply (@frame_event_field Reference.platform); [discriminate | reflexivity]
    | eapply (@frame_openai Reference.platform); [differs | reflexivity | carried]
    | eapply (@frame_anthropic Reference.platform); [reflexivity | carried]
    | eapply (@frame_ollama Reference.platform); [differs | reflexivity | carried] ].

Ltac corrupt :=
  first
    [ eapply (@malformed_openai Reference.platform); [differs | reflexivity]
    | eapply (@malformed_anthropic Reference.platform); reflexivity
    | eapply (@malformed_ollama Reference.platform); reflexivity ].

(** A concrete body, line by line. *)
Ltac whole_lines tac :=
  repeat (lazymatch goal with |- Forall _ _ => constructor end);
  cbn [fst snd]; (split; [reflexivity | tac]).

Section StreamClaims.

Context {platform : Platform}.

Import JsStringFacts.

(** C2 (as amended). For each of the three streaming wire formats and every
    upstream body made of well-formed frames, delivered in chunks that each
    hold whole lines, the concatenation of the chunks the stream transform
    emits, in emission order, is the concatenation, in arrival order, of
    the text the frames carry. *)
Theorem stream_reconstructs_reply_from_whole_lines
    (w : Wire) (body : list (list (string * string))) :
  Forall (Forall (fun lt => singleLine (fst lt) = true /\ frame w (fst lt) (snd lt))) body ->
  concat (pipeThrough w (upstream body)) = decoded body.
Proof.
  set (tag := fun lt : string * string => (fst lt, Some (snd lt))).
  assert (Hup : upstream (List.map (List.map tag) body) = upstream body).
  { unfold upstream, chunkText. rewrite List.map_map. apply List.map_ext.
    intros chunk. rewrite List.map_map. reflexivity. }
  assert (Hdec : decodedValid (List.map (List.map tag) body) = decoded body).
  { unfold decodedValid, decoded. f_equal. clear Hup.
    induction body as [|chunk rest IH]; [reflexivity|].
    cbn [List.map List.concat]. rewrite !List.map_app, IH.
    f_equal. now rewrite List.map_map. }
  intros Hbody.
  rewrite <- Hup, <- Hdec. apply pipeThrough_received.
  apply List.Forall_map. eapply Forall_impl; [|exact Hbody].
  intros chunk Hchunk. apply List.Forall_map. eapply Forall_impl; [|exact Hchunk].
  intros [l t] [Hl Hf]. split; [exact Hl | now constructor].
Qed.

(** C5 (as amended). A body that holds lines with an unparsable JSON
    payload among otherwise valid lines, delivered in chunks that each hold
    whole lines: the transform completes normally on every chunk, the
    malformed lines add nothing, and the output is the text of every valid
    line, in order, including the lines and the chunks that come after a
    malformed line. *)
Theorem malformed_lines_are_skipped
    (w : Wire) (body : list (list (string * option string))) :
  Forall (Forall (fun lt => singleLine (fst lt) = true /\ received w (fst lt) (snd lt))) body ->
  concat (pipeThrough w (upstream body)) = decodedValid body.
Proof. apply pipeThrough_received. Qed.

(** Within one chunk the OpenAI transform stops at the sentinel: the lines
    after it add nothing. *)
Lemma sentinel_ends_its_chunk (before after : list string) :
  Forall (fun l => singleLine l = true) (before ++ after) ->
  transform OpenAIWire (join nl (before ++ "data: [DONE]" :: after))
  = transform OpenAIWire (join nl before).
Proof.
  intros Hall. apply Forall_app in Hall as [Hb Ha].
  assert (Hlines : forall ls, Forall (fun l => singleLine l = true) ls ->
                   lines (join nl ls) = List.filter nonBlank ls).
  { intros [|l ls] H; [reflexivity|]. unfold lines. now rewrite split_join. }
  cbn [transform]. rewrite !Hlines; auto.
  2:{ apply Forall_app. split; [exact Hb | constructor; [reflexivity | exact Ha]]. }
  clear Hlines. induction before as [|l ls IH]; [reflexivity|].
  inversion Hb; subst. cbn [app List.filter].
  destruct (nonBlank l); [|now apply IH].
  cbn [openaiLoop]. destruct (startsWith "data: " l); [|now apply IH].
  destruct (String.eqb (slice 6 l) "[DONE]"); [reflexivity|].
  f_equal. now apply IH.
Qed.

(** The callback keeps nothing from one chunk to the next. *)
Lemma pipeThrough_cons (w : Wire) (chunk : string) (later : list string) :
  pipeThrough w (chunk :: later) = (transform w chunk ++ pipeThrough w later)%list.
Proof. reflexivity. Qed.

(** A chunk that holds the sentinel alone leaves the stream open: the
    chunks after it are transformed as if it had not been there. *)
Lemma sentinel_leaves_stream_open (later : list string) :
  pipeThrough OpenAIWire (("data: [DONE]" +:+ nl +:+ nl) :: later)
  = pipeThrough OpenAIWire later.
Proof. reflexivity. Qed.

End StreamClaims.

(** C2, witness: the three example bodies. *)
Lemma stream_reconstructs_reply_from_whole_lines_witness :
  concat (pipeThrough (platform := Reference.platform) OpenAIWire (upstream Examples.openaiBody))
  = "Hello, world"
  /\ concat (pipeThrough (platform := Reference.platform) AnthropicWire
                         (upstream Examples.anthropicBody))
     = "Good morning"
  /\ concat (pipeThrough (platform := Reference.platform) OllamaWire (upstream Examples.ollamaBody))
     = "Hi there".
Proof.
  split; [|split].
  - apply (stream_reconstructs_reply_from_whole_lines OpenAIWire Examples.openaiBody).
    whole_lines ltac:(framed).
  - apply (stream_reconstructs_reply_from_whole_lines AnthropicWire Examples.anthropicBody).
    whole_lines ltac:(framed).
  - apply (stream_reconstructs_reply_from_whole_lines OllamaWire Examples.ollamaBody).
    whole_lines ltac:(framed).
Defined.

(** C2, counterexample: one well-formed event whose line reaches the
    transform in two chunks, cut inside its [data: ] prefix or inside its
    payload. Neither half is a complete event, and the text it carries is
    lost. *)
Lemma split_frame_loses_its_text :
  let line := Examples.openaiLine "Hi" in
  let inPrefix :=
    ["dat";
     "a: " +:+ Reference.q "{'id':'chatcmpl-1','choices':[{'index':0,'delta':{'content':'Hi'}}]}"
     +:+ nl] in
  let inPayload :=
    ["data: " +:+ Reference.q "{'id':'chatcmpl-1','choices':[{'index':0,'del";
     Reference.q "ta':{'content':'Hi'}}]}" +:+ nl] in
  frame (platform := Reference.platform) OpenAIWire line "Hi"
  /\ decoded [[(line, "Hi"); (EmptyString, EmptyString)]] = "Hi"
  /\ concat inPrefix = line +:+ nl
  /\ concat (pipeThrough (platform := Reference.platform) OpenAIWire inPrefix) = EmptyString
  /\ concat inPayload = line +:+ nl
  /\ concat (pipeThrough (platform := Reference.platform) OpenAIWire inPayload) = EmptyString.
Proof.
  cbv zeta. split; [framed | repeat (split; [reflexivity|]); reflexivity].
Qed.

(** C3, at the failing input: the sentinel arrives in one chunk and a data
    line in the next; the transform still emits the content of that line. *)
Theorem openai_emits_after_sentinel_in_later_chunk :
  pipeThrough (platform := Reference.platform) OpenAIWire
    [Examples.sentinel +:+ nl +:+ nl; Examples.openaiLine "late" +:+ nl +:+ nl]
  = ["late"].
Proof. reflexivity. Qed.

(** C5, witness: a corrupt line in the middle of the first chunk of an
    OpenAI body, and in the middle of an Ollama body. *)
Lemma malformed_lines_are_skipped_witness :
  concat (pipeThrough (platform := Reference.platform) OpenAIWire
            (upstream Examples.corruptedBody))
  = "Hello, world"
  /\ concat (pipeThrough (platform := Reference.platform) OllamaWire
               (upstream Examples.corruptedOllamaBody))
     = "Hi there".
Proof.
  split.
  - apply (malformed_lines_are_skipped OpenAIWire Examples.corruptedBody).
    whole_lines ltac:(first [apply received_frame; framed | apply received_malformed; corrupt]).
  - apply (malformed_lines_are_skipped OllamaWire Examples.corruptedOllamaBody).
    whole_lines ltac:(first [apply received_frame; framed | apply received_malformed; corrupt]).
Defined.

(** C5, counterexample: a body of two valid lines around a malformed one.
    Delivered in one chunk it gives the text of both valid lines; delivered
    in two chunks that cut the second valid line inside its payload, the
    malformed line is skipped as before, but neither half of the cut line
    is a complete event and its text is not emitted. *)
Lemma valid_line_cut_after_malformed_is_lost :
  let whole :=
    Examples.openaiLine "Hel" +:+ nl +:+ Examples.corruptLine +:+ nl
    +:+ Examples.openaiLine "lo" +:+ nl in
  let cut :=
    [Examples.openaiLine "Hel" +:+ nl +:+ Examples.corruptLine +:+ nl
     +:+ "data: " +:+ Reference.q "{'id':'chatcmpl-1','choices':[{'index':0,'del";
     Reference.q "ta':{'content':'lo'}}]}" +:+ nl] in
  frame (platform := Reference.platform) OpenAIWire (Examples.openaiLine "Hel") "Hel"
  /\ malformed (platform := Reference.platform) OpenAIWire Examples.corruptLine
  /\ frame (platform := Reference.platform) OpenAIWire (Examples.openaiLine "lo") "lo"
  /\ concat (pipeThrough (platform := Reference.platform) OpenAIWire [whole]) = "Hello"
  /\ concat cut = whole
  /\ concat (pipeThrough (platform := Reference.platform) OpenAIWire cut) = "Hel".
Proof.
  cbv zeta. split; [framed | split; [corrupt | split; [framed|]]].
  split; [reflexivity | split; reflexivity].
Qed.

(** * The prompt synthesizer *)

Section PromptClaims.

Context {platform : Platform}.

Import JsStringFacts.

Lemma typeBlock_cases (difficulty : option string) :
  typeBlock difficulty "coding" = codingInstructions difficulty
  /\ typeBlock difficulty "behavioral" = behavioralInstructions
  /\ typeBlock difficulty "technical" = technicalInstructions difficulty
  /\ typeBlock difficulty "multiple-choice" = multipleChoiceInstructions
  /\ typeBlock difficulty "hr" = hrInstructions
  /\ typeBlock difficulty "hiring-manager" = hiringManagerInstructions.
Proof. repeat split. Qed.

(** The type blocks follow the order of the source's [if] statements, one
    block per selected type that has one. *)
Lemma typeInstructions_fixed_order (types : list string) (difficulty : option string) :
  typeInstructions types difficulty
  = concat (List.map (typeBlock difficulty) (List.filter (includes types) blockOrder)).
Proof.
  destruct (typeBlock_cases difficulty) as (Hc & Hb & Ht & Hm & Hh & Hg).
  unfold typeInstructions, blockOrder. cbn [List.filter].
  destruct (includes types "coding"), (includes types "behavioral"),
    (includes types "technical"), (includes types "multiple-choice"),
    (includes types "hr"), (includes types "hiring-manager");
    cbn [List.map]; rewrite ?concat_cons, ?concat_nil, ?Hc, ?Hb, ?Ht, ?Hm, ?Hh, ?Hg;
    cbn [String.append]; rewrite ?append_empty_r; reflexivity.
Qed.

(** C4 (as amended). The type-specific blocks fill their slot of the prompt
    in the fixed order coding, behavioral, technical, multiple-choice, hr,
    hiring-manager: one block for each of these types that the caller
    selected, whatever the order in which it selected them. *)
Theorem type_blocks_follow_fixed_order
    (jobDescription : option string) (types : list string)
    (difficulty : option string) (duration : option number) :
  getSystemPrompt jobDescription (Some types) difficulty duration
  = promptTemplate
      (sessionLength duration)
      (difficultyLevel difficulty)
      (selectedTypes (Some types))
      (contextSection jobDescription)
      (difficultyInstructions difficulty)
      (concat (List.map (typeBlock difficulty) (List.filter (includes types) blockOrder)))
      (hybridInstructions types).
Proof.
  unfold getSystemPrompt. now rewrite typeInstructions_fixed_order.
Qed.

(** C7. With [difficulty] unset the synthesizer returns the prompt it
    returns for [difficulty = "intermediate"]. *)
Theorem unset_difficulty_is_intermediate
    (jobDescription : option string) (interviewTypes : option (list string))
    (duration : option number) :
  getSystemPrompt jobDescription interviewTypes None duration
  = getSystemPrompt jobDescription interviewTypes (Some "intermediate") duration.
Proof. reflexivity. Qed.

Lemma difficultyIs_other (d name : string) : d <> name -> difficultyIs (Some d) name = false.
Proof. intros Hne. unfold difficultyIs. now apply String.eqb_neq. Qed.

(** C8 (as amended). A difficulty outside beginner, intermediate and
    advanced gets the intermediate guidelines and the intermediate variants
    of the type blocks; when it is not empty and names no inherited member,
    the opening sentence calls the level "mid-level difficulty", and the
    prompt differs from the intermediate one in that label only. *)
Theorem unrecognized_difficulty_keeps_intermediate_blocks
    (d : string) (jobDescription : option string) (interviewTypes : option (list string))
    (duration : option number) :
  ~ In d ["beginner"; "intermediate"; "advanced"] ->
  let types := match interviewTypes with Some l => l | None => [] end in
  let prompt label :=
    promptTemplate (sessionLength duration) label (selectedTypes interviewTypes)
      (contextSection jobDescription)
      (difficultyInstructions (Some "intermediate"))
      (typeInstructions types (Some "intermediate"))
      (hybridInstructions types) in
  difficultyInstructions (Some d) = difficultyInstructions (Some "intermediate")
  /\ typeInstructions types (Some d) = typeInstructions types (Some "intermediate")
  /\ getSystemPrompt jobDescription interviewTypes (Some "intermediate") duration
     = prompt "mid-level, covering practical experience and problem-solving"
  /\ (d <> EmptyString -> Object_prototype d = None ->
      getSystemPrompt jobDescription interviewTypes (Some d) duration
      = prompt "mid-level difficulty").
Proof.
  intros Hout types prompt.
  assert (Hb : d <> "beginner") by (intros ->; apply Hout; simpl; auto).
  assert (Hi : d <> "intermediate") by (intros ->; apply Hout; simpl; auto).
  assert (Ha : d <> "advanced") by (intros ->; apply Hout; simpl; auto).
  assert (Hdi : difficultyInstructions (Some d) = difficultyInstructions (Some "intermediate")).
  { unfold difficultyInstructions.
    now rewrite (difficultyIs_other _ _ Hb), (difficultyIs_other _ _ Ha). }
  assert (Hti : typeInstructions types (Some d) = typeInstructions types (Some "intermediate")).
  { unfold typeInstructions, codingInstructions, technicalInstructions.
    now rewrite (difficultyIs_other _ _ Hb), (difficultyIs_other _ _ Ha). }
  split; [exact Hdi | split; [exact Hti | split; [reflexivity|]]].
  intros Hne Hproto. unfold getSystemPrompt, prompt. fold types. rewrite Hdi, Hti.
  f_equal. unfold difficultyLevel, lookup_record.
  assert (Hor : orElse (Some d) "intermediate" = d).
  { unfold orElse. apply nonEmpty_true in Hne. now rewrite Hne. }
  rewrite Hor. cbn [assoc difficultyDescriptions].
  apply String.eqb_neq in Hb, Hi, Ha. now rewrite Hb, Hi, Ha, Hproto.
Qed.

End PromptClaims.

(** C4, counterexample: behavioral selected before coding. The prompt holds
    the coding block followed by the behavioral block, and nowhere the
    behavioral block followed by the coding block. *)
Lemma selection_order_is_not_kept :
  let prompt :=
    getSystemPrompt (platform := Reference.platform)
      None (Some ["behavioral"; "coding"]) None None in
  typeInstructions ["behavioral"; "coding"] None
  = codingInstructions None +:+ behavioralInstructions
  /\ (exists pre post,
        prompt = pre +:+ (codingInstructions None +:+ behavioralInstructions) +:+ post)
  /\ ~ (exists pre post,
          prompt = pre +:+ (behavioralInstructions +:+ codingInstructions None) +:+ post).
Proof.
  cbv zeta. split; [reflexivity | split].
  - apply JsStringFacts.contains_spec. vm_compute. reflexivity.
  - intros Hex. apply JsStringFacts.contains_spec in Hex. vm_compute in Hex. discriminate Hex.
Qed.

(** C8, witness: the difficulty "expert" on the reference platform. *)
Lemma unrecognized_difficulty_keeps_intermediate_blocks_witness :
  getSystemPrompt (platform := Reference.platform) None (Some ["coding"]) (Some "expert") None
  = promptTemplate "30 minute" "mid-level difficulty"
      "live coding challenges and algorithm questions" EmptyString
      (difficultyInstructions (Some "intermediate"))
      (codingInstructions (Some "intermediate"))
      EmptyString.
Proof.
  apply (unrecognized_difficulty_keeps_intermediate_blocks (platform := Reference.platform)
           "expert" None (Some ["coding"]) None).
  - simpl. intros [H | [H | [H | []]]]; discriminate H.
  - discriminate.
  - reflexivity.
Defined.

(** C8, counterexample: the prompt for "expert" is not the prompt for
    "intermediate": the level named in the opening sentence differs. *)
Lemma unrecognized_difficulty_changes_the_label :
  difficultyLevel (platform := Reference.platform) (Some "expert") = "mid-level difficulty"
  /\ difficultyLevel (platform := Reference.platform) (Some "intermediate")
     = "mid-level, covering practical experience and problem-solving"
  /\ getSystemPrompt (platform := Reference.platform) None None (Some "expert") None
     <> getSystemPrompt (platform := Reference.platform) None None (Some "intermediate") None.
Proof.
  split; [reflexivity | split; [reflexivity|]].
  intros Heq. apply String.eqb_eq in Heq. vm_compute in Heq. discriminate Heq.
Qed.

(** * The provider registry, the health probe and the handler *)

Lemma isSet_true (env : Env) (name : string) : isSet env name = true <-> present env name.
Proof.
  unfold isSet, present. destruct (env !! name) as [v|].
  - rewrite JsStringFacts.nonEmpty_true. split.
    + intros Hv. now exists v.
    + intros (v' & Hv' & Hne). congruence.
  - split; [discriminate | intros (v & Hv & _); discriminate].
Qed.

Lemma isSet_false (env : Env) (name : string) : isSet env name = false <-> ~ present env name.
Proof.
  rewrite <- isSet_true. destruct (isSet env name); split; congruence.
Qed.

Lemma detectProvider_none (env : Env) : noCredential env -> detectProvider env = None.
Proof.
  unfold noCredential, credentials, detectProvider.
  intros H. rewrite !List.Forall_cons_iff in H. destruct H as (H1 & H2 & H3 & H4 & _).
  apply isSet_false in H1, H2, H3, H4. now rewrite H1, H2, H3, H4.
Qed.

Lemma detectProvider_some (env : Env) :
  someCredential env -> exists p, detectProvider env = Some p.
Proof.
  unfold someCredential, credentials, detectProvider. intros H.
  destruct (isSet env "OPENAI_API_KEY") eqn:H1; [eauto|].
  destruct (isSet env "ANTHROPIC_API_KEY") eqn:H2; [eauto|].
  destruct (isSet env "OLLAMA_API_KEY") eqn:H3; [eauto|].
  destruct (isSet env "HUGGINGFACE_API_KEY") eqn:H4; [eauto|].
  exfalso. apply isSet_false in H1, H2, H3, H4.
  repeat (apply Exists_cons in H as [H | H]; [contradiction|]).
  now apply Exists_nil in H.
Qed.

(** C1. Provider resolution follows the precedence openai, anthropic,
    ollama, huggingface over the credentials that are present, and resolves
    to no provider, which the health probe reports as "none", when none
    is. *)
Theorem detectProvider_precedence (env : Env) :
  (present env "OPENAI_API_KEY" -> detectProvider env = Some openai)
  /\ (~ present env "OPENAI_API_KEY" ->
      present env "ANTHROPIC_API_KEY" -> detectProvider env = Some anthropic)
  /\ (~ present env "OPENAI_API_KEY" ->
      ~ present env "ANTHROPIC_API_KEY" ->
      present env "OLLAMA_API_KEY" -> detectProvider env = Some ollama)
  /\ (~ present env "OPENAI_API_KEY" ->
      ~ present env "ANTHROPIC_API_KEY" ->
      ~ present env "OLLAMA_API_KEY" ->
      present env "HUGGINGFACE_API_KEY" -> detectProvider env = Some huggingface)
  /\ (~ present env "OPENAI_API_KEY" ->
      ~ present env "ANTHROPIC_API_KEY" ->
      ~ present env "OLLAMA_API_KEY" ->
      ~ present env "HUGGINGFACE_API_KEY" ->
      detectProvider env = None /\ provider (GET env) = "none").
Proof.
  unfold GET, detectProvider. cbn [provider].
  repeat match goal with |- _ /\ _ => split end; intros;
    repeat match goal with
           | H : present _ _ |- _ => apply isSet_true in H; rewrite H; clear H
           | H : ~ present _ _ |- _ => apply isSet_false in H; rewrite H; clear H
           end;
    try split; reflexivity.
Qed.

(** Deciding presence in a concrete environment. *)
Ltac is_present := apply isSet_true; reflexivity.
Ltac is_absent := apply isSet_false; reflexivity.

(** C1, witness: the four environments the specification lists, and one
    with the Hugging Face credential alone. *)
Lemma detectProvider_precedence_witness :
  detectProvider Examples.allCredentials = Some openai
  /\ detectProvider Examples.anthropicAndOllama = Some anthropic
  /\ detectProvider Examples.onlyOllama = Some ollama
  /\ detectProvider Examples.onlyHuggingFace = Some huggingface
  /\ detectProvider Examples.noCredentials = None.
Proof.
  split; [|split; [|split; [|split]]].
  - apply (proj1 (detectProvider_precedence Examples.allCredentials)). is_present.
  - apply (proj1 (proj2 (detectProvider_precedence Examples.anthropicAndOllama)));
      [is_absent | is_present].
  - apply (proj1 (proj2 (proj2 (detectProvider_precedence Examples.onlyOllama))));
      [is_absent | is_absent | is_present].
  - apply (proj1 (proj2 (proj2 (proj2 (detectProvider_precedence Examples.onlyHuggingFace)))));
      [is_absent | is_absent | is_absent | is_present].
  - apply (proj2 (proj2 (proj2 (proj2 (detectProvider_precedence Examples.noCredentials)))));
      is_absent.
Defined.

(** C10. The health probe reports a flag for openai, anthropic and
    huggingface and none for ollama: when OLLAMA_API_KEY is the only
    credential present, the provider is "ollama" and every flag is false. *)
Theorem health_probe_has_no_ollama_flag (env : Env) :
  List.map fst (availableProviders (GET env)) = ["openai"; "anthropic"; "huggingface"]
  /\ (present env "OLLAMA_API_KEY" ->
      ~ present env "OPENAI_API_KEY" ->
      ~ present env "ANTHROPIC_API_KEY" ->
      ~ present env "HUGGINGFACE_API_KEY" ->
      provider (GET env) = "ollama"
      /\ Forall (fun flag => snd flag = false) (availableProviders (GET env))).
Proof.
  split; [reflexivity|]. intros Hol Hop Han Hhf.
  apply isSet_true in Hol. apply isSet_false in Hop, Han, Hhf.
  unfold GET, detectProvider. cbn [provider availableProviders].
  rewrite Hol, Hop, Han, Hhf. split; [reflexivity|].
  repeat constructor.
Qed.

(** C10, witness: only OLLAMA_API_KEY is set. *)
Lemma health_probe_has_no_ollama_flag_witness :
  provider (GET Examples.onlyOllama) = "ollama"
  /\ Forall (fun flag => snd flag = false) (availableProviders (GET Examples.onlyOllama)).
Proof.
  apply (proj2 (health_probe_has_no_ollama_flag Examples.onlyOllama));
    [is_present | is_absent | is_absent | is_absent].
Defined.

Section HandlerClaims.

Context {platform : Platform}.

Import JsStringFacts.

(** C9. A request with a messages array: with no credential set the
    handler answers 500 with the configuration error, which names the
    credential variables, and invokes no adapter, so no upstream call is
    made; with a credential set it invokes the adapter of the resolved
    provider instead. *)
Theorem missing_credentials_fail_fast
    (env : Env) (request : ChatRequest) (history : list Message) :
  messages request = Some history ->
  (noCredential env ->
     POST env request = JsonError 500 configurationError
     /\ contains "OPENAI_API_KEY" configurationError = true
     /\ contains "ANTHROPIC_API_KEY" configurationError = true
     /\ contains "HUGGINGFACE_API_KEY" configurationError = true)
  /\ (someCredential env ->
      exists p upstreamRequest,
        detectProvider env = Some p
        /\ POST env request = Dispatch p upstreamRequest
        /\ POST env request <> JsonError 500 configurationError).
Proof.
  intros Hmsgs. unfold POST. rewrite Hmsgs. split.
  - intros Hnone. rewrite (detectProvider_none _ Hnone). repeat split.
  - intros Hsome. destruct (detectProvider_some _ Hsome) as [p Hp]. rewrite Hp.
    exists p. destruct p; eexists; (split; [reflexivity | split; [reflexivity | discriminate]]).
Qed.

End HandlerClaims.

(** C9, witness: a one-message request without and with a credential. *)
Lemma missing_credentials_fail_fast_witness :
  POST Examples.noCredentials Examples.helloRequest = JsonError 500 configurationError
  /\ exists upstreamRequest,
       POST Examples.onlyHuggingFace Examples.helloRequest
       = Dispatch huggingface upstreamRequest.
Proof.
  split.
  - apply (missing_credentials_fail_fast
             Examples.noCredentials Examples.helloRequest Examples.hello eq_refl).
    repeat (constructor; [is_absent|]). constructor.
  - destruct (proj2 (missing_credentials_fail_fast
                       Examples.onlyHuggingFace Examples.helloRequest Examples.hello eq_refl))
      as (p & r & Hp & Hpost & _).
    + unfold someCredential, credentials. do 3 apply Exists_cons_tl. apply Exists_cons_hd.
      is_present.
    + vm_compute in Hp. injection Hp as <-. now exists r.
Defined.

(** * The wire adapters and the history *)

Lemma join_cons_concat (sep x : string) (l : list string) :
  join sep (x :: l) = x +:+ concat (List.map (fun y => sep +:+ y) l).
Proof.
  revert x. induction l as [|y ys IH]; intros x.
  - cbn. now rewrite JsStringFacts.append_empty_r.
  - rewrite JsStringFacts.join_cons_cons, IH. cbn [List.map].
    now rewrite JsStringFacts.concat_cons, JsStringFacts.append_assoc.
Qed.

(** C6 (as amended). The adapters read the history and leave it as it is.
    The OpenAI payload is the system message followed by the history
    unchanged. The Anthropic payload has the prompt in its own field and
    the history's contents in order, role assistant kept and every other
    role sent as user. The Ollama prompt is the system line followed by one
    line per message in order, labelled User for role user and Assistant
    for every other role. *)
Theorem adapters_forward_history (env : Env) (history : list Message) (systemPrompt : string) :
  (exists b,
     body (streamOpenAI_request env history systemPrompt) = OpenAIPayload b
     /\ OpenAI.messages b = {| role := system; content := systemPrompt |} :: history)
  /\ (exists b,
      body (streamAnthropic_request env history systemPrompt) = AnthropicPayload b
      /\ Anthropic.system b = systemPrompt
      /\ List.map content (Anthropic.messages b) = List.map content history
      /\ List.map role (Anthropic.messages b) = List.map sentRole (List.map role history)
      /\ (Forall (fun m => role m <> system) history -> Anthropic.messages b = history))
  /\ (exists b,
      body (streamOllama_request env history systemPrompt) = OllamaPayload b
      /\ Ollama.prompt b
         = "System: " +:+ systemPrompt
           +:+ concat (List.map (fun m => nl +:+ promptLabel (role m) +:+ ": " +:+ content m)
                                history)).
Proof.
  split; [|split].
  - eexists. split; reflexivity.
  - eexists. split; [reflexivity|]. cbn [Anthropic.system Anthropic.messages].
    unfold anthropicMessages. rewrite !List.map_map.
    split; [reflexivity | split; [reflexivity | split; [apply List.map_ext; now intros [[] c]|]]].
    intros Hroles. induction Hroles as [|[r c] rest Hr _ IH]; [reflexivity|].
    cbn [List.map]. rewrite IH. cbn in Hr. now destruct r.
  - eexists. split; [reflexivity|]. cbn [Ollama.prompt]. unfold ollamaPrompt.
    rewrite join_cons_concat, List.map_map, JsStringFacts.append_assoc.
    apply (f_equal (fun texts => "System: " +:+ systemPrompt +:+ concat texts)).
    apply List.map_ext. now intros [[] c].
Qed.

(** C6, witness: a history of user and assistant messages reaches the
    Anthropic backend as it is. *)
Lemma adapters_forward_history_witness :
  exists b,
    body (streamAnthropic_request Examples.anthropicAndOllama Examples.hello "P")
    = AnthropicPayload b
    /\ Anthropic.messages b = Examples.hello.
Proof.
  destruct (proj1 (proj2 (adapters_forward_history
                            Examples.anthropicAndOllama Examples.hello "P")))
    as (b & Hb & _ & _ & _ & Hsame).
  exists b. split; [exact Hb|]. apply Hsame.
  repeat constructor. discriminate.
Defined.

(** C6, counterexample: a history that holds a system message. The
    Anthropic adapter sends it under the role user and the Ollama adapter
    labels it Assistant. *)
Lemma system_message_changes_role :
  List.map role Examples.withSystemNote = [system; user; assistant]
  /\ (exists b,
        body (streamAnthropic_request Examples.anthropicAndOllama Examples.withSystemNote "P")
        = AnthropicPayload b
        /\ List.map role (Anthropic.messages b) = [user; user; assistant])
  /\ (exists b,
        body (streamOllama_request Examples.onlyOllama Examples.withSystemNote "P")
        = OllamaPayload b
        /\ Ollama.prompt b
           = "System: P" +:+ nl +:+ "Assistant: Be brief." +:+ nl +:+ "User: Hello" +:+ nl
             +:+ "Assistant: Hi, shall we start?").
Proof.
  split; [reflexivity | split]; eexists; split; reflexivity.
Qed.

(** * Further properties of the stream transforms *)

(** A chunk has a line that is the OpenAI sentinel. *)
Definition hasSentinel (chunk : string) : bool :=
  existsb (String.eqb "data: [DONE]") (split "010" chunk).

(** A line is a [data: ] line of a server-sent-event body. *)
Definition dataLine (line : string) : bool := startsWith "data: " line.

(** A body whose chunks each end with a line feed: the chunks as the
    transform receives them, and the body as one text. *)
Definition terminated (pieces : list string) : list string :=
  List.map (fun piece => piece +:+ nl) pieces.

Section Rechunking.

Context {platform : Platform}.

Import JsStringFacts.

Lemma split_nonempty (s : string) : split "010" s <> [].
Proof.
  destruct s as [|c r]; simpl; [discriminate|].
  destruct (Ascii.eqb c "010"); [discriminate|].
  destruct (split "010" r); discriminate.
Qed.

(** Splitting a text at one of its line feeds splits its list of lines. *)
Lemma split_at_line_feed (a b : string) :
  split "010" (a +:+ nl +:+ b) = (split "010" a ++ split "010" b)%list.
Proof.
  change (nl +:+ b) with (String "010" b).
  induction a as [|c r IH]; simpl; [reflexivity|].
  rewrite IH. destruct (Ascii.eqb c "010"); [reflexivity|].
  pose proof (split_nonempty r) as Hne.
  destruct (split "010" r) as [|h t]; [contradiction | reflexivity].
Qed.

Lemma lines_at_line_feed (a b : string) :
  lines (a +:+ nl +:+ b) = (lines a ++ lines b)%list.
Proof. unfold lines. now rewrite split_at_line_feed, List.filter_app. Qed.

Lemma lines_terminated (a : string) : lines (a +:+ nl) = lines a.
Proof.
  rewrite <- (append_empty_r (a +:+ nl)), append_assoc, lines_at_line_feed.
  apply List.app_nil_r.
Qed.

Lemma anthropicLoop_app (x y : list string) :
  anthropicLoop (x ++ y) = (anthropicLoop x ++ anthropicLoop y)%list.
Proof.
  induction x as [|l x IH]; [reflexivity|]. cbn [app anthropicLoop].
  destruct (startsWith "data: " l); [|exact IH]. now rewrite IH, List.app_assoc.
Qed.

Lemma ollamaLoop_app (x y : list string) :
  ollamaLoop (x ++ y) = (ollamaLoop x ++ ollamaLoop y)%list.
Proof.
  induction x as [|l x IH]; [reflexivity|]. cbn [app ollamaLoop].
  now rewrite IH, List.app_assoc.
Qed.

(** The sentinel test of the loop is the comparison with the whole line. *)
Lemma sentinel_test (line : string) :
  startsWith "data: " line && String.eqb (slice 6 line) "[DONE]"
  = String.eqb "data: [DONE]" line.
Proof.
  destruct (startsWith "data: " line) eqn:Hd.
  - apply startsWith_spec in Hd as [payload ->]. rewrite data_line_slice. cbn [andb].
    destruct (String.eqb_spec payload "[DONE]") as [->|Hne]; [reflexivity|].
    symmetry. apply String.eqb_neq. intros Heq. apply Hne.
    now injection Heq.
  - cbn [andb]. symmetry. apply String.eqb_neq. intros <-. discriminate Hd.
Qed.

Lemma openaiLoop_app (x y : list string) :
  openaiLoop (x ++ y)
  = (openaiLoop x ++ if existsb (String.eqb "data: [DONE]") x then [] else openaiLoop y)%list.
Proof.
  induction x as [|l x IH]; [reflexivity|]. cbn [app openaiLoop existsb].
  rewrite <- (sentinel_test l).
  destruct (startsWith "data: " l); cbn [andb orb]; [|exact IH].
  destruct (String.eqb (slice 6 l) "[DONE]"); cbn [orb]; [reflexivity|].
  now rewrite IH, List.app_assoc.
Qed.

Lemma sentinel_is_not_blank (ls : list string) :
  existsb (String.eqb "data: [DONE]") (List.filter nonBlank ls)
  = existsb (String.eqb "data: [DONE]") ls.
Proof.
  induction ls as [|l ls IH]; [reflexivity|]. cbn [List.filter existsb].
  destruct (String.eqb_spec "data: [DONE]" l) as [<-|Hne].
  - reflexivity.
  - destruct (nonBlank l); cbn [existsb orb]; [|exact IH].
    apply String.eqb_neq in Hne. now rewrite Hne, IH.
Qed.

(** Cutting a chunk after a line feed, for each wire format. *)
Lemma transform_at_line_feed (w : Wire) (a b : string) :
  transform w (a +:+ nl +:+ b)
  = (transform w (a +:+ nl)
     ++ match w with
        | OpenAIWire => if hasSentinel a then [] else transform w b
        | _ => transform w b
        end)%list.
Proof.
  destruct w; cbn [transform]; rewrite lines_at_line_feed, lines_terminated.
  - rewrite openaiLoop_app. unfold lines at 2. now rewrite sentinel_is_not_blank.
  - apply anthropicLoop_app.
  - apply ollamaLoop_app.
Qed.

End Rechunking.

Section RechunkingClaims.

Context {platform : Platform}.

Import JsStringFacts.

Lemma transform_empty (w : Wire) : transform w EmptyString = [].
Proof. now destruct w. Qed.

Lemma concat_terminated_cons (piece : string) (rest : list string) :
  concat (terminated (piece :: rest)) = piece +:+ nl +:+ concat (terminated rest).
Proof. unfold terminated. cbn [List.map]. now rewrite concat_cons, append_assoc. Qed.

(** X1. For the Anthropic and the Ollama format, a body delivered in
    chunks that each end with a line feed gives the same output chunks as
    the whole body delivered in one chunk, whatever the lines hold. *)
Theorem rechunking_at_line_feeds_keeps_output (pieces : list string) :
  pipeThrough AnthropicWire (terminated pieces)
  = transform AnthropicWire (concat (terminated pieces))
  /\ pipeThrough OllamaWire (terminated pieces)
     = transform OllamaWire (concat (terminated pieces)).
Proof.
  split; induction pieces as [|piece rest IH]; try reflexivity;
    rewrite concat_terminated_cons, transform_at_line_feed, <- IH; reflexivity.
Qed.

(** X2. For the OpenAI format the output of the whole body is a prefix of
    the output of its chunks, and the two are equal when no chunk holds
    the sentinel: cutting the body can only add output, after a
    sentinel. *)
Theorem openai_rechunking_adds_only_after_sentinel (pieces : list string) :
  exists extra,
    pipeThrough OpenAIWire (terminated pieces)
    = (transform OpenAIWire (concat (terminated pieces)) ++ extra)%list
    /\ (Forall (fun piece => hasSentinel piece = false) pieces -> extra = []).
Proof.
  induction pieces as [|piece rest (extra & Heq & Hnone)].
  - exists []. split; [reflexivity | trivial].
  - rewrite concat_terminated_cons, transform_at_line_feed.
    change (pipeThrough OpenAIWire (terminated (piece :: rest)))
      with (transform OpenAIWire (piece +:+ nl) ++ pipeThrough OpenAIWire (terminated rest))%list.
    destruct (hasSentinel piece) eqn:Hs.
    + exists (pipeThrough OpenAIWire (terminated rest)).
      split; [now rewrite List.app_nil_r|].
      intros Hall. apply List.Forall_cons_iff in Hall as [Hp _]. congruence.
    + exists extra. split.
      * now rewrite Heq, List.app_assoc.
      * intros Hall. apply List.Forall_cons_iff in Hall as [_ Hrest]. auto.
Qed.

Lemma filter_dataLine_nonBlank (ls : list string) :
  List.filter dataLine (List.filter nonBlank ls) = List.filter dataLine ls.
Proof.
  induction ls as [|l ls IH]; [reflexivity|]. cbn [List.filter].
  destruct (nonBlank l) eqn:Hnb; cbn [List.filter]; [now rewrite IH|].
  destruct (dataLine l) eqn:Hd; [|exact IH].
  apply startsWith_spec in Hd as [payload ->].
  unfold nonBlank in Hnb. rewrite data_line_nonblank in Hnb. discriminate.
Qed.

Lemma openaiLoop_dataLines (ls : list string) :
  openaiLoop ls = openaiLoop (List.filter dataLine ls).
Proof.
  induction ls as [|l ls IH]; [reflexivity|]. cbn [openaiLoop List.filter]. unfold dataLine at 1.
  destruct (startsWith "data: " l) eqn:Hd; [|exact IH].
  cbn [openaiLoop]. rewrite Hd. now rewrite IH.
Qed.

Lemma anthropicLoop_dataLines (ls : list string) :
  anthropicLoop ls = anthropicLoop (List.filter dataLine ls).
Proof.
  induction ls as [|l ls IH]; [reflexivity|]. cbn [anthropicLoop List.filter]. unfold dataLine at 1.
  destruct (startsWith "data: " l) eqn:Hd; [|exact IH].
  cbn [anthropicLoop]. rewrite Hd. now rewrite IH.
Qed.

(** X3. The two server-sent-event transforms read the [data: ] lines of a
    chunk and nothing else: two chunks with the same [data: ] lines, in
    the same order, give the same output. *)
Theorem only_data_lines_matter (a b : string) :
  List.filter dataLine (split "010" a) = List.filter dataLine (split "010" b) ->
  transform OpenAIWire a = transform OpenAIWire b
  /\ transform AnthropicWire a = transform AnthropicWire b.
Proof.
  intros Hsame. cbn [transform]. unfold lines. fold nonBlank.
  rewrite (openaiLoop_dataLines (List.filter nonBlank (split "010" a))),
    (openaiLoop_dataLines (List.filter nonBlank (split "010" b))),
    (anthropicLoop_dataLines (List.filter nonBlank (split "010" a))),
    (anthropicLoop_dataLines (List.filter nonBlank (split "010" b))),
    !filter_dataLine_nonBlank, Hsame.
  split; reflexivity.
Qed.

End RechunkingClaims.

(** X2, witness: a body of three lines without a sentinel. *)
Lemma openai_rechunking_adds_only_after_sentinel_witness :
  pipeThrough (platform := Reference.platform) OpenAIWire
    (terminated [Examples.openaiLine "Hel"; EmptyString; Examples.openaiLine "lo"])
  = transform (platform := Reference.platform) OpenAIWire
      (concat (terminated [Examples.openaiLine "Hel"; EmptyString; Examples.openaiLine "lo"])).
Proof.
  destruct (openai_rechunking_adds_only_after_sentinel (platform := Reference.platform)
              [Examples.openaiLine "Hel"; EmptyString; Examples.openaiLine "lo"])
    as (extra & Heq & Hnone).
  rewrite Heq, Hnone.
  - apply List.app_nil_r.
  - repeat (constructor; [reflexivity|]). constructor.
Defined.

(** X3, witness: an event with and without the fields and blank lines
    around its [data: ] line. *)
Lemma only_data_lines_matter_witness :
  transform (platform := Reference.platform) AnthropicWire
    ("event: content_block_delta" +:+ nl +:+ Examples.anthropicLine "Hi" +:+ nl +:+ nl
     +:+ ": keep-alive" +:+ nl)
  = transform (platform := Reference.platform) AnthropicWire (Examples.anthropicLine "Hi").
Proof.
  apply (only_data_lines_matter (platform := Reference.platform)). reflexivity.
Defined.

(** * Further properties of the prompt synthesizer *)

Section PromptFacts.

Context {platform : Platform}.

Import JsStringFacts.

(** X4. The instruction blocks depend only on which of the six type tags
    occur in the selection: its order, repeated tags and tags that are
    none of the six change nothing. *)
Theorem type_blocks_depend_on_membership
    (types types' : list string) (difficulty : option string) :
  (forall tag, In tag blockOrder -> includes types tag = includes types' tag) ->
  typeInstructions types difficulty = typeInstructions types' difficulty.
Proof.
  intros Hsame. rewrite !typeInstructions_fixed_order. f_equal. f_equal.
  now apply List.filter_ext_in.
Qed.

(** X5. Empty inputs count as unset: a job description of white space
    only, an empty list of types and a falsy duration give the prompt of a
    request without these fields. *)
Theorem empty_inputs_behave_as_unset
    (jobDescription : string) (duration : number) (difficulty : option string) :
  trim jobDescription = EmptyString ->
  number_truthy duration = false ->
  getSystemPrompt (Some jobDescription) (Some []) difficulty (Some duration)
  = getSystemPrompt None None difficulty None.
Proof.
  intros Hblank Hzero. unfold getSystemPrompt, contextSection, sessionLength.
  now rewrite Hblank, Hzero.
Qed.

End PromptFacts.

(** X4, witness: two selections with the same tags among the six. *)
Lemma type_blocks_depend_on_membership_witness :
  typeInstructions ["coding"; "hr"] (Some "advanced")
  = typeInstructions ["hr"; "pair-programming"; "coding"; "hr"] (Some "advanced").
Proof.
  apply type_blocks_depend_on_membership.
  intros tag Htag. simpl in Htag.
  repeat (destruct Htag as [<- | Htag]; [reflexivity|]). contradiction.
Defined.

(** X5, witness: a job description of blanks and a duration of zero. *)
Lemma empty_inputs_behave_as_unset_witness :
  getSystemPrompt (platform := Reference.platform)
    (Some ("   " +:+ nl)) (Some []) (Some "beginner") (Some 0%Z)
  = getSystemPrompt (platform := Reference.platform) None None (Some "beginner") None.
Proof.
  apply (empty_inputs_behave_as_unset (platform := Reference.platform)); reflexivity.
Defined.

(** * The Hugging Face prompt *)

(** The role of the last message of a history. *)
Fixpoint lastRole (history : list Message) : option Role :=
  match history with
  | [] => None
  | m :: rest =>
      match rest with
      | [] => Some (role m)
      | _ :: _ => lastRole rest
      end
  end.

Definition notSystem (m : Message) : bool :=
  match role m with
  | system => false
  | user | assistant => true
  end.

(** What [formatMessagesAsPrompt] writes between a history and the messages
    that continue it. *)
Definition turnSeparator (history more : list Message) : string :=
  match lastRole history, more with
  | Some assistant, _ :: _ => "<s>"
  | _, _ => EmptyString
  end.

(** X6. The prompt of a continued conversation: the turns of the history,
    the sequence opener when the history ends with an assistant message
    and something follows, then the turns of the continuation. In
    particular the prompt of a history is a prefix of the prompt of every
    continuation of it. *)
Theorem formatMessagesAsPrompt_continues
    (history more : list Message) (systemPrompt : string) :
  formatMessagesAsPrompt (history ++ more) systemPrompt
  = formatMessagesAsPrompt history systemPrompt
    +:+ turnSeparator history more +:+ formatTurns more.
Proof.
  assert (Hturns : formatTurns (history ++ more)
                   = formatTurns history +:+ turnSeparator history more +:+ formatTurns more).
  { induction history as [|m rest IH]; [reflexivity|].
    cbn [app formatTurns]. rewrite IH. clear IH.
    destruct rest as [|m' rest'].
    - unfold turnSeparator. cbn [lastRole app formatTurns].
      destruct (role m), more;
        rewrite ?JsStringFacts.append_assoc, ?JsStringFacts.append_empty_r;
        cbn [String.append]; rewrite ?JsStringFacts.append_empty_r; reflexivity.
    - cbn [app]. unfold turnSeparator. cbn [lastRole].
      now rewrite !JsStringFacts.append_assoc. }
  unfold formatMessagesAsPrompt. now rewrite Hturns, !JsStringFacts.append_assoc.
Qed.

Lemma filter_notSystem_nonempty (history : list Message) :
  history <> [] -> lastRole history <> Some system ->
  List.filter notSystem history <> [].
Proof.
  induction history as [|m rest IH]; [congruence|]. intros _ Hlast.
  cbn [List.filter]. destruct rest as [|m' rest'].
  - cbn [lastRole] in Hlast. unfold notSystem. destruct (role m); [congruence | discriminate..].
  - destruct (notSystem m); [discriminate|]. apply IH; [discriminate | exact Hlast].
Qed.

Lemma formatTurns_cons (m : Message) (rest : list Message) :
  formatTurns (m :: rest)
  = match role m with
    | user => "[INST] " +:+ content m +:+ " [/INST]"
    | assistant =>
        " " +:+ content m +:+ "</s>"
        +:+ (match rest with [] => EmptyString | _ :: _ => "<s>" end)
    | system => EmptyString
    end +:+ formatTurns rest.
Proof. reflexivity. Qed.

Lemma formatTurns_without_system (history : list Message) :
  lastRole history <> Some system ->
  formatTurns (List.filter notSystem history) = formatTurns history.
Proof.
  induction history as [|m rest IH]; [reflexivity|]. intros Hlast.
  assert (Hrest : rest = [] \/ (rest <> [] /\ lastRole rest <> Some system)).
  { destruct rest; [now left | right]. split; [discriminate | exact Hlast]. }
  destruct Hrest as [-> | [Hne Hl]].
  - cbn [lastRole] in Hlast. cbn [List.filter]. unfold notSystem.
    destruct (role m) eqn:Hr; [congruence | reflexivity..].
  - specialize (IH Hl). pose proof (filter_notSystem_nonempty rest Hne Hl) as Hkept.
    rewrite (formatTurns_cons m rest). cbn [List.filter]. unfold notSystem at 1.
    destruct (role m) eqn:Hr.
    + exact IH.
    + now rewrite formatTurns_cons, Hr, IH.
    + rewrite formatTurns_cons, Hr, IH.
      destruct (List.filter notSystem rest); [contradiction|].
      destruct rest; [contradiction | reflexivity].
Qed.

(** X7. The Hugging Face adapter leaves the system messages of the history
    out of its prompt: when the history does not end with a system
    message, the prompt is the prompt of the history without them. *)
Theorem formatMessagesAsPrompt_drops_system
    (history : list Message) (systemPrompt : string) :
  lastRole history <> Some system ->
  formatMessagesAsPrompt (List.filter notSystem history) systemPrompt
  = formatMessagesAsPrompt history systemPrompt.
Proof.
  intros Hlast. unfold formatMessagesAsPrompt. now rewrite formatTurns_without_system.
Qed.

(** A history that ends with a system message after an assistant message
    keeps a trace of it: the sequence opener after the assistant turn. *)
Lemma trailing_system_message_leaves_opener :
  formatTurns [ {| role := assistant; content := "Hi" |};
                {| role := system; content := "Be brief." |} ]
  = " Hi</s><s>"
  /\ formatTurns [ {| role := assistant; content := "Hi" |} ] = " Hi</s>".
Proof. split; reflexivity. Qed.

(** X7, witness: the example history with a system note. *)
Lemma formatMessagesAsPrompt_drops_system_witness :
  formatMessagesAsPrompt (List.filter notSystem Examples.withSystemNote) "P"
  = formatMessagesAsPrompt Examples.withSystemNote "P".
Proof.
  apply formatMessagesAsPrompt_drops_system. discriminate.
Defined.

(** * The handler with its upstream call

    What the adapters do with the upstream response, and the reply of the
    [POST] handler. The [fetch] of an adapter is a function from the
    request to what the call settles to. An upstream body is the list of
    its chunks, read to its end. *)

Module Upstream.

(** [response.ok], [response.status] and [response.body]; the body is
    [None] when the response has none. *)
Record response := {
  ok : bool;
  status : nat;
  body : option (list string)
}.

(** [await response.text()] *)
Definition text (r : response) : string :=
  match body r with
  | Some chunks => concat chunks
  | None => EmptyString
  end.

End Upstream.

(** What [await fetch(...)] settles to: a response, or a rejection with an
    error that carries a message. *)
Inductive Fetched :=
| Resolved (r : Upstream.response)
| Rejected (message : string).

(** The [message] of a caught error: a text the route or the network layer
    wrote, or the engine's message for an error it threw itself. *)
Inductive ErrorMessage :=
| Literal (text : string)
| EngineMessage (e : JsError).

(** What an adapter returns: a [Response], or a throw. *)
Inductive raised (A : Type) : Type :=
| Returned (a : A)
| Raised (error : ErrorMessage).

Arguments Returned {A} a.
Arguments Raised {A} error.

(** The reply of the handler: [NextResponse.json({ error }, { status })],
    or [new Response(body, { headers })] with status 200, the body being
    [None] when the response is built without one. *)
Inductive Reply :=
| ErrorReply (status : nat) (error : ErrorMessage)
| BodyReply (headers : list (string * string)) (body : option (list string)).

(** [`${n}`] for a status code *)
Definition decimal (n : nat) : string := NilZero.string_of_uint (Nat.to_uint n).

(** The name under which an adapter reports an upstream error. *)
Definition apiName (p : ProviderName) : string :=
  match p with
  | openai => "OpenAI"
  | anthropic => "Anthropic"
  | huggingface => "Hugging Face"
  | ollama => "Ollama"
  end.

(** [throw new Error(`<name> API error: ${response.status} - ${error}`)] *)
Definition upstreamError (p : ProviderName) (r : Upstream.response) : ErrorMessage :=
  Literal (apiName p +:+ " API error: " +:+ decimal (Upstream.status r)
           +:+ " - " +:+ Upstream.text r).

Definition streamHeaders : list (string * string) :=
  [("Content-Type", "text/plain; charset=utf-8");
   ("Transfer-Encoding", "chunked");
   ("Cache-Control", "no-cache")].

Definition textHeaders : list (string * string) :=
  [("Content-Type", "text/plain; charset=utf-8");
   ("Cache-Control", "no-cache")].

Section Responses.

Context {platform : Platform}.

(** The part the three streaming adapters share after the [fetch]: a
    response that is not ok throws, an ok one is piped through the
    transform of the format. *)
Definition streamed (p : ProviderName) (w : Wire) (f : Fetched) : raised Reply :=
  match f with
  | Rejected message => Raised (Literal message)
  | Resolved r =>
      if Upstream.ok r
      then Returned (BodyReply streamHeaders (option_map (pipeThrough w) (Upstream.body r)))
      else Raised (upstreamError p r)
  end.

Definition streamOpenAI (f : Fetched) : raised Reply := streamed openai OpenAIWire f.

Definition streamAnthropic (f : Fetched) : raised Reply := streamed anthropic AnthropicWire f.

Definition streamOllama (f : Fetched) : raised Reply := streamed ollama OllamaWire f.

(** [Array.isArray(result) ? result[0].generated_text : result.generated_text];
    [generated_text] is defined on no prototype either. *)
Definition generatedText (result : json number) : completion value :=
  match result with
  | JArray items =>
      match items with
      | first :: _ => read first "generated_text"
      | [] => Throw TypeError
      end
  | _ => read result "generated_text"
  end.

(** The body of [new Response(generatedText, ...)]: none for [undefined]
    and [null], the text of the value otherwise. *)
Definition responseBody (v : value) : option (list string) :=
  match v with
  | None => None
  | Some JNull => None
  | Some x => Some [ToString x]
  end.

Definition callHuggingFace (f : Fetched) : raised Reply :=
  match f with
  | Rejected message => Raised (Literal message)
  | Resolved r =>
      if Upstream.ok r then
        match JSON_parse (Upstream.text r) with
        | Throw e => Raised (EngineMessage e)
        | Normal result =>
            match generatedText result with
            | Throw e => Raised (EngineMessage e)
            | Normal text => Returned (BodyReply textHeaders (responseBody text))
            end
        end
      else Raised (upstreamError huggingface r)
  end.

(** The adapter of each provider, from what its [fetch] settles to. *)
Definition adapter (p : ProviderName) : Fetched -> raised Reply :=
  match p with
  | openai => streamOpenAI
  | anthropic => streamAnthropic
  | ollama => streamOllama
  | huggingface => callHuggingFace
  end.

(** The [catch] of the handler: an error becomes a 500 with its message. *)
Definition caught (r : raised Reply) : Reply :=
  match r with
  | Returned reply => reply
  | Raised error => ErrorReply 500 error
  end.

(** The handler with its upstream call: the requests it sends, in order,
    and its reply. *)
Definition POST_reply (fetch : HttpRequest -> Fetched) (env : Env) (request : ChatRequest)
  : list HttpRequest * Reply :=
  match POST env request with
  | JsonError status error => ([], ErrorReply status (Literal error))
  | Dispatch p upstreamRequest => ([upstreamRequest], caught (adapter p (fetch upstreamRequest)))
  end.

End Responses.

(** The wire format of a streaming provider. *)
Definition wireOf (p : ProviderName) : option Wire :=
  match p with
  | openai => Some OpenAIWire
  | anthropic => Some AnthropicWire
  | ollama => Some OllamaWire
  | huggingface => None
  end.

Section ResponseClaims.

Context {platform : Platform}.

Lemma POST_dispatches (env : Env) (request : ChatRequest) (history : list Message)
    (p : ProviderName) :
  messages request = Some history ->
  detectProvider env = Some p ->
  exists upstreamRequest, POST env request = Dispatch p upstreamRequest.
Proof.
  intros Hm Hp. unfold POST. rewrite Hm, Hp. destruct p; eexists; reflexivity.
Qed.

(** X8. No failover: a request with a messages array, under any
    credential, leads to exactly one upstream call, to the resolved
    provider. When that call is rejected the reply is 500 with the
    rejection's message; when it is answered with a status that is not ok
    the reply is 500 with the provider's name, the upstream status and the
    upstream body text in its message. *)
Theorem upstream_failure_is_surfaced
    (fetch : HttpRequest -> Fetched) (env : Env) (request : ChatRequest)
    (history : list Message) :
  messages request = Some history ->
  someCredential env ->
  exists p upstreamRequest,
    detectProvider env = Some p
    /\ fst (POST_reply fetch env request) = [upstreamRequest]
    /\ (forall message,
          fetch upstreamRequest = Rejected message ->
          snd (POST_reply fetch env request) = ErrorReply 500 (Literal message))
    /\ (forall r,
          fetch upstreamRequest = Resolved r ->
          Upstream.ok r = false ->
          snd (POST_reply fetch env request)
          = ErrorReply 500
              (Literal (apiName p +:+ " API error: " +:+ decimal (Upstream.status r)
                        +:+ " - " +:+ Upstream.text r))).
Proof.
  intros Hm Hsome. destruct (detectProvider_some _ Hsome) as [p Hp].
  destruct (POST_dispatches _ _ _ _ Hm Hp) as [req Hreq].
  exists p, req. unfold POST_reply. rewrite Hreq. cbn [fst snd].
  split; [exact Hp | split; [reflexivity | split]].
  - intros message Hf. rewrite Hf. now destruct p.
  - intros r Hf Hok. rewrite Hf.
    destruct p; cbn [adapter]; unfold streamOpenAI, streamAnthropic, streamOllama,
      streamed, callHuggingFace; rewrite Hok; reflexivity.
Qed.

(** X9. A streamed reply, end to end: when the resolved provider is one of
    the three streaming ones and its backend answers ok with a body of
    whole lines, valid or malformed, the handler replies with the headers
    of a chunked plain-text stream and a body whose chunks concatenate to
    the text of the valid lines. *)
Theorem streamed_reply_carries_decoded_text
    (fetch : HttpRequest -> Fetched) (env : Env) (request : ChatRequest)
    (history : list Message) (p : ProviderName) (w : Wire) (status : nat)
    (body : list (list (string * option string))) :
  messages request = Some history ->
  detectProvider env = Some p ->
  wireOf p = Some w ->
  (forall upstreamRequest,
     fetch upstreamRequest
     = Resolved {| Upstream.ok := true; Upstream.status := status;
                   Upstream.body := Some (upstream body) |}) ->
  Forall (Forall (fun lt => singleLine (fst lt) = true /\ received w (fst lt) (snd lt))) body ->
  exists emitted,
    snd (POST_reply fetch env request) = BodyReply streamHeaders (Some emitted)
    /\ concat emitted = decodedValid body.
Proof.
  intros Hm Hp Hw Hfetch Hbody.
  destruct (POST_dispatches _ _ _ _ Hm Hp) as [req Hreq].
  exists (pipeThrough w (upstream body)). split; [|now apply pipeThrough_received].
  unfold POST_reply. rewrite Hreq, Hfetch. cbn [snd].
  destruct p; try discriminate; injection Hw as <-; reflexivity.
Qed.

(** X10. The Hugging Face reply: when the backend answers ok with JSON that
    is an object, or an array whose first element is an object, holding a
    string under [generated_text], the handler replies with that string as
    its whole body, under the headers of a plain text that is not
    chunked. *)
Theorem huggingface_reply_forwards_generated_text
    (r : Upstream.response) (result : json number) (props : list (string * json number))
    (generated : string) :
  Upstream.ok r = true ->
  JSON_parse (Upstream.text r) = Normal result ->
  (result = JObject props \/ exists others, result = JArray (JObject props :: others)) ->
  assoc "generated_text" props = Some (JString generated) ->
  caught (callHuggingFace (Resolved r)) = BodyReply textHeaders (Some [generated]).
Proof.
  intros Hok Hparse Hshape Hgen. unfold callHuggingFace. rewrite Hok, Hparse.
  destruct Hshape as [-> | [others ->]]; cbn [generatedText read prop]; now rewrite Hgen.
Qed.

(** X11. The Hugging Face reply when the generated text is missing: an
    empty array makes the adapter throw, and the handler replies 500 with
    the engine's message; an object without [generated_text] makes it
    reply 200 with no body at all. *)
Theorem huggingface_reply_without_generated_text
    (r : Upstream.response) (result : json number) :
  Upstream.ok r = true ->
  JSON_parse (Upstream.text r) = Normal result ->
  (result = JArray [] ->
   caught (callHuggingFace (Resolved r)) = ErrorReply 500 (EngineMessage TypeError))
  /\ (forall props,
        result = JObject props ->
        assoc "generated_text" props = None ->
        caught (callHuggingFace (Resolved r)) = BodyReply textHeaders None).
Proof.
  intros Hok Hparse. unfold callHuggingFace. rewrite Hok, Hparse. split.
  - now intros ->.
  - intros props -> Hnone. cbn [generatedText read prop]. now rewrite Hnone.
Qed.

End ResponseClaims.

(** Example backends. *)
Definition failingBackend (r : HttpRequest) : Fetched :=
  Resolved {| Upstream.ok := false; Upstream.status := 429;
              Upstream.body := Some ["rate "; "limited"] |}.

Definition streamingBackend (r : HttpRequest) : Fetched :=
  Resolved {| Upstream.ok := true; Upstream.status := 200;
              Upstream.body := Some (upstream Examples.corruptedBody) |}.

Definition answered (text : string) : Upstream.response :=
  {| Upstream.ok := true; Upstream.status := 200; Upstream.body := Some [text] |}.

(** X8, witness: a backend that answers 429. *)
Lemma upstream_failure_is_surfaced_witness :
  exists upstreamRequest,
    POST_reply (platform := Reference.platform) failingBackend
      Examples.anthropicAndOllama Examples.helloRequest
    = ([upstreamRequest],
       ErrorReply 500 (Literal "Anthropic API error: 429 - rate limited")).
Proof.
  destruct (upstream_failure_is_surfaced (platform := Reference.platform) failingBackend
              Examples.anthropicAndOllama Examples.helloRequest Examples.hello eq_refl)
    as (p & req & Hp & Hsent & _ & Hfail).
  - unfold someCredential, credentials. apply Exists_cons_tl, Exists_cons_hd. is_present.
  - vm_compute in Hp. injection Hp as <-. exists req.
    specialize (Hfail _ eq_refl eq_refl).
    destruct (POST_reply failingBackend Examples.anthropicAndOllama Examples.helloRequest)
      as [sent reply].
    cbn [fst snd] in Hsent, Hfail. now rewrite Hsent, Hfail.
Defined.

(** X9, witness: the OpenAI body with a corrupt line, streamed back. *)
Lemma streamed_reply_carries_decoded_text_witness :
  exists emitted,
    snd (POST_reply (platform := Reference.platform) streamingBackend
           Examples.allCredentials Examples.helloRequest)
    = BodyReply streamHeaders (Some emitted)
    /\ concat emitted = "Hello, world".
Proof.
  apply (streamed_reply_carries_decoded_text (platform := Reference.platform)
           streamingBackend Examples.allCredentials Examples.helloRequest Examples.hello
           openai OpenAIWire 200 Examples.corruptedBody);
    try reflexivity.
  whole_lines ltac:(first [apply received_frame; framed | apply received_malformed; corrupt]).
Defined.

(** X10, witness: the array form of the Hugging Face answer. *)
Lemma huggingface_reply_forwards_generated_text_witness :
  caught (callHuggingFace (platform := Reference.platform)
            (Resolved (answered (Reference.q "[{'generated_text':'Tell me about yourself.'}]"))))
  = BodyReply textHeaders (Some ["Tell me about yourself."]).
Proof.
  eapply (huggingface_reply_forwards_generated_text (platform := Reference.platform));
    [reflexivity | reflexivity | right; eexists; reflexivity | reflexivity].
Defined.

(** X11, witness: an empty array, and an object that holds an error text
    only. *)
Lemma huggingface_reply_without_generated_text_witness :
  caught (callHuggingFace (platform := Reference.platform)
            (Resolved (answered (Reference.q "[]"))))
  = ErrorReply 500 (EngineMessage TypeError)
  /\ caught (callHuggingFace (platform := Reference.platform)
               (Resolved (answered (Reference.q "{'error':'Model is loading'}"))))
     = BodyReply textHeaders None.
Proof.
  split.
  - exact (proj1 (huggingface_reply_without_generated_text (platform := Reference.platform)
                    (answered (Reference.q "[]")) (JArray []) eq_refl eq_refl)
                 eq_refl).
  - exact (proj2 (huggingface_reply_without_generated_text (platform := Reference.platform)
                    (answered (Reference.q "{'error':'Model is loading'}"))
                    (JObject [("error", JString "Model is loading")]) eq_refl eq_refl)
                 _ eq_refl eq_refl).
Defined.

(** * The interview store (store/useInterviewStore.ts) *)

Module Store.

Inductive InterviewStep := setup | interviewing | feedback.

Inductive VoicePreference := female | male.

Inductive InterviewType := coding | multipleChoice | behavioral | technical | hr | hiringManager.

Inductive DifficultyLevel := beginner | intermediate | advanced.

(** [15 | 30 | 60] *)
Inductive InterviewDuration := minutes15 | minutes30 | minutes60.

#[global] Instance InterviewType_eq_dec : EqDecision InterviewType.
Proof. solve_decision. Defined.

(** The tag of a type and the name of a level, as the request carries
    them. *)
Definition typeTag (t : InterviewType) : string :=
  match t with
  | coding => "coding"
  | multipleChoice => "multiple-choice"
  | behavioral => "behavioral"
  | technical => "technical"
  | hr => "hr"
  | hiringManager => "hiring-manager"
  end.

Definition levelName (d : DifficultyLevel) : string :=
  match d with
  | beginner => "beginner"
  | intermediate => "intermediate"
  | advanced => "advanced"
  end.

Section State.

(** The type of a scorecard, [ScorecardResponse]. *)
Context {Scorecard : Type}.

Record state := {
  currentStep : InterviewStep;
  messages : list Message;
  jobDescription : string;
  isSpeaking : bool;
  scorecard : option Scorecard;
  isScorecardLoading : bool;
  scorecardError : option string;
  preferredVoice : VoicePreference;
  interviewTypes : list InterviewType;
  difficulty : DifficultyLevel;
  duration : InterviewDuration
}.

Definition initial : state :=
  {| currentStep := setup;
     messages := [];
     jobDescription := EmptyString;
     isSpeaking := false;
     scorecard := None;
     isScorecardLoading := false;
     scorecardError := None;
     preferredVoice := female;
     interviewTypes := [];
     difficulty := intermediate;
     duration := minutes30 |}.

(** [set({ messages })]: the state with one field replaced. *)
Definition withMessages (s : state) (ms : list Message) : state :=
  {| currentStep := currentStep s; messages := ms; jobDescription := jobDescription s;
     isSpeaking := isSpeaking s; scorecard := scorecard s;
     isScorecardLoading := isScorecardLoading s; scorecardError := scorecardError s;
     preferredVoice := preferredVoice s; interviewTypes := interviewTypes s;
     difficulty := difficulty s; duration := duration s |}.

Definition withInterviewTypes (s : state) (types : list InterviewType) : state :=
  {| currentStep := currentStep s; messages := messages s; jobDescription := jobDescription s;
     isSpeaking := isSpeaking s; scorecard := scorecard s;
     isScorecardLoading := isScorecardLoading s; scorecardError := scorecardError s;
     preferredVoice := preferredVoice s; interviewTypes := types;
     difficulty := difficulty s; duration := duration s |}.

Definition setCurrentStep (step : InterviewStep) (s : state) : state :=
  {| currentStep := step; messages := messages s; jobDescription := jobDescription s;
     isSpeaking := isSpeaking s; scorecard := scorecard s;
     isScorecardLoading := isScorecardLoading s; scorecardError := scorecardError s;
     preferredVoice := preferredVoice s; interviewTypes := interviewTypes s;
     difficulty := difficulty s; duration := duration s |}.

Definition addMessage (message : Message) (s : state) : state :=
  withMessages s (messages s ++ [message]).

Definition clearMessages (s : state) : state := withMessages s [].

Definition setJobDescription (description : string) (s : state) : state :=
  {| currentStep := currentStep s; messages := messages s; jobDescription := description;
     isSpeaking := isSpeaking s; scorecard := scorecard s;
     isScorecardLoading := isScorecardLoading s; scorecardError := scorecardError s;
     preferredVoice := preferredVoice s; interviewTypes := interviewTypes s;
     difficulty := difficulty s; duration := duration s |}.

Definition setIsSpeaking (speaking : bool) (s : state) : state :=
  {| currentStep := currentStep s; messages := messages s; jobDescription := jobDescription s;
     isSpeaking := speaking; scorecard := scorecard s;
     isScorecardLoading := isScorecardLoading s; scorecardError := scorecardError s;
     preferredVoice := preferredVoice s; interviewTypes := interviewTypes s;
     difficulty := difficulty s; duration := duration s |}.

Definition setScorecard (card : option Scorecard) (s : state) : state :=
  {| currentStep := currentStep s; messages := messages s; jobDescription := jobDescription s;
     isSpeaking := isSpeaking s; scorecard := card;
     isScorecardLoading := isScorecardLoading s; scorecardError := scorecardError s;
     preferredVoice := preferredVoice s; interviewTypes := interviewTypes s;
     difficulty := difficulty s; duration := duration s |}.

Definition setScorecardLoading (loading : bool) (s : state) : state :=
  {| currentStep := currentStep s; messages := messages s; jobDescription := jobDescription s;
     isSpeaking := isSpeaking s; scorecard := scorecard s;
     isScorecardLoading := loading; scorecardError := scorecardError s;
     preferredVoice := preferredVoice s; interviewTypes := interviewTypes s;
     difficulty := difficulty s; duration := duration s |}.

Definition setScorecardError (error : option string) (s : state) : state :=
  {| currentStep := currentStep s; messages := messages s; jobDescription := jobDescription s;
     isSpeaking := isSpeaking s; scorecard := scorecard s;
     isScorecardLoading := isScorecardLoading s; scorecardError := error;
     preferredVoice := preferredVoice s; interviewTypes := interviewTypes s;
     difficulty := difficulty s; duration := duration s |}.

Definition setPreferredVoice (voice : VoicePreference) (s : state) : state :=
  {| currentStep := currentStep s; messages := messages s; jobDescription := jobDescription s;
     isSpeaking := isSpeaking s; scorecard := scorecard s;
     isScorecardLoading := isScorecardLoading s; scorecardError := scorecardError s;
     preferredVoice := voice; interviewTypes := interviewTypes s;
     difficulty := difficulty s; duration := duration s |}.

Definition setInterviewTypes (types : list InterviewType) (s : state) : state :=
  withInterviewTypes s types.

(** The type is taken out when the selection includes it, and put at the
    end otherwise. *)
Definition toggleInterviewType (type : InterviewType) (s : state) : state :=
  withInterviewTypes s
    (if bool_decide (type ∈ interviewTypes s)
     then filter (fun t => t <> type) (interviewTypes s)
     else interviewTypes s ++ [type]).

Definition setDifficulty (level : DifficultyLevel) (s : state) : state :=
  {| currentStep := currentStep s; messages := messages s; jobDescription := jobDescription s;
     isSpeaking := isSpeaking s; scorecard := scorecard s;
     isScorecardLoading := isScorecardLoading s; scorecardError := scorecardError s;
     preferredVoice := preferredVoice s; interviewTypes := interviewTypes s;
     difficulty := level; duration := duration s |}.

Definition setDuration (length : InterviewDuration) (s : state) : state :=
  {| currentStep := currentStep s; messages := messages s; jobDescription := jobDescription s;
     isSpeaking := isSpeaking s; scorecard := scorecard s;
     isScorecardLoading := isScorecardLoading s; scorecardError := scorecardError s;
     preferredVoice := preferredVoice s; interviewTypes := interviewTypes s;
     difficulty := difficulty s; duration := length |}.

(** Every field but the preferred voice goes back to its first value. *)
Definition resetInterview (s : state) : state :=
  {| currentStep := setup; messages := []; jobDescription := EmptyString;
     isSpeaking := false; scorecard := None;
     isScorecardLoading := false; scorecardError := None;
     preferredVoice := preferredVoice s; interviewTypes := [];
     difficulty := intermediate; duration := minutes30 |}.

(** The actions of the store, and a run of them. *)
Inductive action :=
| SetCurrentStep (step : InterviewStep)
| AddMessage (message : Message)
| ClearMessages
| SetJobDescription (description : string)
| SetIsSpeaking (speaking : bool)
| SetScorecard (card : option Scorecard)
| SetScorecardLoading (loading : bool)
| SetScorecardError (error : option string)
| SetPreferredVoice (voice : VoicePreference)
| SetInterviewTypes (types : list InterviewType)
| ToggleInterviewType (type : InterviewType)
| SetDifficulty (level : DifficultyLevel)
| SetDuration (length : InterviewDuration)
| ResetInterview.

Definition act (a : action) : state -> state :=
  match a with
  | SetCurrentStep step => setCurrentStep step
  | AddMessage message => addMessage message
  | ClearMessages => clearMessages
  | SetJobDescription description => setJobDescription description
  | SetIsSpeaking speaking => setIsSpeaking speaking
  | SetScorecard card => setScorecard card
  | SetScorecardLoading loading => setScorecardLoading loading
  | SetScorecardError error => setScorecardError error
  | SetPreferredVoice voice => setPreferredVoice voice
  | SetInterviewTypes types => setInterviewTypes types
  | ToggleInterviewType type => toggleInterviewType type
  | SetDifficulty level => setDifficulty level
  | SetDuration length => setDuration length
  | ResetInterview => resetInterview
  end.

Definition run (actions : list action) (s : state) : state :=
  fold_left (fun s a => act a s) actions s.

(** An action that does not set the selection to a list with a repeated
    type. *)
Definition keepsDistinct (a : action) : Prop :=
  match a with
  | SetInterviewTypes types => NoDup types
  | _ => True
  end.

End State.

Arguments state Scorecard : clear implicits.
Arguments action Scorecard : clear implicits.

End Store.

Section StoreFacts.

Context {Scorecard : Type}.

Import Store.

Lemma toggled_selection (type : InterviewType) (s : Store.state Scorecard) :
  interviewTypes (toggleInterviewType type s)
  = if bool_decide (type ∈ interviewTypes s)
    then filter (fun t => t <> type) (interviewTypes s)
    else (interviewTypes s ++ [type])%list.
Proof. reflexivity. Qed.

Lemma toggle_keeps_distinct (type : InterviewType) (s : Store.state Scorecard) :
  NoDup (interviewTypes s) -> NoDup (interviewTypes (toggleInterviewType type s)).
Proof.
  rewrite toggled_selection. case_bool_decide as Hin.
  - apply list.NoDup_filter.
  - intros Hnd. apply list.NoDup_app. split; [exact Hnd | split].
    + intros x Hx ->%list_elem_of_singleton. contradiction.
    + apply NoDup_singleton.
Qed.

(** X12. Toggling a type flips whether the selection holds it, leaves every
    other type as it was, and never makes a type occur twice. *)
Theorem toggle_flips_membership (type : InterviewType) (s : Store.state Scorecard) :
  (type ∈ interviewTypes (toggleInterviewType type s) <-> type ∉ interviewTypes s)
  /\ (forall other,
        other <> type ->
        (other ∈ interviewTypes (toggleInterviewType type s) <-> other ∈ interviewTypes s))
  /\ (NoDup (interviewTypes s) -> NoDup (interviewTypes (toggleInterviewType type s))).
Proof.
  split; [|split; [|apply toggle_keeps_distinct]];
    rewrite toggled_selection; case_bool_decide as Hin.
  - rewrite list_elem_of_filter. tauto.
  - rewrite elem_of_app, list_elem_of_singleton. tauto.
  - intros other Hne. rewrite list_elem_of_filter. tauto.
  - intros other Hne. rewrite elem_of_app, list_elem_of_singleton. tauto.
Qed.

Lemma filter_absent (type : InterviewType) (types : list InterviewType) :
  type ∉ types -> filter (fun t => t <> type) types = types.
Proof.
  induction types as [|t ts IH]; [reflexivity|]. intros Hout.
  apply not_elem_of_cons in Hout as [Hne Hts].
  rewrite filter_cons_True by congruence. now rewrite IH.
Qed.

(** X13. Toggling a type twice gives back the same selection up to order
    (a type that was selected moves to the end), and the very same state
    when the type was not selected. *)
Theorem toggle_twice_restores_selection (type : InterviewType) (s : Store.state Scorecard) :
  NoDup (interviewTypes s) ->
  interviewTypes (toggleInterviewType type (toggleInterviewType type s)) ≡ₚ interviewTypes s
  /\ (type ∉ interviewTypes s ->
      toggleInterviewType type (toggleInterviewType type s) = s).
Proof.
  intros Hnd.
  destruct (decide (type ∈ interviewTypes s)) as [Hin | Hout].
  - split; [|contradiction].
    rewrite !toggled_selection, (bool_decide_eq_true_2 _ Hin).
    rewrite bool_decide_eq_false_2.
    2:{ rewrite list_elem_of_filter. tauto. }
    apply elem_of_Permutation in Hin as [rest Hperm].
    rewrite Hperm in Hnd |- *. apply list.NoDup_cons in Hnd as [Hfresh _].
    rewrite filter_cons_False by tauto.
    rewrite (filter_absent _ _ Hfresh). symmetry. apply Permutation_cons_append.
  - assert (Hback : toggleInterviewType type (toggleInterviewType type s) = s).
    { unfold toggleInterviewType. cbn [interviewTypes withInterviewTypes].
      rewrite (bool_decide_eq_false_2 _ Hout).
      rewrite bool_decide_eq_true_2.
      2:{ rewrite elem_of_app, list_elem_of_singleton. tauto. }
      rewrite list.filter_app, (filter_absent _ _ Hout), filter_cons_False by tauto.
      rewrite filter_nil, app_nil_r. now destruct s. }
    now rewrite Hback.
Qed.

(** X14. The selection never holds a type twice: starting from a state
    whose selection has no repeated type, as the first state of the store
    is, every run of store actions that sets no selection with a repeated
    type keeps it so. *)
Theorem selection_stays_distinct
    (actions : list (Store.action Scorecard)) (s : Store.state Scorecard) :
  NoDup (interviewTypes s) ->
  Forall keepsDistinct actions ->
  NoDup (interviewTypes (run actions s)).
Proof.
  intros Hnd Hacts. revert s Hnd. unfold run.
  induction Hacts as [|a rest Ha _ IH]; intros s Hnd; [exact Hnd|].
  cbn [fold_left]. apply IH.
  destruct a; cbn [act]; try exact Hnd.
  - exact Ha.
  - now apply toggle_keeps_distinct.
  - apply NoDup_nil_2.
Qed.

End StoreFacts.

(** A store whose selection is coding, then behavioral. *)
Definition codingThenBehavioral : Store.state unit :=
  Store.toggleInterviewType Store.behavioral
    (Store.toggleInterviewType Store.coding Store.initial).

Lemma codingThenBehavioral_distinct : NoDup (Store.interviewTypes codingThenBehavioral).
Proof.
  apply (bool_decide_unpack _). reflexivity.
Qed.

(** X13, witness: coding is toggled off and on again and moves to the end;
    technical is toggled on and off again. *)
Lemma toggle_twice_restores_selection_witness :
  NoDup (Store.interviewTypes codingThenBehavioral)
  /\ Store.interviewTypes
       (Store.toggleInterviewType Store.coding
          (Store.toggleInterviewType Store.coding codingThenBehavioral))
     = [Store.behavioral; Store.coding]
  /\ Store.interviewTypes
       (Store.toggleInterviewType Store.coding
          (Store.toggleInterviewType Store.coding codingThenBehavioral))
     ≡ₚ Store.interviewTypes codingThenBehavioral
  /\ (Store.technical ∉ Store.interviewTypes codingThenBehavioral ->
      Store.toggleInterviewType Store.technical
        (Store.toggleInterviewType Store.technical codingThenBehavioral)
      = codingThenBehavioral).
Proof.
  split; [exact codingThenBehavioral_distinct|].
  split; [reflexivity|].
  split.
  - exact (proj1 (toggle_twice_restores_selection Store.coding codingThenBehavioral
                    codingThenBehavioral_distinct)).
  - exact (proj2 (toggle_twice_restores_selection Store.technical codingThenBehavioral
                    codingThenBehavioral_distinct)).
Defined.

(** X14, witness: a run that toggles, sets, resets and toggles again. *)
Lemma selection_stays_distinct_witness :
  NoDup (Store.interviewTypes
           (Store.run
              [Store.ToggleInterviewType Store.hr;
               Store.SetInterviewTypes [Store.coding; Store.hr];
               Store.ToggleInterviewType Store.coding;
               Store.ResetInterview;
               Store.ToggleInterviewType Store.technical;
               Store.AddMessage {| role := user; content := "Hello" |}]
              codingThenBehavioral)).
Proof.
  apply selection_stays_distinct; [exact codingThenBehavioral_distinct|].
  repeat (apply List.Forall_cons; [cbn [Store.keepsDistinct]|]);
    try exact I; try apply List.Forall_nil.
  apply (bool_decide_unpack _). reflexivity.
Defined.

(** An action that is not [setPreferredVoice]. *)
Definition keepsVoice {Scorecard : Type} (a : Store.action Scorecard) : Prop :=
  match a with
  | Store.SetPreferredVoice _ => False
  | _ => True
  end.

Section StoreReset.

Context {Scorecard : Type}.

Lemma act_keeps_voice (a : Store.action Scorecard) (s : Store.state Scorecard) :
  keepsVoice a -> Store.preferredVoice (Store.act a s) = Store.preferredVoice s.
Proof. destruct a; cbn; intros H; now try destruct H. Qed.

Lemma run_keeps_voice (actions : list (Store.action Scorecard)) (s : Store.state Scorecard) :
  Forall keepsVoice actions ->
  Store.preferredVoice (Store.run actions s) = Store.preferredVoice s.
Proof.
  intros Hacts. revert s. unfold Store.run.
  induction Hacts as [|a rest Ha _ IH]; intros s; [reflexivity|].
  cbn [fold_left]. now rewrite IH, act_keeps_voice.
Qed.

(** X15. The preferred voice outlives everything but a change of voice:
    after any run of actions without [setPreferredVoice], resets among
    them, the voice is the one before the run, and a reset at the end
    gives the first state of the store with that voice. *)
Theorem reset_keeps_only_the_voice
    (actions : list (Store.action Scorecard)) (s : Store.state Scorecard) :
  Forall keepsVoice actions ->
  Store.preferredVoice (Store.run actions s) = Store.preferredVoice s
  /\ Store.run (actions ++ [Store.ResetInterview]) s
     = Store.setPreferredVoice (Store.preferredVoice s) Store.initial.
Proof.
  intros Hacts. split; [now apply run_keeps_voice|].
  unfold Store.run. rewrite fold_left_app. cbn [fold_left Store.act].
  fold (Store.run actions s).
  unfold Store.resetInterview, Store.setPreferredVoice. cbn.
  now rewrite run_keeps_voice.
Qed.

End StoreReset.

(** X15, witness: a voice chosen before a run with two resets. *)
Lemma reset_keeps_only_the_voice_witness :
  Store.preferredVoice
    (Store.run
       [Store.ToggleInterviewType Store.hr; Store.ResetInterview;
        Store.SetDifficulty Store.advanced]
       (Store.setPreferredVoice Store.male codingThenBehavioral))
  = Store.male
  /\ Store.run
       ([Store.ToggleInterviewType Store.hr; Store.ResetInterview;
         Store.SetDifficulty Store.advanced] ++ [Store.ResetInterview])
       (Store.setPreferredVoice Store.male codingThenBehavioral)
     = Store.setPreferredVoice Store.male Store.initial.
Proof.
  apply (reset_keeps_only_the_voice
           [Store.ToggleInterviewType Store.hr; Store.ResetInterview;
            Store.SetDifficulty Store.advanced]
           (Store.setPreferredVoice Store.male codingThenBehavioral)).
  repeat (apply List.Forall_cons; [exact I|]). apply List.Forall_nil.
Defined.

(** * The chat hook (hooks/useChat.ts)

    [sendMessage] runs against the store and the state of the hook. The
    values the callback closes over ([messages], [jobDescription],
    [interviewTypes], [difficulty], [duration]) are those of the store at
    the render that made it; [addMessage] and [setState] work on the store
    as it is. No other writer touches the store while the call runs, and
    [onError] does not throw. A chunk of the body is the text the decoder
    gives for it. *)

Module Chat.

(** How the reading of a body ends: [done], or a [read()] that rejects. *)
Inductive Ending :=
| Done
| Broken (error : ErrorMessage).

(** The body of the request, before [JSON.stringify]. *)
Record request := {
  messages : list Message;
  jobDescription : string;
  interviewTypes : list Store.InterviewType;
  difficulty : Store.DifficultyLevel;
  duration : Store.InterviewDuration
}.

(** [isLoading] and the message of [error] ([None] for [null]). *)
Record hook := {
  isLoading : bool;
  error : option ErrorMessage
}.

Section Hook.

Context {platform : Platform} {Scorecard : Type}.

(** The response of [fetch(/api/chat)] as the hook reads it: [ok],
    [status], what [response.json()] resolves to ([None] when it
    rejects), and the body: [None] when there is none, else its chunks
    and how the reading ends. *)
Record response := {
  ok : bool;
  status : nat;
  jsonBody : option (json number);
  body : option (list string * Ending)
}.

Inductive Fetched :=
| Resolved (r : response)
| Rejected (error : ErrorMessage).

(** What a call leaves: the requests sent, the store, the state of the
    hook, and the errors handed to [onError]. *)
Record outcome := {
  sent : list request;
  store : Store.state Scorecard;
  hookAfter : hook;
  reported : list ErrorMessage
}.

(** [await response.json().catch(() => ({}))] *)
Definition errorData (r : response) : json number :=
  match jsonBody r with
  | Some data => data
  | None => JObject []
  end.

(** [`HTTP error: ${response.status}`] *)
Definition httpError (r : response) : string := "HTTP error: " +:+ decimal (status r).

(** The error thrown for a response that is not ok:
    [new Error(errorData.error || `HTTP error: ${response.status}`)];
    reading [error] throws when the data is [null]. *)
Definition failure (r : response) : ErrorMessage :=
  match read (errorData r) "error" with
  | Throw e => EngineMessage e
  | Normal v =>
      match v with
      | Some x => if truthy v then Literal (ToString x) else Literal (httpError r)
      | None => Literal (httpError r)
      end
  end.

(** The update of the store after a chunk: the content of the last
    message is replaced when that message is the assistant's. *)
Definition replaceLast (text : string) (ms : list Message) : list Message :=
  let lastIndex := (length ms - 1)%nat in
  match ms !! lastIndex with
  | Some m =>
      match role m with
      | assistant => <[lastIndex := {| role := role m; content := text |}]> ms
      | _ => ms
      end
  | None => ms
  end.

(** The update of the store after an error: the last message is popped
    when it is the assistant's and its content is empty. *)
Definition removeEmptyReply (ms : list Message) : list Message :=
  let lastIndex := (length ms - 1)%nat in
  match ms !! lastIndex with
  | Some m =>
      match role m with
      | assistant => if nonEmpty (content m) then ms else take lastIndex ms
      | _ => ms
      end
  | None => ms
  end.

(** The reading loop: every chunk is appended to [assistantContent] and
    the store is updated with the text so far. *)
Fixpoint readAll (chunks : list string) (assistantContent : string)
    (s : Store.state Scorecard) : Store.state Scorecard :=
  match chunks with
  | [] => s
  | chunk :: rest =>
      let text := assistantContent +:+ chunk in
      readAll rest text (Store.withMessages s (replaceLast text (Store.messages s)))
  end.

(** The body of [try]: the error it throws, if any, and the store it
    leaves. *)
Definition attempt (f : Fetched) (s : Store.state Scorecard)
  : option ErrorMessage * Store.state Scorecard :=
  match f with
  | Rejected e => (Some e, s)
  | Resolved r =>
      if ok r then
        match body r with
        | None => (Some (Literal "No response body"), s)
        | Some (chunks, ending) =>
            let tempAssistantMsg := {| role := assistant; content := EmptyString |} in
            let streaming :=
              readAll chunks EmptyString
                (Store.addMessage tempAssistantMsg (Store.setIsSpeaking true s)) in
            match ending with
            | Done => (None, Store.setIsSpeaking false streaming)
            | Broken e => (Some e, streaming)
            end
        end
      else (Some (failure r), s)
  end.

(** The request of a user message, from the rendered store. *)
Definition requestOf (rendered : Store.state Scorecard) (userMessage : string) : request :=
  {| messages := Store.messages rendered ++ [ {| role := user; content := userMessage |} ];
     jobDescription := Store.jobDescription rendered;
     interviewTypes := Store.interviewTypes rendered;
     difficulty := Store.difficulty rendered;
     duration := Store.duration rendered |}.

Definition sendMessage (fetch : request -> Fetched) (rendered : Store.state Scorecard)
    (userMessage : string) (h : hook) (s : Store.state Scorecard) : outcome :=
  if negb (nonEmpty (trim userMessage)) || isLoading h
  then {| sent := []; store := s; hookAfter := h; reported := [] |}
  else
    let userMsg := {| role := user; content := userMessage |} in
    let apiRequest := requestOf rendered userMessage in
    match attempt (fetch apiRequest) (Store.addMessage userMsg s) with
    | (None, after) =>
        {| sent := [apiRequest]; store := after;
           hookAfter := {| isLoading := false; error := None |};
           reported := [] |}
    | (Some e, after) =>
        let silent := Store.setIsSpeaking false after in
        {| sent := [apiRequest];
           store := Store.withMessages silent (removeEmptyReply (Store.messages silent));
           hookAfter := {| isLoading := false; error := Some e |};
           reported := [e] |}
    end.

(** [startInterview] *)
Definition startInterview (fetch : request -> Fetched) (rendered : Store.state Scorecard)
  : hook -> Store.state Scorecard -> outcome :=
  sendMessage fetch rendered "Hello, I'm ready to start the interview.".

End Hook.

End Chat.

(** ** Vocabulary for the hook *)

(** A text of white space only. *)
Fixpoint blank (s : string) : bool :=
  match s with
  | EmptyString => true
  | String c r => isWhiteSpace c && blank r
  end.

Definition said (text : string) : Message := {| role := user; content := text |}.

Definition replied (text : string) : Message := {| role := assistant; content := text |}.

(** The reply the history keeps when a call fails: the text received so
    far, or nothing when none was. *)
Definition partialReply (text : string) : list Message :=
  if nonEmpty text then [replied text] else [].

(** The ways a call fails, with the error and the chunks read before it:
    the request is rejected, the status is not ok, the response has no
    body, the reading breaks. *)
Inductive fails {platform : Platform} : Chat.Fetched -> ErrorMessage -> list string -> Prop :=
| fails_rejected (e : ErrorMessage) : fails (Chat.Rejected e) e []
| fails_status (r : Chat.response) :
    Chat.ok r = false -> fails (Chat.Resolved r) (Chat.failure r) []
| fails_no_body (r : Chat.response) :
    Chat.ok r = true -> Chat.body r = None ->
    fails (Chat.Resolved r) (Literal "No response body") []
| fails_broken (r : Chat.response) (chunks : list string) (e : ErrorMessage) :
    Chat.ok r = true -> Chat.body r = Some (chunks, Chat.Broken e) ->
    fails (Chat.Resolved r) e chunks.

(** What the browser receives for a reply of the handler: for an error
    reply, its status and the JSON [{ error }]; for a reply with a body,
    status 200 and the body's text in chunks of the network's choosing,
    read to the end. *)
Inductive served {platform : Platform} : Reply -> Chat.response -> Prop :=
| served_error (code : nat) (text : string) (anyBody : option (list string * Chat.Ending)) :
    served (ErrorReply code (Literal text))
      {| Chat.ok := (200 <=? code)%nat && (code <=? 299)%nat;
         Chat.status := code;
         Chat.jsonBody := Some (JObject [("error", JString text)]);
         Chat.body := anyBody |}
| served_body (headers : list (string * string)) (emitted chunks : list string)
    (anyJson : option (json number)) :
    concat chunks = concat emitted ->
    served (BodyReply headers (Some emitted))
      {| Chat.ok := true;
         Chat.status := 200;
         Chat.jsonBody := anyJson;
         Chat.body := Some (chunks, Chat.Done) |}.

(** A deployment: the handler behind the network, with its backend. The
    handler receives the messages the hook sent, and the hook the reply of
    the handler. *)
Definition deployed {platform : Platform} (backend : HttpRequest -> Fetched) (env : Env)
    (fetch : Chat.request -> Chat.Fetched) : Prop :=
  exists parsed : Chat.request -> ChatRequest,
    (forall req, messages (parsed req) = Some (Chat.messages req))
    /\ (forall req,
          exists r, fetch req = Chat.Resolved r
                    /\ served (snd (POST_reply backend env (parsed req))) r).

Section HookFacts.

Context {platform : Platform} {Scorecard : Type}.

Import JsStringFacts.

Local Open Scope list_scope.

Lemma trim_blank (s : string) : nonEmpty (trim s) = negb (blank s).
Proof.
  induction s as [|c r IH]; [reflexivity|].
  cbn [blank]. destruct (isWhiteSpace c) eqn:Hc.
  - unfold trim in *. cbn [trimStart]. now rewrite Hc.
  - now rewrite trim_nonblank.
Qed.

Lemma replaceLast_reply (text old : string) (before : list Message) :
  Chat.replaceLast text (before ++ [replied old]) = before ++ [replied text].
Proof.
  unfold Chat.replaceLast.
  replace (length (before ++ [replied old]) - 1)%nat with (length before + 0)%nat
    by (rewrite length_app; cbn; lia).
  rewrite lookup_app_r by lia.
  replace (length before + 0 - length before)%nat with 0%nat by lia.
  cbn [lookup list_lookup replied role].
  now rewrite insert_app_r.
Qed.

Lemma removeEmptyReply_reply (text : string) (before : list Message) :
  Chat.removeEmptyReply (before ++ [replied text]) = before ++ partialReply text.
Proof.
  unfold Chat.removeEmptyReply, partialReply.
  replace (length (before ++ [replied text]) - 1)%nat with (length before + 0)%nat
    by (rewrite length_app; cbn; lia).
  rewrite lookup_app_r by lia.
  replace (length before + 0 - length before)%nat with 0%nat by lia.
  cbn [lookup list_lookup replied role content].
  destruct (nonEmpty text); [reflexivity|].
  rewrite Nat.add_0_r, take_app_length. now rewrite app_nil_r.
Qed.

Lemma removeEmptyReply_said (text : string) (before : list Message) :
  Chat.removeEmptyReply (before ++ [said text]) = before ++ [said text].
Proof.
  unfold Chat.removeEmptyReply.
  replace (length (before ++ [said text]) - 1)%nat with (length before + 0)%nat
    by (rewrite length_app; cbn; lia).
  rewrite lookup_app_r by lia.
  replace (length before + 0 - length before)%nat with 0%nat by lia.
  reflexivity.
Qed.

(** The reading loop keeps the last message equal to the text so far. *)
Lemma readAll_reply (chunks : list string) (sofar : string) (before : list Message)
    (s : Store.state Scorecard) :
  Store.messages s = before ++ [replied sofar] ->
  Chat.readAll chunks sofar s
  = Store.withMessages s (before ++ [replied (sofar +:+ concat chunks)]).
Proof.
  revert sofar s. induction chunks as [|chunk rest IH]; intros sofar s Hs.
  - cbn [Chat.readAll]. rewrite concat_nil, append_empty_r, <- Hs. now destruct s.
  - cbn [Chat.readAll]. rewrite Hs, replaceLast_reply.
    rewrite (IH (sofar +:+ chunk)
               (Store.withMessages s (before ++ [replied (sofar +:+ chunk)])) eq_refl).
    rewrite concat_cons, append_assoc. reflexivity.
Qed.

(** The store a call leaves when the body was read up to [chunks]. *)
Lemma streaming_store (chunks : list string) (s : Store.state Scorecard) (userMessage : string) :
  Chat.readAll chunks EmptyString
    (Store.addMessage (replied EmptyString)
       (Store.setIsSpeaking true (Store.addMessage (said userMessage) s)))
  = Store.setIsSpeaking true
      (Store.withMessages s
         (Store.messages s ++ [said userMessage; replied (concat chunks)])).
Proof.
  erewrite readAll_reply.
  2:{ cbn. reflexivity. }
  cbn. rewrite <- app_assoc. reflexivity.
Qed.

Lemma sendMessage_runs (fetch : Chat.request -> Chat.Fetched) (rendered : Store.state Scorecard)
    (userMessage : string) (h : Chat.hook) (s : Store.state Scorecard) :
  blank userMessage = false ->
  Chat.isLoading h = false ->
  Chat.sendMessage fetch rendered userMessage h s
  = match Chat.attempt (fetch (Chat.requestOf rendered userMessage))
            (Store.addMessage (said userMessage) s) with
    | (None, after) =>
        {| Chat.sent := [Chat.requestOf rendered userMessage]; Chat.store := after;
           Chat.hookAfter := {| Chat.isLoading := false; Chat.error := None |};
           Chat.reported := [] |}
    | (Some e, after) =>
        {| Chat.sent := [Chat.requestOf rendered userMessage];
           Chat.store :=
             Store.withMessages (Store.setIsSpeaking false after)
               (Chat.removeEmptyReply (Store.messages (Store.setIsSpeaking false after)));
           Chat.hookAfter := {| Chat.isLoading := false; Chat.error := Some e |};
           Chat.reported := [e] |}
    end.
Proof.
  intros Hblank Hidle. unfold Chat.sendMessage.
  now rewrite trim_blank, Hblank, Hidle.
Qed.

Lemma sendMessage_done (fetch : Chat.request -> Chat.Fetched) (rendered : Store.state Scorecard)
    (userMessage : string) (h : Chat.hook) (s : Store.state Scorecard)
    (r : Chat.response) (chunks : list string) :
  blank userMessage = false ->
  Chat.isLoading h = false ->
  fetch (Chat.requestOf rendered userMessage) = Chat.Resolved r ->
  Chat.ok r = true ->
  Chat.body r = Some (chunks, Chat.Done) ->
  Chat.sendMessage fetch rendered userMessage h s
  = {| Chat.sent := [Chat.requestOf rendered userMessage];
       Chat.store :=
         Store.setIsSpeaking false
           (Store.withMessages s
              (Store.messages s ++ [said userMessage; replied (concat chunks)]));
       Chat.hookAfter := {| Chat.isLoading := false; Chat.error := None |};
       Chat.reported := [] |}.
Proof.
  intros Hblank Hidle Hfetch Hok Hbody.
  rewrite sendMessage_runs by assumption.
  rewrite Hfetch. unfold Chat.attempt. rewrite Hok, Hbody.
  fold (replied EmptyString). fold (said userMessage).
  now rewrite streaming_store.
Qed.

Lemma sendMessage_fails (fetch : Chat.request -> Chat.Fetched) (rendered : Store.state Scorecard)
    (userMessage : string) (h : Chat.hook) (s : Store.state Scorecard)
    (e : ErrorMessage) (chunks : list string) :
  blank userMessage = false ->
  Chat.isLoading h = false ->
  fails (fetch (Chat.requestOf rendered userMessage)) e chunks ->
  Chat.sendMessage fetch rendered userMessage h s
  = {| Chat.sent := [Chat.requestOf rendered userMessage];
       Chat.store :=
         Store.setIsSpeaking false
           (Store.withMessages s
              (Store.messages s ++ said userMessage :: partialReply (concat chunks)));
       Chat.hookAfter := {| Chat.isLoading := false; Chat.error := Some e |};
       Chat.reported := [e] |}.
Proof.
  intros Hblank Hidle Hfails.
  rewrite sendMessage_runs by assumption.
  assert (Hquiet : forall e',
    {| Chat.sent := [Chat.requestOf rendered userMessage];
       Chat.store :=
         Store.withMessages
           (Store.setIsSpeaking false (Store.addMessage (said userMessage) s))
           (Chat.removeEmptyReply
              (Store.messages
                 (Store.setIsSpeaking false (Store.addMessage (said userMessage) s))));
       Chat.hookAfter := {| Chat.isLoading := false; Chat.error := Some e' |};
       Chat.reported := [e'] |}
    = {| Chat.sent := [Chat.requestOf rendered userMessage];
         Chat.store :=
           Store.setIsSpeaking false
             (Store.withMessages s (Store.messages s ++ said userMessage :: partialReply (concat [])));
         Chat.hookAfter := {| Chat.isLoading := false; Chat.error := Some e' |};
         Chat.reported := [e'] |}).
  { intros e'. cbn [Store.messages Store.setIsSpeaking Store.addMessage Store.withMessages].
    rewrite removeEmptyReply_said. reflexivity. }
  inversion Hfails as [e0 He | r Hok Hr | r Hok Hbody Hr | r chunks0 e0 Hok Hbody Hr];
    subst; unfold Chat.attempt.
  - apply Hquiet.
  - rewrite Hok. apply Hquiet.
  - rewrite Hok, Hbody. apply Hquiet.
  - rewrite Hok, Hbody. fold (replied EmptyString). rewrite streaming_store.
    cbn [Store.messages Store.setIsSpeaking Store.withMessages].
    change (Store.messages s ++ [said userMessage; replied (concat chunks)])%list
      with (Store.messages s ++ [said userMessage] ++ [replied (concat chunks)])%list.
    rewrite app_assoc, removeEmptyReply_reply, <- !app_assoc. reflexivity.
Qed.

End HookFacts.

Section HookClaims.

Context {platform : Platform} {Scorecard : Type}.

Import JsStringFacts.

Local Open Scope list_scope.

(** X16. A message of white space only, or a call while another one is
    loading, does nothing: no request is sent, and the store and the state
    of the hook stay as they are. *)
Theorem blank_or_busy_send_does_nothing
    (fetch : Chat.request -> Chat.Fetched) (rendered : Store.state Scorecard)
    (userMessage : string) (h : Chat.hook) (s : Store.state Scorecard) :
  blank userMessage = true \/ Chat.isLoading h = true ->
  Chat.sendMessage fetch rendered userMessage h s
  = {| Chat.sent := []; Chat.store := s; Chat.hookAfter := h; Chat.reported := [] |}.
Proof.
  intros Hskip. unfold Chat.sendMessage. rewrite trim_blank, negb_involutive.
  destruct Hskip as [-> | ->]; [reflexivity | now rewrite orb_true_r].
Qed.

(** X17. A call that is answered ok and whose body is read to its end
    sends one request, with the rendered history followed by the user's
    message, and leaves the store's history extended by the user's message
    and one assistant message whose content is the concatenation of the
    chunks read; the store is not speaking, the hook is not loading and
    has no error. *)
Theorem streamed_reply_is_appended
    (fetch : Chat.request -> Chat.Fetched) (rendered : Store.state Scorecard)
    (userMessage : string) (h : Chat.hook) (s : Store.state Scorecard)
    (r : Chat.response) (chunks : list string) :
  blank userMessage = false ->
  Chat.isLoading h = false ->
  fetch (Chat.requestOf rendered userMessage) = Chat.Resolved r ->
  Chat.ok r = true ->
  Chat.body r = Some (chunks, Chat.Done) ->
  Chat.messages (Chat.requestOf rendered userMessage)
  = Store.messages rendered ++ [said userMessage]
  /\ Chat.sendMessage fetch rendered userMessage h s
     = {| Chat.sent := [Chat.requestOf rendered userMessage];
          Chat.store :=
            Store.setIsSpeaking false
              (Store.withMessages s
                 (Store.messages s ++ [said userMessage; replied (concat chunks)]));
          Chat.hookAfter := {| Chat.isLoading := false; Chat.error := None |};
          Chat.reported := [] |}.
Proof.
  intros Hblank Hidle Hfetch Hok Hbody. split; [reflexivity|].
  now apply sendMessage_done with (r := r).
Qed.


(** An error reply with a text reaches the hook as a failure with that
    text. *)
Lemma error_reply_fails (code : nat) (text : string) (r : Chat.response) :
  served (ErrorReply code (Literal text)) r ->
  ((200 <=? code)%nat && (code <=? 299)%nat) = false ->
  text <> EmptyString ->
  fails (Chat.Resolved r) (Literal text) [].
Proof.
  intros Hserved Hcode Htext. inversion Hserved as [code' text' anyBody |]; subst.
  match goal with
  | |- fails (Chat.Resolved ?r') _ _ =>
      replace (Literal text) with (Chat.failure r');
      [apply fails_status; exact Hcode|]
  end.
  unfold Chat.failure, Chat.errorData.
  cbn [Chat.jsonBody read prop assoc]. cbn. 
  apply nonEmpty_true in Htext. now rewrite Htext.
Qed.

Lemma configurationError_reply (backend : HttpRequest -> Fetched) (env : Env)
    (request : ChatRequest) (history : list Message) :
  messages request = Some history ->
  noCredential env ->
  snd (POST_reply backend env request) = ErrorReply 500 (Literal configurationError).
Proof.
  intros Hm Hnone. unfold POST_reply, POST.
  now rewrite Hm, (detectProvider_none _ Hnone).
Qed.

Lemma upstreamError_reply (backend : HttpRequest -> Fetched) (env : Env)
    (request : ChatRequest) (history : list Message) (p : ProviderName)
    (answer : Upstream.response) :
  messages request = Some history ->
  detectProvider env = Some p ->
  (forall upstreamRequest, backend upstreamRequest = Resolved answer) ->
  Upstream.ok answer = false ->
  snd (POST_reply backend env request) = ErrorReply 500 (upstreamError p answer).
Proof.
  intros Hm Hp Hbackend Hok.
  destruct (POST_dispatches _ _ _ _ Hm Hp) as [req Hreq].
  unfold POST_reply. rewrite Hreq, Hbackend. cbn [snd].
  destruct p; cbn [adapter]; unfold streamOpenAI, streamAnthropic, streamOllama,
    streamed, callHuggingFace; rewrite Hok; reflexivity.
Qed.

Lemma stream_reply (backend : HttpRequest -> Fetched) (env : Env)
    (request : ChatRequest) (history : list Message) (p : ProviderName) (w : Wire)
    (code : nat) (chunks : list string) :
  messages request = Some history ->
  detectProvider env = Some p ->
  wireOf p = Some w ->
  (forall upstreamRequest,
     backend upstreamRequest
     = Resolved {| Upstream.ok := true; Upstream.status := code;
                   Upstream.body := Some chunks |}) ->
  snd (POST_reply backend env request)
  = BodyReply streamHeaders (Some (pipeThrough w chunks)).
Proof.
  intros Hm Hp Hw Hbackend.
  destruct (POST_dispatches _ _ _ _ Hm Hp) as [req Hreq].
  unfold POST_reply. rewrite Hreq, Hbackend. cbn [snd].
  destruct p; try discriminate; injection Hw as <-; reflexivity.
Qed.

(** X19. One turn of the interview, from the hook through the handler to
    the backend and back: when the handler is deployed with a credential of
    a streaming provider and the backend answers ok with a body of whole
    lines, valid or malformed, a user's message leaves the store's history
    extended by that message and by one assistant message whose content is
    the text of the valid lines, however the network cuts the reply into
    chunks. *)
Theorem turn_appends_decoded_reply
    (backend : HttpRequest -> Fetched) (env : Env) (fetch : Chat.request -> Chat.Fetched)
    (rendered : Store.state Scorecard) (userMessage : string) (h : Chat.hook)
    (s : Store.state Scorecard) (p : ProviderName) (w : Wire) (code : nat)
    (body : list (list (string * option string))) :
  blank userMessage = false ->
  Chat.isLoading h = false ->
  deployed backend env fetch ->
  detectProvider env = Some p ->
  wireOf p = Some w ->
  (forall upstreamRequest,
     backend upstreamRequest
     = Resolved {| Upstream.ok := true; Upstream.status := code;
                   Upstream.body := Some (upstream body) |}) ->
  Forall (Forall (fun lt => singleLine (fst lt) = true /\ received w (fst lt) (snd lt))) body ->
  Chat.sendMessage fetch rendered userMessage h s
  = {| Chat.sent := [Chat.requestOf rendered userMessage];
       Chat.store :=
         Store.setIsSpeaking false
           (Store.withMessages s
              (Store.messages s ++ [said userMessage; replied (decodedValid body)]));
       Chat.hookAfter := {| Chat.isLoading := false; Chat.error := None |};
       Chat.reported := [] |}.
Proof.
  intros Hblank Hidle (parsed & Hparsed & Hanswers) Hp Hw Hbackend Hbody.
  destruct (Hanswers (Chat.requestOf rendered userMessage)) as (r & Hfetch & Hserved).
  rewrite (stream_reply _ _ _ _ _ _ _ _ (Hparsed _) Hp Hw Hbackend) in Hserved.
  inversion Hserved as [| headers emitted chunks anyJson Hchunks]; subst.
  rewrite (sendMessage_done fetch rendered userMessage h s _ chunks Hblank Hidle Hfetch
             eq_refl eq_refl).
  now rewrite Hchunks, pipeThrough_received.
Qed.

(** X20. The errors of the handler reach the user: when the handler is
    deployed without any credential the hook's error is the handler's
    configuration message, and when the backend answers with a status that
    is not ok it is the message with the provider's name, the upstream
    status and the upstream text. In both cases the user's message stays in
    the history and no reply is added. *)
Theorem handler_errors_reach_the_user
    (backend : HttpRequest -> Fetched) (env : Env) (fetch : Chat.request -> Chat.Fetched)
    (rendered : Store.state Scorecard) (userMessage : string) (h : Chat.hook)
    (s : Store.state Scorecard) :
  blank userMessage = false ->
  Chat.isLoading h = false ->
  deployed backend env fetch ->
  let failed (text : string) :=
    {| Chat.sent := [Chat.requestOf rendered userMessage];
       Chat.store :=
         Store.setIsSpeaking false
           (Store.withMessages s (Store.messages s ++ [said userMessage]));
       Chat.hookAfter := {| Chat.isLoading := false; Chat.error := Some (Literal text) |};
       Chat.reported := [Literal text] |} in
  (noCredential env ->
   Chat.sendMessage fetch rendered userMessage h s = failed configurationError)
  /\ (forall p answer,
        detectProvider env = Some p ->
        (forall upstreamRequest, backend upstreamRequest = Resolved answer) ->
        Upstream.ok answer = false ->
        Chat.sendMessage fetch rendered userMessage h s
        = failed (apiName p +:+ " API error: " +:+ decimal (Upstream.status answer)
                  +:+ " - " +:+ Upstream.text answer)).
Proof.
  intros Hblank Hidle (parsed & Hparsed & Hanswers) failed.
  destruct (Hanswers (Chat.requestOf rendered userMessage)) as (r & Hfetch & Hserved).
  assert (Hshown : forall text,
    snd (POST_reply backend env (parsed (Chat.requestOf rendered userMessage)))
    = ErrorReply 500 (Literal text) ->
    text <> EmptyString ->
    Chat.sendMessage fetch rendered userMessage h s = failed text).
  { intros text Hreply Htext. rewrite Hreply in Hserved.
    rewrite (sendMessage_fails fetch rendered userMessage h s (Literal text) []
               Hblank Hidle).
    - reflexivity.
    - rewrite Hfetch. now apply error_reply_fails with (code := 500%nat). }
  split.
  - intros Hnone. apply Hshown; [|discriminate].
    now apply configurationError_reply with (history := Chat.messages (Chat.requestOf rendered userMessage)).
  - intros p answer Hp Hbackend Hok. apply Hshown.
    + now apply upstreamError_reply
        with (history := Chat.messages (Chat.requestOf rendered userMessage)).
    + destruct p; discriminate.
Qed.

End HookClaims.

(** ** Example deployments, on the reference platform *)

Definition minutes (d : Store.InterviewDuration) : @number Reference.platform :=
  match d with
  | Store.minutes15 => 15%Z
  | Store.minutes30 => 30%Z
  | Store.minutes60 => 60%Z
  end.

(** The request body as the handler parses it. *)
Definition asParsed (req : Chat.request) : @ChatRequest Reference.platform :=
  {| messages := Some (Chat.messages req);
     jobDescription := Some (Chat.jobDescription req);
     interviewTypes := Some (List.map Store.typeTag (Chat.interviewTypes req));
     difficulty := Some (Store.levelName (Chat.difficulty req));
     duration := Some (minutes (Chat.duration req)) |}.

(** A network that hands over the chunks as the handler emits them. *)
Definition overNetwork (reply : Reply) : Chat.response (platform := Reference.platform) :=
  match reply with
  | ErrorReply code (Literal text) =>
      {| Chat.ok := (200 <=? code)%nat && (code <=? 299)%nat; Chat.status := code;
         Chat.jsonBody := Some (JObject [("error", JString text)]); Chat.body := None |}
  | ErrorReply code (EngineMessage _) =>
      {| Chat.ok := (200 <=? code)%nat && (code <=? 299)%nat; Chat.status := code;
         Chat.jsonBody := Some (JObject [("error", JString "Unexpected end of JSON input")]);
         Chat.body := None |}
  | BodyReply _ (Some emitted) =>
      {| Chat.ok := true; Chat.status := 200; Chat.jsonBody := None;
         Chat.body := Some (emitted, Chat.Done) |}
  | BodyReply _ None =>
      {| Chat.ok := true; Chat.status := 200; Chat.jsonBody := None; Chat.body := None |}
  end.

Definition exampleFetch (backend : HttpRequest -> Fetched) (env : Env)
  : Chat.request -> Chat.Fetched :=
  fun req => Chat.Resolved (overNetwork (snd (POST_reply backend env (asParsed req)))).


Definition twoChunks : Chat.request -> Chat.Fetched (platform := Reference.platform) :=
  fun _ => Chat.Resolved {| Chat.ok := true; Chat.status := 200; Chat.jsonBody := None;
                            Chat.body := Some (["Tell me "; "about yourself."], Chat.Done) |}.


Definition idle : Chat.hook := {| Chat.isLoading := false; Chat.error := None |}.

Definition busy : Chat.hook := {| Chat.isLoading := true; Chat.error := None |}.

(** A store with one exchange in its history. *)
Definition greeted : Store.state unit :=
  Store.addMessage (replied "Welcome.") (Store.addMessage (said "Hello") Store.initial).

Lemma exampleFetch_streams :
  deployed (platform := Reference.platform) streamingBackend Examples.allCredentials
    (exampleFetch streamingBackend Examples.allCredentials).
Proof.
  exists asParsed. split; [reflexivity|].
  intros req. eexists. split; [reflexivity|].
  rewrite (stream_reply (platform := Reference.platform) streamingBackend
             Examples.allCredentials (asParsed req) (Chat.messages req) openai OpenAIWire 200
             (upstream Examples.corruptedBody) eq_refl eq_refl eq_refl (fun _ => eq_refl)).
  cbn [overNetwork]. now apply served_body.
Qed.

Lemma exampleFetch_unconfigured :
  deployed (platform := Reference.platform) streamingBackend Examples.noCredentials
    (exampleFetch streamingBackend Examples.noCredentials).
Proof.
  exists asParsed. split; [reflexivity|].
  intros req. eexists. split; [reflexivity|].
  cbn. apply served_error.
Qed.

Lemma exampleFetch_limited :
  deployed (platform := Reference.platform) failingBackend Examples.anthropicAndOllama
    (exampleFetch failingBackend Examples.anthropicAndOllama).
Proof.
  exists asParsed. split; [reflexivity|].
  intros req. eexists. split; [reflexivity|].
  rewrite (upstreamError_reply (platform := Reference.platform) failingBackend
             Examples.anthropicAndOllama (asParsed req) (Chat.messages req) anthropic _
             eq_refl eq_refl (fun _ => eq_refl) eq_refl).
  cbn [overNetwork upstreamError]. apply served_error.
Qed.

(** X16, witness: a message of blanks, and a greeting while loading. *)
Lemma blank_or_busy_send_does_nothing_witness :
  Chat.sendMessage twoChunks greeted (String " " (String "009" nl)) idle greeted
  = {| Chat.sent := []; Chat.store := greeted; Chat.hookAfter := idle; Chat.reported := [] |}
  /\ Chat.startInterview twoChunks greeted busy greeted
     = {| Chat.sent := []; Chat.store := greeted; Chat.hookAfter := busy; Chat.reported := [] |}.
Proof.
  split.
  - apply blank_or_busy_send_does_nothing. left. reflexivity.
  - apply blank_or_busy_send_does_nothing. right. reflexivity.
Defined.

(** X17, witness: a reply in two chunks. *)
Lemma streamed_reply_is_appended_witness :
  Store.messages
    (Chat.store (Chat.sendMessage twoChunks greeted "I am ready." idle greeted))
  = [said "Hello"; replied "Welcome."; said "I am ready."; replied "Tell me about yourself."].
Proof.
  pose proof (streamed_reply_is_appended twoChunks greeted "I am ready." idle greeted
                _ ["Tell me "; "about yourself."] eq_refl eq_refl eq_refl eq_refl eq_refl)
    as [_ Hsent].
  now rewrite Hsent.
Defined.


(** X19, witness: the OpenAI body with a corrupt line, through the handler
    and the hook. *)
Lemma turn_appends_decoded_reply_witness :
  Store.messages
    (Chat.store
       (Chat.sendMessage (exampleFetch streamingBackend Examples.allCredentials)
          greeted "I am ready." idle greeted))
  = [said "Hello"; replied "Welcome."; said "I am ready."; replied "Hello, world"].
Proof.
  rewrite (turn_appends_decoded_reply (platform := Reference.platform) streamingBackend
             Examples.allCredentials (exampleFetch streamingBackend Examples.allCredentials)
             greeted "I am ready." idle greeted openai OpenAIWire 200 Examples.corruptedBody
             eq_refl eq_refl exampleFetch_streams eq_refl eq_refl (fun _ => eq_refl)).
  - reflexivity.
  - whole_lines ltac:(first [apply received_frame; framed | apply received_malformed; corrupt]).
Defined.

(** X20, witness: a handler without credentials, and a backend that
    answers 429. *)
Lemma handler_errors_reach_the_user_witness :
  Chat.hookAfter
    (Chat.sendMessage (exampleFetch streamingBackend Examples.noCredentials)
       greeted "I am ready." idle greeted)
  = {| Chat.isLoading := false;
       Chat.error :=
         Some (Literal "No API keys configured. Set OPENAI_API_KEY, ANTHROPIC_API_KEY, or HUGGINGFACE_API_KEY") |}
  /\ Chat.hookAfter
       (Chat.sendMessage (exampleFetch failingBackend Examples.anthropicAndOllama)
          greeted "I am ready." idle greeted)
     = {| Chat.isLoading := false;
          Chat.error := Some (Literal "Anthropic API error: 429 - rate limited") |}.
Proof.
  split.
  - rewrite (proj1 (handler_errors_reach_the_user (platform := Reference.platform)
                      streamingBackend Examples.noCredentials
                      (exampleFetch streamingBackend Examples.noCredentials)
                      greeted "I am ready." idle greeted eq_refl eq_refl
                      exampleFetch_unconfigured)).
    + reflexivity.
    + unfold noCredential, credentials.
      repeat (apply List.Forall_cons; [is_absent|]). apply List.Forall_nil.
  - rewrite (proj2 (handler_errors_reach_the_user (platform := Reference.platform)
                      failingBackend Examples.anthropicAndOllama
                      (exampleFetch failingBackend Examples.anthropicAndOllama)
                      greeted "I am ready." idle greeted eq_refl eq_refl
                      exampleFetch_limited)
               anthropic _ eq_refl (fun _ => eq_refl) eq_refl).
    reflexivity.
Defined.

(** * The scorecard route (app/api/scorecard/route.ts)

    The handler up to the call of the provider: the validation of the
    request, the resolution of the provider and the prompt. *)

Module Scoring.

(** This route knows three providers. *)
Definition detectProvider (env : Env) : Provider :=
  if isSet env "OPENAI_API_KEY" then Some openai
  else if isSet env "ANTHROPIC_API_KEY" then Some anthropic
  else if isSet env "HUGGINGFACE_API_KEY" then Some huggingface
  else None.

(** [msg.role === 'assistant' ? 'Interviewer' : 'Candidate'] *)
Definition speaker (r : Role) : string :=
  match r with
  | assistant => "Interviewer"
  | user | system => "Candidate"
  end.

Definition transcriptLine (msg : Message) : string :=
  speaker (role msg) +:+ ": " +:+ content msg.

Definition conversation (messages : list Message) : string :=
  join (nl +:+ nl) (List.map transcriptLine messages).

Definition typeDescriptions : list (string * string) :=
  [("coding", "coding challenges");
   ("multiple-choice", "quiz-style questions");
   ("behavioral", "behavioral questions");
   ("technical", "technical concepts");
   ("hr", "HR/culture fit");
   ("hiring-manager", "leadership/vision")].

(** The lines of the template literal that [getScorecardPrompt] returns,
    over the values interpolated into it. *)
Definition scorecardLines
    (contextSection selectedTypes difficultyLevel conversation : string) : list string :=
  ["You are an expert interview coach and assessor. Analyze the following mock interview conversation and provide a detailed performance scorecard.";
     EmptyString;
     contextSection +:+ "Interview Type: " +:+ selectedTypes;
     "Difficulty Level: " +:+ difficultyLevel;
     EmptyString;
     "Interview Conversation:";
     conversation;
     EmptyString;
     "Based on this interview, provide a JSON scorecard with the following structure. Be constructive, specific, and actionable in your feedback. Scores should be from 1-10.";
     EmptyString;
     "{";
     "  " +:+ dq +:+ "technicalAccuracy" +:+ dq +:+ ": {";
     "    " +:+ dq +:+ "score" +:+ dq +:+ ": <1-10>,";
     "    " +:+ dq +:+ "feedback" +:+ dq +:+ ": " +:+ dq +:+ "<2-3 sentences about technical performance>" +:+ dq +:+ ",";
     "    " +:+ dq +:+ "strengths" +:+ dq +:+ ": [" +:+ dq +:+ "<strength 1>" +:+ dq +:+ ", " +:+ dq +:+ "<strength 2>" +:+ dq +:+ "],";
     "    " +:+ dq +:+ "improvements" +:+ dq +:+ ": [" +:+ dq +:+ "<improvement 1>" +:+ dq +:+ ", " +:+ dq +:+ "<improvement 2>" +:+ dq +:+ "]";
     "  },";
     "  " +:+ dq +:+ "communicationSkills" +:+ dq +:+ ": {";
     "    " +:+ dq +:+ "score" +:+ dq +:+ ": <1-10>,";
     "    " +:+ dq +:+ "feedback" +:+ dq +:+ ": " +:+ dq +:+ "<2-3 sentences about communication>" +:+ dq +:+ ",";
     "    " +:+ dq +:+ "strengths" +:+ dq +:+ ": [" +:+ dq +:+ "<strength 1>" +:+ dq +:+ ", " +:+ dq +:+ "<strength 2>" +:+ dq +:+ "],";
     "    " +:+ dq +:+ "improvements" +:+ dq +:+ ": [" +:+ dq +:+ "<improvement 1>" +:+ dq +:+ ", " +:+ dq +:+ "<improvement 2>" +:+ dq +:+ "]";
     "  },";
     "  " +:+ dq +:+ "overallScore" +:+ dq +:+ ": <1-10>,";
     "  " +:+ dq +:+ "keyAreasForImprovement" +:+ dq +:+ ": [";
     "    " +:+ dq +:+ "<specific actionable improvement 1>" +:+ dq +:+ ",";
     "    " +:+ dq +:+ "<specific actionable improvement 2>" +:+ dq +:+ ",";
     "    " +:+ dq +:+ "<specific actionable improvement 3>" +:+ dq;
     "  ],";
     "  " +:+ dq +:+ "summary" +:+ dq +:+ ": " +:+ dq +:+ "<3-4 sentence overall assessment and encouragement>" +:+ dq;
     "}";
     EmptyString;
     "Respond ONLY with the JSON object, no additional text."].

Definition scorecardTemplate
    (contextSection selectedTypes difficultyLevel conversation : string) : string :=
  join nl (scorecardLines contextSection selectedTypes difficultyLevel conversation).

Section Route.

Context {platform : Platform}.

Definition selectedTypes (interviewTypes : option (list string)) : string :=
  match interviewTypes with
  | Some types =>
      orElse (Some (join ", " (List.map (fun t => orElse (lookup_record typeDescriptions t) t) types)))
             "general interview"
  | None => "general interview"
  end.

Definition difficultyLevel (difficulty : option string) : string :=
  orElse difficulty "intermediate".

Definition contextSection (jobDescription : option string) : string :=
  match jobDescription with
  | Some text =>
      if nonEmpty (trim text)
      then "Job Description:" +:+ nl +:+ text +:+ nl +:+ nl
      else EmptyString
  | None => EmptyString
  end.

Definition getScorecardPrompt
    (messages : list Message) (jobDescription : option string)
    (interviewTypes : option (list string)) (difficulty : option string) : string :=
  scorecardTemplate (contextSection jobDescription) (selectedTypes interviewTypes)
    (difficultyLevel difficulty) (conversation messages).

End Route.

(** The request body after [request.json()]. [messages] is [None] when
    the field is falsy or is not an array. *)
Record ScorecardRequest := {
  messages : option (list Message);
  jobDescription : option string;
  interviewTypes : option (list string);
  difficulty : option string
}.

(** What the handler does before any call goes out: it answers with a
    JSON error, or it asks a provider with a prompt. *)
Inductive Outcome :=
| JsonError (status : nat) (error : string)
| Asked (p : ProviderName) (prompt : string).

Definition POST {platform : Platform} (env : Env) (body : ScorecardRequest) : Outcome :=
  match messages body with
  | None | Some [] =>
      JsonError 400 "Invalid request: messages array is required and must not be empty"
  | Some history =>
      match detectProvider env with
      | None =>
          JsonError 500
            "No API keys configured. Please set one of: OPENAI_API_KEY, ANTHROPIC_API_KEY, or HUGGINGFACE_API_KEY"
      | Some provider =>
          let prompt :=
            getScorecardPrompt history (jobDescription body) (interviewTypes body)
                               (difficulty body) in
          match provider with
          | openai | anthropic | huggingface => Asked provider prompt
          | ollama => JsonError 500 "Unknown provider"
          end
      end
  end.

End Scoring.

(** The credentials other than Ollama's. *)
Definition otherCredentials : list string :=
  ["OPENAI_API_KEY"; "ANTHROPIC_API_KEY"; "HUGGINGFACE_API_KEY"].

Section ScoringClaims.

Context {platform : Platform}.

Import JsStringFacts.

Local Open Scope list_scope.

(** X21. The two routes resolve the same provider, except that the
    scorecard route never resolves Ollama: where the chat route resolves
    Ollama, the scorecard route resolves Hugging Face when its credential
    is present and no provider otherwise. *)
Theorem scorecard_route_skips_ollama (env : Env) :
  Scoring.detectProvider env <> Some ollama
  /\ (detectProvider env <> Some ollama -> Scoring.detectProvider env = detectProvider env)
  /\ (detectProvider env = Some ollama ->
      Scoring.detectProvider env
      = if isSet env "HUGGINGFACE_API_KEY" then Some huggingface else None).
Proof.
  unfold Scoring.detectProvider, detectProvider.
  destruct (isSet env "OPENAI_API_KEY"), (isSet env "ANTHROPIC_API_KEY"),
    (isSet env "OLLAMA_API_KEY"), (isSet env "HUGGINGFACE_API_KEY");
    (split; [discriminate | split; [intros Hne | intros Heq]]);
    first [reflexivity | discriminate | now contradiction Hne].
Qed.

Lemma scoring_none (env : Env) :
  Forall (fun name => ~ present env name) otherCredentials ->
  Scoring.detectProvider env = None.
Proof.
  intros Hnone. unfold otherCredentials in Hnone.
  rewrite !List.Forall_cons_iff in Hnone. destruct Hnone as (H1 & H2 & H3 & _).
  apply isSet_false in H1, H2, H3.
  unfold Scoring.detectProvider. now rewrite H1, H2, H3.
Qed.

Lemma chat_resolves_ollama (env : Env) :
  present env "OLLAMA_API_KEY" ->
  Forall (fun name => ~ present env name) otherCredentials ->
  detectProvider env = Some ollama.
Proof.
  intros Hollama Hnone. unfold otherCredentials in Hnone.
  rewrite !List.Forall_cons_iff in Hnone. destruct Hnone as (H1 & H2 & _).
  apply isSet_false in H1, H2. apply isSet_true in Hollama.
  unfold detectProvider. now rewrite H1, H2, Hollama.
Qed.

(** X22. A deployment with the Ollama credential alone serves the chat and
    not the scorecard: the chat handler dispatches every request with a
    messages array, empty or not, to Ollama, and the scorecard handler
    answers every request with a history that is not empty with 500 and a
    message that names the three other credentials. *)
Theorem ollama_alone_serves_chat_only (env : Env) :
  present env "OLLAMA_API_KEY" ->
  Forall (fun name => ~ present env name) otherCredentials ->
  (forall (chatRequest : ChatRequest) (chatHistory : list Message),
     messages chatRequest = Some chatHistory ->
     exists upstreamRequest, POST env chatRequest = Dispatch ollama upstreamRequest)
  /\ (forall (scoreRequest : Scoring.ScorecardRequest) (history : list Message),
        Scoring.messages scoreRequest = Some history ->
        history <> [] ->
        Scoring.POST env scoreRequest
        = Scoring.JsonError 500
            "No API keys configured. Please set one of: OPENAI_API_KEY, ANTHROPIC_API_KEY, or HUGGINGFACE_API_KEY").
Proof.
  intros Hollama Hnone. split.
  - intros chatRequest chatHistory Hchat.
    exact (POST_dispatches env chatRequest chatHistory ollama Hchat
             (chat_resolves_ollama env Hollama Hnone)).
  - intros scoreRequest history Hscore Hhistory.
    unfold Scoring.POST. rewrite Hscore, (scoring_none env Hnone).
    now destruct history.
Qed.

(** X23. An empty history is refused by the scorecard handler and accepted
    by the chat handler: with a messages array that is missing or empty the
    scorecard handler answers 400 under every configuration, before it
    looks at the credentials, while the chat handler, given an empty array
    and any credential, dispatches to the resolved provider. *)
Theorem scorecard_refuses_empty_history
    (env : Env) (chatRequest : ChatRequest) (scoreRequest : Scoring.ScorecardRequest) :
  Scoring.messages scoreRequest = None \/ Scoring.messages scoreRequest = Some [] ->
  Scoring.POST env scoreRequest
  = Scoring.JsonError 400 "Invalid request: messages array is required and must not be empty"
  /\ (messages chatRequest = Some [] ->
      someCredential env ->
      exists p upstreamRequest,
        detectProvider env = Some p /\ POST env chatRequest = Dispatch p upstreamRequest).
Proof.
  intros Hempty. split.
  - unfold Scoring.POST. now destruct Hempty as [-> | ->].
  - intros Hchat Hsome. destruct (detectProvider_some _ Hsome) as [p Hp].
    destruct (POST_dispatches _ _ _ _ Hchat Hp) as [req Hreq]. now exists p, req.
Qed.

Lemma join_app (sep : string) (a b : list string) :
  a <> [] -> b <> [] -> join sep (a ++ b) = join sep a +:+ sep +:+ join sep b.
Proof.
  intros Ha Hb. induction a as [|x [|y a] IH]; [contradiction| |].
  - destruct b as [|z b]; [contradiction|]. cbn [app]. now rewrite join_cons_cons.
  - change ((x :: y :: a) ++ b) with (x :: (y :: a) ++ b).
    change ((y :: a) ++ b) with (y :: a ++ b) at 1.
    rewrite !join_cons_cons.
    change (y :: a ++ b) with ((y :: a) ++ b). rewrite IH by discriminate.
    now rewrite !append_assoc.
Qed.

Lemma join_around (sep line : string) (a b : list string) :
  a <> [] -> b <> [] ->
  join sep (a ++ line :: b) = (join sep a +:+ sep) +:+ line +:+ (sep +:+ join sep b).
Proof.
  intros Ha Hb. rewrite join_app by (assumption || discriminate).
  destruct b as [|y b]; [contradiction|]. rewrite join_cons_cons.
  now rewrite !append_assoc.
Qed.

(** X24. The history enters the scorecard prompt as its transcript and in
    no other way: the prompt is a text before, the transcript and a text
    after, neither of which depends on the history. The transcript of a
    history in two parts is the transcript of the first part, an empty
    line and the transcript of the second, and every message is one entry
    of it, the assistant's as Interviewer and any other as Candidate. *)
Theorem scorecard_prompt_holds_transcript
    (jobDescription : option string) (interviewTypes : option (list string))
    (difficulty : option string) :
  (exists before after,
     forall history,
       Scoring.getScorecardPrompt history jobDescription interviewTypes difficulty
       = before +:+ Scoring.conversation history +:+ after)
  /\ (forall earlier later,
        earlier <> [] -> later <> [] ->
        Scoring.conversation (earlier ++ later)
        = Scoring.conversation earlier +:+ nl +:+ nl +:+ Scoring.conversation later)
  /\ (forall msg,
        Scoring.conversation [msg]
        = match role msg with
          | assistant => "Interviewer: " +:+ content msg
          | user | system => "Candidate: " +:+ content msg
          end).
Proof.
  split; [|split].
  - unfold Scoring.getScorecardPrompt, Scoring.scorecardTemplate.
    set (ctx := Scoring.contextSection jobDescription).
    set (types := Scoring.selectedTypes interviewTypes).
    set (level := Scoring.difficultyLevel difficulty).
    exists (join nl (firstn 6 (Scoring.scorecardLines ctx types level EmptyString)) +:+ nl),
           (nl +:+ join nl (skipn 7 (Scoring.scorecardLines ctx types level EmptyString))).
    intros history. rewrite <- join_around by discriminate. reflexivity.
  - intros earlier later He Hl. unfold Scoring.conversation.
    rewrite List.map_app, join_app; [now rewrite !append_assoc | |];
      intros Hnil; apply List.map_eq_nil in Hnil; contradiction.
  - intros [[] text]; reflexivity.
Qed.

End ScoringClaims.

Definition helloScorecard : Scoring.ScorecardRequest :=
  {| Scoring.messages := Some Examples.hello; Scoring.jobDescription := None;
     Scoring.interviewTypes := None; Scoring.difficulty := None |}.

Definition emptyScorecard : Scoring.ScorecardRequest :=
  {| Scoring.messages := Some []; Scoring.jobDescription := None;
     Scoring.interviewTypes := None; Scoring.difficulty := None |}.

Definition emptyChat : @ChatRequest Reference.platform :=
  {| messages := Some []; jobDescription := None; interviewTypes := None;
     difficulty := None; duration := None |}.

(** X22, witness: the Ollama credential alone, with a chat request whose
    history is empty, one whose history is not, and a scorecard request. *)
Lemma ollama_alone_serves_chat_only_witness :
  (exists upstreamRequest,
     POST (platform := Reference.platform) Examples.onlyOllama emptyChat
     = Dispatch ollama upstreamRequest)
  /\ (exists upstreamRequest,
        POST (platform := Reference.platform) Examples.onlyOllama Examples.helloRequest
        = Dispatch ollama upstreamRequest)
  /\ Scoring.POST (platform := Reference.platform) Examples.onlyOllama helloScorecard
     = Scoring.JsonError 500
         "No API keys configured. Please set one of: OPENAI_API_KEY, ANTHROPIC_API_KEY, or HUGGINGFACE_API_KEY".
Proof.
  destruct (ollama_alone_serves_chat_only (platform := Reference.platform)
              Examples.onlyOllama) as [Hchat Hscore].
  - is_present.
  - unfold otherCredentials.
    repeat (apply List.Forall_cons; [is_absent|]). apply List.Forall_nil.
  - split; [|split].
    + exact (Hchat emptyChat [] eq_refl).
    + exact (Hchat Examples.helloRequest Examples.hello eq_refl).
    + apply (Hscore helloScorecard Examples.hello eq_refl). discriminate.
Defined.

(** X23, witness: an empty history under all credentials. *)
Lemma scorecard_refuses_empty_history_witness :
  Scoring.POST (platform := Reference.platform) Examples.allCredentials emptyScorecard
  = Scoring.JsonError 400 "Invalid request: messages array is required and must not be empty"
  /\ exists upstreamRequest,
       POST (platform := Reference.platform) Examples.allCredentials emptyChat
       = Dispatch openai upstreamRequest.
Proof.
  destruct (scorecard_refuses_empty_history (platform := Reference.platform)
              Examples.allCredentials emptyChat emptyScorecard (or_intror eq_refl))
    as [Hrefused Hchat].
  split; [exact Hrefused|].
  destruct (Hchat eq_refl) as (p & req & Hp & Hreq).
  - unfold someCredential, credentials. apply Exists_cons_hd. is_present.
  - vm_compute in Hp. injection Hp as <-. now exists req.
Defined.

(** * The choice of a voice (hooks/useSpeechSynthesis.ts)

    A voice is read through its [name] and its [lang]. *)

Module Speech.

Inductive VoiceGender := female | male.

Record Voice := {
  name : string;
  lang : string
}.

(** [s.includes(needle)] *)
Definition includes (s needle : string) : bool := contains needle s.

(** [c.toLowerCase()] in the Latin-1 range: the letters A to Z, and the
    letters from A grave to thorn but the multiplication sign. *)
Definition lower (c : ascii) : ascii :=
  let n := nat_of_ascii c in
  if ((65 <=? n)%nat && (n <=? 90)%nat)
     || ((192 <=? n)%nat && (n <=? 222)%nat && negb (n =? 215)%nat)
  then ascii_of_nat (n + 32)
  else c.

Fixpoint toLowerCase (s : string) : string :=
  match s with
  | EmptyString => EmptyString
  | String c r => String (lower c) (toLowerCase r)
  end.

Definition femaleVoices : list string :=
  ["Google UK English Female"; "Google US English Female"; "Microsoft Zira"; "Samantha";
   "Karen"; "Moira"; "Tessa"; "Fiona"; "Victoria"; "Allison"].

Definition maleVoices : list string :=
  ["Google UK English Male"; "Google US English Male"; "Microsoft David"; "Alex";
   "Daniel"; "Tom"; "Oliver"; "Aaron"; "Fred"].

Definition preferredList (gender : VoiceGender) : list string :=
  match gender with
  | female => femaleVoices
  | male => maleVoices
  end.

Definition genderKeywords (gender : VoiceGender) : list string :=
  match gender with
  | female => ["female"; "woman"; "girl"; "zira"; "samantha"; "karen"; "fiona"]
  | male => ["male"; "man"; "david"; "daniel"; "alex"; "tom"; "oliver"]
  end.

(** The loop over the preferred names: the first name that some voice
    includes decides, and the first voice that includes it is returned. *)
Fixpoint firstPreferred (preferred : list string) (voices : list Voice) : option Voice :=
  match preferred with
  | [] => None
  | p :: rest =>
      match List.find (fun v => includes (name v) p) voices with
      | Some found => Some found
      | None => firstPreferred rest voices
      end
  end.

(** The test of the fallback: an English voice whose name in lower case
    includes one of the keywords. *)
Definition soundsLike (gender : VoiceGender) (v : Voice) : bool :=
  let nameLower := toLowerCase (name v) in
  startsWith "en" (lang v)
  && existsb (fun keyword => includes nameLower keyword) (genderKeywords gender).

Definition findVoiceByGender (voices : list Voice) (gender : VoiceGender) : option Voice :=
  match voices with
  | [] => None
  | _ :: _ =>
      match firstPreferred (preferredList gender) voices with
      | Some found => Some found
      | None =>
          match List.find (soundsLike gender) voices with
          | Some fallbackVoice => Some fallbackVoice
          | None =>
              match List.find (fun v => startsWith "en" (lang v)) voices with
              | Some english => Some english
              | None => List.head voices
              end
          end
      end
  end.

(** [getVoice]: a requested name that is not empty and that some voice
    includes decides; otherwise the gender does. *)
Definition getVoice (voices : list Voice) (voiceName : option string)
    (preferredGender : VoiceGender) : option Voice :=
  match voices with
  | [] => None
  | _ :: _ =>
      let byGender := findVoiceByGender voices preferredGender in
      match voiceName with
      | Some requested =>
          if nonEmpty requested then
            match List.find (fun v => includes (name v) requested) voices with
            | Some found => Some found
            | None => byGender
            end
          else byGender
      | None => byGender
      end
  end.

End Speech.

(** No voice includes any of the names. *)
Definition unheard (names : list string) (voices : list Speech.Voice) : Prop :=
  Forall (fun p => Forall (fun v => Speech.includes (Speech.name v) p = false) voices) names.

Definition english (v : Speech.Voice) : bool := startsWith "en" (Speech.lang v).

Section SpeechClaims.

Import JsStringFacts.

Local Open Scope list_scope.

Lemma find_listed {A : Type} (test : A -> bool) (l : list A) (x : A) :
  List.find test l = Some x -> In x l.
Proof. intros Hfind. now apply List.find_some in Hfind. Qed.

Lemma firstPreferred_listed (preferred : list string) (voices : list Speech.Voice)
    (v : Speech.Voice) :
  Speech.firstPreferred preferred voices = Some v -> In v voices.
Proof.
  induction preferred as [|p rest IH]; [discriminate|]. cbn [Speech.firstPreferred].
  destruct (List.find _ voices) as [found|] eqn:Hfind; [|exact IH].
  intros [= <-]. now apply find_listed in Hfind.
Qed.

Lemma findVoiceByGender_listed (voices : list Speech.Voice) (gender : Speech.VoiceGender)
    (v : Speech.Voice) :
  Speech.findVoiceByGender voices gender = Some v -> In v voices.
Proof.
  unfold Speech.findVoiceByGender. destruct voices as [|first others]; [discriminate|].
  destruct (Speech.firstPreferred _ _) as [found|] eqn:Hpreferred.
  { intros [= <-]. now apply firstPreferred_listed in Hpreferred. }
  destruct (List.find (Speech.soundsLike gender) _) as [found|] eqn:Hsounds.
  { intros [= <-]. now apply find_listed in Hsounds. }
  destruct (List.find (fun u => startsWith "en" (Speech.lang u)) _) as [found|] eqn:Henglish.
  { intros [= <-]. now apply find_listed in Henglish. }
  cbn [List.head]. intros [= <-]. now left.
Qed.

Lemma findVoiceByGender_some (voices : list Speech.Voice) (gender : Speech.VoiceGender) :
  voices <> [] -> exists v, Speech.findVoiceByGender voices gender = Some v.
Proof.
  unfold Speech.findVoiceByGender. destruct voices as [|first others]; [contradiction|].
  intros _.
  destruct (Speech.firstPreferred _ _) as [found|]; [now exists found|].
  destruct (List.find (Speech.soundsLike gender) _) as [found|]; [now exists found|].
  destruct (List.find (fun u => startsWith "en" (Speech.lang u)) _) as [found|];
    [now exists found|].
  now exists first.
Qed.

(** X25. A voice is chosen whenever there is one, and it is one of the
    voices given: [findVoiceByGender] and [getVoice] return [null] exactly
    for an empty list, and a member of the list otherwise. *)
Theorem a_listed_voice_is_chosen
    (voices : list Speech.Voice) (voiceName : option string) (gender : Speech.VoiceGender) :
  (Speech.findVoiceByGender voices gender = None <-> voices = [])
  /\ (Speech.getVoice voices voiceName gender = None <-> voices = [])
  /\ (forall v, Speech.findVoiceByGender voices gender = Some v -> In v voices)
  /\ (forall v, Speech.getVoice voices voiceName gender = Some v -> In v voices).
Proof.
  assert (Hgender : Speech.findVoiceByGender voices gender = None <-> voices = []).
  { split; [|now intros ->].
    intros Hnone. destruct voices as [|first others]; [reflexivity|].
    destruct (findVoiceByGender_some (first :: others) gender) as [v Hv]; [discriminate|].
    congruence. }
  assert (Hcases : Speech.getVoice voices voiceName gender
                   = Speech.findVoiceByGender voices gender
                   \/ exists v, Speech.getVoice voices voiceName gender = Some v /\ In v voices).
  { unfold Speech.getVoice. destruct voices as [|first others]; [now left|].
    destruct voiceName as [requested|]; [|now left].
    destruct (nonEmpty requested); [|now left].
    destruct (List.find _ _) as [found|] eqn:Hfind; [|now left].
    right. exists found. split; [reflexivity | now apply find_listed in Hfind]. }
  split; [exact Hgender|]. split; [|split].
  - destruct Hcases as [-> | (v & Hv & Hin)]; [exact Hgender|].
    rewrite Hv. split; [discriminate|]. intros ->. destruct Hin.
  - apply findVoiceByGender_listed.
  - intros v. destruct Hcases as [-> | (u & Hu & Hin)].
    + apply findVoiceByGender_listed.
    + rewrite Hu. now intros [= <-].
Qed.

Lemma firstPreferred_unheard (names : list string) (voices : list Speech.Voice)
    (rest : list string) :
  unheard names voices ->
  Speech.firstPreferred (names ++ rest) voices = Speech.firstPreferred rest voices.
Proof.
  induction 1 as [|p names Hp _ IH]; [reflexivity|].
  cbn [app Speech.firstPreferred].
  destruct (List.find _ voices) as [found|] eqn:Hfind; [|exact IH].
  apply List.find_some in Hfind as [Hin Htest].
  rewrite List.Forall_forall in Hp. specialize (Hp _ Hin). congruence.
Qed.

Lemma findVoiceByGender_some_voice (voices : list Speech.Voice) (gender : Speech.VoiceGender) :
  voices <> [] ->
  Speech.findVoiceByGender voices gender
  = match Speech.firstPreferred (Speech.preferredList gender) voices with
    | Some found => Some found
    | None =>
        match List.find (Speech.soundsLike gender) voices with
        | Some fallbackVoice => Some fallbackVoice
        | None =>
            match List.find (fun v => startsWith "en" (Speech.lang v)) voices with
            | Some english => Some english
            | None => List.head voices
            end
        end
    end.
Proof. now destruct voices. Qed.

(** X26. The order of the preferred names decides before the order of the
    voices: the voice returned is the first voice that includes the first
    preferred name included by any voice. *)
Theorem preferred_name_order_decides
    (voices : list Speech.Voice) (gender : Speech.VoiceGender)
    (earlier later : list string) (p : string) (v : Speech.Voice) :
  Speech.preferredList gender = earlier ++ p :: later ->
  unheard earlier voices ->
  List.find (fun u => Speech.includes (Speech.name u) p) voices = Some v ->
  Speech.findVoiceByGender voices gender = Some v.
Proof.
  intros Hlist Hearlier Hfind. unfold Speech.findVoiceByGender.
  destruct voices as [|first others]; [discriminate|].
  rewrite Hlist, (firstPreferred_unheard _ _ _ Hearlier).
  cbn [Speech.firstPreferred]. now rewrite Hfind.
Qed.

Lemma female_includes_male (s : string) :
  Speech.includes s "female" = true -> Speech.includes s "male" = true.
Proof.
  unfold Speech.includes. rewrite !contains_spec. intros (pre & post & ->).
  exists (pre +:+ "fe"), post. now rewrite !append_assoc.
Qed.

Lemma woman_includes_man (s : string) :
  Speech.includes s "woman" = true -> Speech.includes s "man" = true.
Proof.
  unfold Speech.includes. rewrite !contains_spec. intros (pre & post & ->).
  exists (pre +:+ "wo"), post. now rewrite !append_assoc.
Qed.

Lemma find_first {A : Type} (test : A -> bool) (before after : list A) (x : A) :
  Forall (fun y => test y = false) before ->
  test x = true ->
  List.find test (before ++ x :: after) = Some x.
Proof.
  induction 1 as [|y before Hy _ IH]; intros Hx; cbn [app List.find].
  - now rewrite Hx.
  - rewrite Hy. now apply IH.
Qed.

(** X27. The fallback for a male voice takes a name that says female: when
    no voice includes a preferred male name, the first English voice is
    returned for the male gender if its name in lower case includes
    [female] or [woman], since these include the keywords [male] and
    [man]; later voices are not looked at. *)
Theorem male_fallback_takes_female_names
    (before after : list Speech.Voice) (v : Speech.Voice) :
  unheard Speech.maleVoices (before ++ v :: after) ->
  Forall (fun u => english u = false) before ->
  english v = true ->
  Speech.includes (Speech.toLowerCase (Speech.name v)) "female" = true
  \/ Speech.includes (Speech.toLowerCase (Speech.name v)) "woman" = true ->
  Speech.findVoiceByGender (before ++ v :: after) Speech.male = Some v.
Proof.
  intros Hunheard Hbefore Henglish Hname.
  rewrite findVoiceByGender_some_voice by now destruct before.
  pose proof (firstPreferred_unheard _ _ [] Hunheard) as Hnone.
  rewrite app_nil_r in Hnone. cbn [Speech.preferredList]. rewrite Hnone.
  cbn [Speech.firstPreferred].
  rewrite (find_first (Speech.soundsLike Speech.male) before after v); [reflexivity| |].
  - eapply List.Forall_impl; [|exact Hbefore].
    intros u Hu. unfold Speech.soundsLike. unfold english in Hu. now rewrite Hu.
  - unfold Speech.soundsLike. unfold english in Henglish. rewrite Henglish.
    cbn [andb Speech.genderKeywords existsb].
    destruct Hname as [Hfemale | Hwoman].
    + now rewrite (female_includes_male _ Hfemale).
    + rewrite (woman_includes_man _ Hwoman). now rewrite orb_true_r.
Qed.

End SpeechClaims.

Ltac unheard_all :=
  unfold unheard;
  repeat first [apply List.Forall_nil | apply List.Forall_cons | reflexivity].

Definition daniel : Speech.Voice :=
  {| Speech.name := "Daniel (Enhanced)"; Speech.lang := "en-GB" |}.

Definition david : Speech.Voice :=
  {| Speech.name := "Microsoft David Desktop"; Speech.lang := "en-US" |}.

Definition anna : Speech.Voice :=
  {| Speech.name := "Anna"; Speech.lang := "de-DE" |}.

Definition englishFemale : Speech.Voice :=
  {| Speech.name := "English (UK) Female"; Speech.lang := "en-GB" |}.

Definition englishMale : Speech.Voice :=
  {| Speech.name := "English (UK) Male"; Speech.lang := "en-GB" |}.

(** X26, witness: Microsoft David is preferred to Daniel, whichever comes
    first among the voices. *)
Lemma preferred_name_order_decides_witness :
  Speech.findVoiceByGender [daniel; david] Speech.male = Some david.
Proof.
  apply (preferred_name_order_decides [daniel; david] Speech.male
           ["Google UK English Male"; "Google US English Male"]
           ["Alex"; "Daniel"; "Tom"; "Oliver"; "Aaron"; "Fred"]
           "Microsoft David" david).
  - reflexivity.
  - unheard_all.
  - reflexivity.
Defined.

(** X27, witness: a male voice is asked for, and the voice that says
    female is returned although one that says male follows. *)
Lemma male_fallback_takes_female_names_witness :
  Speech.findVoiceByGender [anna; englishFemale; englishMale] Speech.male
  = Some englishFemale.
Proof.
  apply (male_fallback_takes_female_names [anna] [englishMale] englishFemale).
  - unheard_all.
  - apply List.Forall_cons; [reflexivity | apply List.Forall_nil].
  - reflexivity.
  - left. reflexivity.
Defined.
